(* ===== verification/_CoqProject ===== *)
-Q . S2P
Prelude.v
Effects.v
GoValue.v
Runtime.v
Testing.v
Hooks.v
Guard.v
Must.v
Guarded.v
Soundness.v
Typing.v
Refinement.v
Machine.v
Interference.v
Concurrent.v
Isolation.v
Process.v
Scenarios.v
