(* ===== verification/Prelude.v ===== *)
(** * rg: the panic-to-error boundary of package [rg] -- verification development

    ** The program

    Package [rg] (src/guard.go) is what a Go function uses to turn panics
    into returned errors.  It has three parts:

    - the recovery barrier [Guard(err *error, opts ...Option)], deferred at
      the start of a function: it resolves its functional options
      ([options], [Option], [WithContext]), calls [recover], and when a
      panic was unwinding the function it calls the two observer variables
      and stores the payload, converted to an error, through [err];
    - the observers, two package-level variables holding function values,
      [OnGuard] and [OnGuardWithContext], which the application assigns
      and [Guard] reads and calls, in that order;
    - the helpers [Must0], [Must], [Must2] ... [Must7], which return their
      values when the trailing error is nil and panic with it otherwise.

    The parts meet in one pattern, the one every test of
    src/guard_test.go has: [func() { defer Guard(&err); ... Must(f()) ... }()].

    ** The files

    - [Prelude] (this file): the scope [go_scope], the hint databases
      [go_spec], [go_simpl] and [go_tests], shared tactics, and lemmas on strings,
      options and finite maps.
    - [Effects]: [comp S E A = S -> outcome E A * S], the state-and-panic
      monad all stateful code is written in.  A computation returns
      ([Normal]), panics ([Panicked]) or ends its goroutine ([Exited],
      with the panic that was raised while it was ending, if any).  With
      its laws, the pointwise equivalence [≡] and its [Proper] instances,
      and the classes [Returns] (always returns) and [NoPanic] (never
      ends in a panic).
    - [GoValue]: the values a panic carries ([value]: nil, booleans,
      integers, strings, errors, and [VOther] for a value of any other
      type, given by the name of its type and what [%v] prints for it),
      errors ([goerror], with the nil interface as [None]), contexts, the
      type assertion
      [r.(error)] and [fmt.Errorf("...%v", r)].
    - [Runtime]: the goroutine state [world] (heap, package-level
      variables, the panic in flight, the distance [w_depth] of the running
      code from the deferred call the unwinding invoked) and the language
      primitives over it: [gopanic], [recover], [Goexit], [call],
      [go_func] (a function with deferred calls), [in_goroutine] (a
      function run in a goroutine of its own), [go_new], [load], [store],
      [error_Error]; the classes [FrameIndep] and [FramePreserving].
    - [Testing]: what the tests rely on of package [testing] and of
      testify: [T] with [T_Fail] and [T_FailNow], the checks
      [require_Error], [require_NoError], [require_Equal] over their
      [assert_] versions, and [tRunner] and [run_test], which run a test
      and give its [verdict].
    - [Hooks]: the record [globals] of the two observer variables and the
      class [Hooks], the interface between [Guard] and the application: a
      type of function values of each kind and what calling one does.
      [Sample] and [Recording] are two applications used on concrete runs.
    - [Guard]: src/guard.go lines 15-54.  [resolve_options] is the loop
      over [opts], [resolve_context] the defaulting of the context,
      [notify_OnGuard] and [notify_OnGuardWithContext] the two guarded
      calls of the observers, [store_recovered] the type assertion and the
      assignment through [err], [Guard] the function.
    - [Must]: src/guard.go lines 56-118, one definition per helper with the
      test of [err] written as in the source, and the generic [MustN].
    - [Guarded]: the functions that defer [Guard]: [guarded], the function
      literal of src/guard_test.go lines 11-14 over any body, [Guard]
      wrapped in a closure ([guarded_in_closure]), and [Guard] among other
      deferred calls ([guarded_first], [guarded_last]).
    - [Soundness]: the invariant of the panic state ([wf_world]: a panic
      in flight never carries nil) as the class [Sound], with instances
      for the primitives, [Guard], [guarded] and the helpers;
      [HooksSound] is what the application owes for its observers.
    - [Typing]: the static types of the variables ([go_type],
      [has_type], with [int] at 64 bits) as an invariant of the heap
      ([heap_typed]); [Keeps] is the class of computations that keep a
      property of the heap, [HooksKeep] what the application owes.
    - [Refinement]: what a guarded function promises, without [defer] and
      [recover]: as a [try]/[catch] ([protect], whose handler
      [panic_handler] is guard.go lines 42-52) and as a computation that
      returns a tagged result ([attempt], [deliver]); [GuardWith] is the
      barrier over an explicit registry of observers.
    - [Machine]: [Guard] as a transition system whose control points
      ([point]) are the statements of guard.go lines 30-53 and whose
      transitions ([step], and [guard_step] as a function) emit the
      events an outside observer sees; [run] iterates it with fuel.
    - [Interference]: the machine interleaved with the writes of other
      goroutines to the variables and to the two observer variables
      ([interfere], [assign], [isteps]), and the run of a schedule
      ([irun]).
    - [Concurrent]: any number of goroutines inside [Guard] at once
      ([pool], [thread]): [cstep] is a statement of the [Guard] of one
      of them, [csteps] a run and [crun] the run of a schedule.
    - [Isolation]: the discipline the package is written for
      ([disciplined]: an [err] of its own for every goroutine, observers
      configured once; [rely]: the rest of the program leaves these
      variables alone), the runs of a pool under it ([dsteps]), and the
      accesses of [Guard] to shared variables ([next_access], [racy]).
    - [Process]: a program as goroutines over shared variables
      ([process], [stmt]): [pstep] runs the next call of some goroutine,
      and a panic that leaves it ends the program; [proc_step],
      [proc_run] and [run_all] are the executable versions.
    - [Scenarios]: the ten tests of src/guard_test.go, each the function
      of [t *testing.T] it is, over its function literals
      ([TestGuard_func] and the like, the lines with [defer Guard(&err)])
      and the checks of [Testing].

    ** What the theorems show

    - [Guard] (Guard.v, section [theorems]): on a panic in flight it
      returns normally with the converted payload stored and the panic
      recovered, the observers having run in order; it is a no-op exactly
      when nothing is to be recovered; an error payload is stored as it is
      and any other payload wrapped as ["panic: " ++ %v]; a panic of an
      observer, a nil [err] and a nil [Option] make [Guard] itself panic,
      at the point and with the state the theorems give; the resolved
      context is that of the last [WithContext]; [OnGuardWithContext] is
      read after [OnGuard] returned; what [*err] tells about the payload;
      the options reach a run only through the context given to
      [OnGuardWithContext].
    - [Must] (Must.v): every helper keeps the contract
      [assert_or_propagate] (both branches, and with an error the
      caller's continuation never runs), and each is [MustN] at its
      arity.
    - [Guarded]: no panic leaves a function that defers [Guard], whatever
      its body does (observers that return, non-nil [err]), and it
      returns normally unless the body ends the goroutine; a body that
      returns is not disturbed; [Guard] wrapped in a closure recovers
      nothing; [runtime.Goexit] is not absorbed, but a panic raised while
      the goroutine is ending is; an error given to [Must] inside a
      guarded function comes
      out as [*err], the same error, and with a nil error [Must] is
      transparent; [Guard] registered first absorbs the panic of a later
      deferred call and registered last misses it; a panic is absorbed by
      the nearest enclosing barrier; the observers are read when [Guard]
      runs, not when it is deferred; of two deferred [Guard]s only the
      last registered stores.
    - [Soundness]: every operation keeps the invariant and panics with
      non-nil payloads only, so the test [r != nil] of [Guard] misses no
      panic and [*err] is either untouched or the converted payload; under
      the older [panic(nil)] the invariant fails and a panic is lost.
    - [Typing]: [Guard] and the functions that defer it keep every
      declared variable at its type; what is behind [err] is nil or an
      error, never the raw payload.
    - [Refinement]: the function literal that defers [Guard] refines
      [protect], and with no observer set it is [attempt] followed by
      [deliver]; [attempt] undoes the [Must] helpers; [Guard] is
      [GuardWith], the barrier with the observers handed to it, when the
      observers do not reassign the variables.
    - [Machine]: the machine is total and deterministic, terminates
      (its transition relation is strongly normalising) and computes
      [Guard] within its fuel; a run shows at most [length opts + 4]
      events; the events
      of a run come in the order of the statements, the assignment at
      most once and last; the events carry the payload and the context the
      entry state determines.
    - [Interference]: while other goroutines write the variables and
      the observer variables, and with observers that return, no panic leaves [Guard],
      it ends within its fuel, and its events keep their order; every
      schedule that gives [Guard] [length opts + 7] turns runs it to its
      end.
    - [Concurrent]: what one goroutine sees of a run of several [Guard]s
      is a run of its own under interference, so all of the above holds
      of every goroutine in every interleaving, and a schedule that
      gives each the turns it needs runs every [Guard] to its end.
    - [Isolation]: under the discipline every goroutine gets from
      [Guard] what it would get alone: what it sees of a run of the pool
      is simulated by a run of its [Guard] alone (same events, same
      [*err]), the discipline is an invariant, and the accesses of the
      [Guard]s do not race (the only conflict there is, is two
      assignments through a shared [err]); but [Guard] as a whole is not
      atomic: the observer calls of several goroutines interleave, and
      the state they leave need not be that of any sequential order.
    - [Process]: goroutines whose calls are behind [Guard] never end
      the program, in whatever order they run, and every one of them
      gets to return: a run stops within [work p] steps, with every
      goroutine returned; a helper called with an error outside any
      barrier, and an observer that panics, end the program with their
      payload; the variables keep their types in every state of a
      program whose calls keep them.
    - [Testing], [Scenarios]: a test that returns is reported [PASS], one
      that a failed [require] stopped [FAIL], one that panics or calls
      [runtime.Goexit] crashes the test binary; the ten tests pass, from
      every state in which no observer is set, and [TestGuard] without
      its [defer] statement crashes.

    Theorems about a run are applied to concrete inputs in the modules
    [Runs], [GuardedRuns], [RecordingRuns], [SoundRuns], [TypingRuns],
    [RefinementRuns], [RegistryRuns], [MachineRuns], [InterferenceRuns],
    [ConcurrentRuns], [IsolationRuns] and [ProcessRuns], over the sample
    applications of [Hooks].

    ** Assumptions and bounds

    The runtime definitions follow the Go specification for Go 1.21 and
    later: [panic(nil)] raises a [*runtime.PanicNilError], so [recover]
    returns nil only when nothing was recovered ([wf_world]).  [defer]
    statements are taken to stand at the start of a function, as in every
    use of the package.  The functions of [Guard], [Must] and [Runtime]
    are total and need no fuel: a theorem that says a call returns is
    about the function's value.  The only fuel is that of [Machine.run]:
    [length opts + 7] steps are enough for every run, one per option and
    one for each of the loop exit, [recover], the read and the call of
    each observer and the assignment ([point_fuel] decreases at every
    transition).  A schedule of [Interference.irun], [Concurrent.crun]
    or [Process.proc_run] is its own fuel; [Process.run_all] takes the
    number of statements the program has left ([work]), which bounds
    the steps of every run, since each step executes one.
    [%v] is
    computed for nil, booleans, integers, strings and errors, and given
    with the value for every other type ([VOther]).  The
    package does no arithmetic, so integers are kept as [Z]; the width
    of [int] (64 bits) enters in [Typing.has_type] only.

    ** Not modelled

    The Go memory model: goroutines interleave sequentially
    consistently, at the granularity of the statements of [Guard]
    ([Interference], [Concurrent], [Isolation]) or of the calls of the
    goroutines ([Process]), and the body of an observer runs without
    interruption.  For the accesses of [Guard] itself this is what the
    memory model gives a program that keeps the discipline of
    [Isolation], which has no data race among them; in a program that
    assigns the observer variables while a [Guard] runs, or shares an
    [err], the accesses race and the memory model promises less than
    the interleavings of [Concurrent].  The accesses inside the
    observers are the application's and are not tracked.  Channels,
    locks and the return of [main], which ends a program whatever its
    goroutines are doing.  An [Option] is nil or a function of the
    options that has no other effect, which is all the package itself
    returns; an [Option] that runs other code (the type [options] being
    unexported, one can only be built indirectly, through a generic
    function or reflection) is not modelled.  [os.Exit]
    and fatal errors, which no deferred call can stop.  How [%v] formats
    values of other types than those above (their printed form is part
    of [VOther]), and pointer identity of error values.  Of the test
    libraries: messages and logs, skipped, parallel and nested tests,
    and [reflect.DeepEqual] on other values than those the tests
    compare.  [defer] statements that are not the first statements of a
    function, and the types of functions, pointers and structs.  Lines
    1-7 of src/guard.go (the package clause and the imports) have no
    counterpart: the imported packages are modelled in [GoValue] as far
    as [Guard] uses them. *)

From stdpp Require Export base option list strings gmap pretty sorting relations.

(** ** Scopes *)

Declare Scope go_scope.
Delimit Scope go_scope with go.

(** ** Hint databases

    [go_spec] collects the one-step specifications: the rules of the
    transition relations and the facts about one run of a primitive (used
    by [eauto with go_spec]); [go_simpl] is the rewrite base of the
    unconditional equations of the primitives (used by [go_rewrite]);
    [go_tests] collects the lemmas that say a test passes. *)

Create HintDb go_spec.
Create Rewrite HintDb go_simpl.
Create HintDb go_tests.

(** ** Tactics *)

(** Rewrite with the equations of the primitives until nothing changes. *)
Ltac go_rewrite := repeat (progress (autorewrite with go_simpl; simpl)).

(** Split a goal about a list that is written out into one goal per
    element. *)
Ltac split_list :=
  repeat first
    [ apply Forall_nil_2 | apply Forall_cons_2
    | apply SSorted_nil | apply SSorted_cons ].

(** ** Strings *)

Section strings.
Implicit Types s t p : string.

Lemma string_app_inj_r p s t : p +:+ s = p +:+ t → s = t.
Proof. apply String.app_inj. Qed.

Lemma string_prefix_app p s : String.prefix p (p +:+ s) = true.
Proof.
  induction p as [|a p IH]; simpl; [by destruct s|].
  destruct (Ascii.ascii_dec a a); [done|congruence].
Qed.

End strings.

(** ** Sorted lists *)

Section sorted.
Context {A : Type} (R : relation A) (P : A → Prop) `{!∀ x, Decision (P x)}.

Lemma filter_none l : Forall (λ y, ¬ P y) l → filter P l = [].
Proof. induction 1 as [|y l Hy _ IH]; [done|]. by rewrite filter_cons_False. Qed.

(** In a list sorted by a relation that never relates two elements of [P],
    at most one element is in [P]. *)
Lemma StronglySorted_filter_length l :
  (∀ x y, P x → P y → ¬ R x y) → StronglySorted R l → length (filter P l) ≤ 1.
Proof.
  intros HR. induction 1 as [|x l Hl IH Hx]; [simpl; lia|].
  rewrite filter_cons. destruct (decide (P x)) as [Px|]; [|done].
  rewrite filter_none; [simpl; lia|].
  eapply Forall_impl; [exact Hx|]. intros y Rxy Py. exact (HR x y Px Py Rxy).
Qed.

(** An element that is related to nothing is the last one. *)
Lemma StronglySorted_maximal_last l x :
  StronglySorted R l → x ∈ l → (∀ y, ¬ R x y) → last l = Some x.
Proof.
  intros Hl Hx Hmax. induction Hl as [|a l Hl IH Ha]; [by apply elem_of_nil in Hx|].
  apply elem_of_cons in Hx as [<-|Hx].
  - destruct l as [|y l]; [done|]. apply Forall_cons in Ha as [Ha _].
    by destruct (Hmax y).
  - destruct l as [|y l]; [by apply elem_of_nil in Hx|]. by apply IH.
Qed.

End sorted.

(** ** Finite maps used as heaps *)

Section heaps.
Context {V : Type}.
Implicit Types h : gmap nat V.

(** The address a declaration takes is not in use. *)
Lemma fresh_dom_lookup h : h !! fresh (dom h) = None.
Proof. apply not_elem_of_dom, is_fresh. Qed.

End heaps.
