(* ===== verification/Effects.v ===== *)
(** * Effects: the state-and-exception monad the program is embedded in

    Go code that mutates variables, may panic and may end its goroutine
    is embedded as a function from the state before to an [outcome] and
    the state after.  This file holds the monad alone, for any state [S]
    and payload [E]: its operations, the pointwise equivalence [≡] used
    instead of functional extensionality, the [Proper] instances that let
    [rewrite] work under [bind], the monad laws, the equations of [throw],
    [exit] and [try_catch], and the classes of the computations that
    always return ([Returns]) and of those that never end in a panic
    ([NoPanic]).  [Runtime.v] instantiates it with the goroutine state and
    Go values. *)

From S2P Require Import Prelude.

(** ** Outcomes and computations *)

(** How a computation ends: normally with a result; abruptly with a
    payload that unwinds the callers until a handler stops it; or with the
    end of the thread of control, which unwinds the callers as well and
    which no handler stops.  An exit carries the payload of a panic that
    was raised while it unwinds, if any: a handler stops that panic and
    the exit goes on. *)
Inductive outcome (E A : Type) : Type :=
  | Normal (a : A)
  | Panicked (e : E)
  | Exited (e : option E).
Arguments Normal {E A} a.
Arguments Panicked {E A} e.
Arguments Exited {E A} e.

Definition comp (S E A : Type) : Type := S → outcome E A * S.

(** Is the outcome a normal return? *)
Definition is_normal {E A} (o : outcome E A) : bool :=
  match o with Normal _ => true | _ => false end.

(** The payload of the panic that is unwinding, if one is. *)
Definition payload {E A} (o : outcome E A) : option E :=
  match o with
  | Normal _ => None
  | Panicked e => Some e
  | Exited e => e
  end.

(** The outcome of a handler that ran while the thread was exiting: the
    exit goes on, with the panic of the handler if it raised one. *)
Definition exiting {E A B} (o : outcome E A) : outcome E B :=
  match o with
  | Normal _ => Exited None
  | Panicked e => Exited (Some e)
  | Exited e => Exited e
  end.

#[export] Instance outcome_eq_dec {E A} `{EqDecision E, EqDecision A} :
  EqDecision (outcome E A).
Proof. solve_decision. Defined.

Section comp.
Context {S E : Type}.

Definition ret {A} (a : A) : comp S E A := λ s, (Normal a, s).

Definition bind {A B} (m : comp S E A) (k : A → comp S E B) : comp S E B :=
  λ s, match m s with
       | (Normal a, s') => k a s'
       | (Panicked e, s') => (Panicked e, s')
       | (Exited e, s') => (Exited e, s')
       end.

Definition throw {A} (e : E) : comp S E A := λ s, (Panicked e, s).

(** End the thread of control. *)
Definition exit {A} : comp S E A := λ s, (Exited None, s).

(** Run [m]; on a panic run the handler on its payload.  An exit is not
    handled; the panic an exit carries is, and the exit goes on. *)
Definition try_catch {A} (m : comp S E A) (h : E → comp S E A) : comp S E A :=
  λ s, match m s with
       | (Normal a, s') => (Normal a, s')
       | (Panicked e, s') => h e s'
       | (Exited None, s') => (Exited None, s')
       | (Exited (Some e), s') => let r := h e s' in (exiting r.1, r.2)
       end.

Definition gets {A} (f : S → A) : comp S E A := λ s, (Normal (f s), s).
Definition modify (f : S → S) : comp S E unit := λ s, (Normal tt, f s).

Definition fmap_comp {A B} (f : A → B) (m : comp S E A) : comp S E B :=
  bind m (λ a, ret (f a)).

(** Monadic left fold: the shape of a [for _, x := range xs] loop that
    threads an accumulator and stops at the first panic. *)
Fixpoint foldM {A B} (f : A → B → comp S E A) (a : A) (l : list B)
  : comp S E A :=
  match l with
  | [] => ret a
  | x :: l' => bind (f a x) (λ a', foldM f a' l')
  end.

(** ** Pointwise equivalence *)

#[export] Instance comp_equiv {A} : Equiv (comp S E A) :=
  λ m1 m2, ∀ s, m1 s = m2 s.

#[export] Instance comp_equivalence {A} : Equivalence (≡@{comp S E A}).
Proof.
  split.
  - by intros m s.
  - by intros m1 m2 H s.
  - intros m1 m2 m3 H1 H2 s. by rewrite H1.
Qed.

#[export] Instance bind_proper {A B} :
  Proper ((≡) ==> pointwise_relation A (≡) ==> (≡)) (@bind A B).
Proof.
  intros m1 m2 Hm k1 k2 Hk s. unfold bind. rewrite Hm.
  destruct (m2 s) as [[a|e|e] s']; [apply Hk|done..].
Qed.

#[export] Instance try_catch_proper {A} :
  Proper ((≡) ==> pointwise_relation E (≡) ==> (≡)) (@try_catch A).
Proof.
  intros m1 m2 Hm h1 h2 Hh s. unfold try_catch. rewrite Hm.
  destruct (m2 s) as [[a|e|[e|]] s']; [done|apply Hh|by rewrite (Hh e s')|done].
Qed.

#[export] Instance fmap_comp_proper {A B} (f : A → B) :
  Proper ((≡) ==> (≡)) (fmap_comp f).
Proof. intros m1 m2 Hm. unfold fmap_comp. by rewrite Hm. Qed.

End comp.

Arguments comp_equiv {S E A} _ _ /.

(** ** Notation *)

Notation "x <- m ;; k" := (bind m (λ x, k))
  (at level 100, m at next level, right associativity,
   format "'[v' x  <-  m  ;;  '/' k ']'") : go_scope.
Notation "m ;; k" := (bind m (λ _, k))
  (at level 100, right associativity,
   format "'[v' m  ;;  '/' k ']'") : go_scope.

(** ** Laws *)

Section laws.
Context {S E : Type}.
Implicit Types s : S.
Local Open Scope go_scope.

(** *** Equations of one run (used by [go_rewrite]) *)

Lemma run_ret {A} (a : A) s : ret (E:=E) a s = (Normal a, s).
Proof. done. Qed.

Lemma run_throw {A} (e : E) s : throw (A:=A) e s = (Panicked e, s).
Proof. done. Qed.

Lemma run_exit {A} s : exit (A:=A) s = (Exited (E:=E) None, s).
Proof. done. Qed.

Lemma run_bind_normal {A B} (m : comp S E A) (k : A → comp S E B) s a s' :
  m s = (Normal a, s') → bind m k s = k a s'.
Proof. unfold bind. by intros ->. Qed.

Lemma run_bind_panicked {A B} (m : comp S E A) (k : A → comp S E B) s e s' :
  m s = (Panicked e, s') → bind m k s = (Panicked e, s').
Proof. unfold bind. by intros ->. Qed.

Lemma run_bind_exited {A B} (m : comp S E A) (k : A → comp S E B) s e s' :
  m s = (Exited e, s') → bind m k s = (Exited e, s').
Proof. unfold bind. by intros ->. Qed.

Lemma run_bind_ret {A B} (a : A) (k : A → comp S E B) s :
  bind (ret a) k s = k a s.
Proof. done. Qed.

Lemma run_bind_throw {A B} (e : E) (k : A → comp S E B) s :
  bind (throw e) k s = (Panicked e, s).
Proof. done. Qed.

Lemma run_bind_exit {A B} (k : A → comp S E B) s :
  bind exit k s = (Exited None, s).
Proof. done. Qed.

Lemma run_bind_gets {A B} (f : S → A) (k : A → comp S E B) s :
  bind (gets f) k s = k (f s) s.
Proof. done. Qed.

Lemma run_bind_modify {B} (f : S → S) (k : unit → comp S E B) s :
  bind (modify f) k s = k tt (f s).
Proof. done. Qed.

(** A first half that does not return ends the whole the same way. *)
Lemma run_bind_abrupt {A} (m : comp S E A) (k : A → comp S E A) s o s' :
  m s = (o, s') → is_normal o = false → bind m k s = (o, s').
Proof. unfold bind. intros ->. by destruct o. Qed.

(** Inversion of a bind that returned normally: both halves did. *)
Lemma run_bind_normal_inv {A B} (m : comp S E A) (k : A → comp S E B) s b s2 :
  bind m k s = (Normal b, s2) →
  ∃ a s1, m s = (Normal a, s1) ∧ k a s1 = (Normal b, s2).
Proof.
  unfold bind. destruct (m s) as [[a|e|e] s1]; [by eauto|done..].
Qed.

(** Inversion of a bind that panicked: the first half did, or the second. *)
Lemma run_bind_panicked_inv {A B} (m : comp S E A) (k : A → comp S E B) s e s2 :
  bind m k s = (Panicked e, s2) →
  m s = (Panicked e, s2) ∨
  ∃ a s1, m s = (Normal a, s1) ∧ k a s1 = (Panicked e, s2).
Proof.
  unfold bind. destruct (m s) as [[a|e'|e'] s1]; [by eauto| |done].
  intros [= -> ->]. by left.
Qed.

(** Inversion of a bind that exited: the first half did, or the second. *)
Lemma run_bind_exited_inv {A B} (m : comp S E A) (k : A → comp S E B) s e s2 :
  bind m k s = (Exited e, s2) →
  m s = (Exited e, s2) ∨
  ∃ a s1, m s = (Normal a, s1) ∧ k a s1 = (Exited e, s2).
Proof.
  unfold bind. destruct (m s) as [[a|e'|e'] s1]; [by eauto|done|].
  intros [= -> ->]. by left.
Qed.

(** *** The monad laws, up to [≡] *)

Lemma bind_ret_l {A B} (a : A) (k : A → comp S E B) : bind (ret a) k ≡ k a.
Proof. by intros s. Qed.

Lemma bind_ret_r {A} (m : comp S E A) : bind m ret ≡ m.
Proof. intros s. unfold bind. by destruct (m s) as [[a|e|e] s']. Qed.

Lemma bind_assoc {A B C} (m : comp S E A) (k : A → comp S E B)
    (k' : B → comp S E C) :
  bind (bind m k) k' ≡ bind m (λ a, bind (k a) k').
Proof. intros s. unfold bind. by destruct (m s) as [[a|e|e] s']. Qed.

(** [throw] is a left zero of [bind]: nothing after a panic runs. *)
Lemma bind_throw {A B} (e : E) (k : A → comp S E B) : bind (throw e) k ≡ throw e.
Proof. by intros s. Qed.

(** So is [exit]. *)
Lemma bind_exit {A B} (k : A → comp S E B) : bind exit k ≡ exit.
Proof. by intros s. Qed.

(** *** Handlers *)

Lemma try_catch_ret {A} (a : A) (h : E → comp S E A) : try_catch (ret a) h ≡ ret a.
Proof. by intros s. Qed.

Lemma try_catch_throw {A} (e : E) (h : E → comp S E A) :
  try_catch (throw e) h ≡ h e.
Proof. by intros s. Qed.

(** No handler stops an exit. *)
Lemma try_catch_exit {A} (h : E → comp S E A) : try_catch exit h ≡ exit.
Proof. by intros s. Qed.

(** Re-raising in the handler is the same as no handler. *)
Lemma try_catch_rethrow {A} (m : comp S E A) : try_catch m throw ≡ m.
Proof. intros s. unfold try_catch. by destruct (m s) as [[a|e|[e|]] s']. Qed.

(** With a handler that always returns no panic is left, and the
    computation returns unless its body exits. *)
Lemma try_catch_payload {A} (m : comp S E A) (h : E → comp S E A) s :
  (∀ e s', is_normal (h e s').1 = true) →
  payload (try_catch m h s).1 = None.
Proof.
  intros Hh. unfold try_catch. destruct (m s) as [[a|e|[e|]] s']; simpl; try done.
  - specialize (Hh e s'). by destruct (h e s').1.
  - specialize (Hh e s'). by destruct (h e s').1.
Qed.

Lemma try_catch_normal {A} (m : comp S E A) (h : E → comp S E A) s :
  (∀ e s', is_normal (h e s').1 = true) →
  (∀ e, (m s).1 ≠ Exited e) →
  is_normal (try_catch m h s).1 = true.
Proof.
  intros Hh Hm. unfold try_catch.
  destruct (m s) as [[a|e|e] s']; [done|apply Hh|by destruct (Hm e)].
Qed.

(** *** Folds *)

Lemma foldM_app {A B} (f : A → B → comp S E A) a l1 l2 :
  foldM f a (l1 ++ l2) ≡ bind (foldM f a l1) (λ a', foldM f a' l2).
Proof.
  revert a. induction l1 as [|x l1 IH]; intros a; simpl.
  - by rewrite bind_ret_l.
  - rewrite bind_assoc. by setoid_rewrite IH.
Qed.

(** A fold whose step never panics is a pure left fold. *)
Lemma foldM_pure {A B} (f : A → B → comp S E A) (g : A → B → A) a l :
  (∀ a x, f a x ≡ ret (g a x)) → foldM f a l ≡ ret (foldl g a l).
Proof.
  intros Hf. revert a. induction l as [|x l IH]; intros a; simpl; [done|].
  rewrite Hf, bind_ret_l. apply IH.
Qed.

(** The same when only the elements of the list are known to be harmless. *)
Lemma foldM_pure_Forall {A B} (P : B → Prop) (f : A → B → comp S E A)
    (g : A → B → A) a l :
  (∀ a x, P x → f a x ≡ ret (g a x)) → Forall P l →
  foldM f a l ≡ ret (foldl g a l).
Proof.
  intros Hf Hl. revert a. induction Hl as [|x l Hx Hl IH]; intros a; simpl; [done|].
  rewrite (Hf _ _ Hx), bind_ret_l. apply IH.
Qed.

(** A fold stops at the first element whose step panics. *)
Lemma foldM_throw {A B} (f : A → B → comp S E A) (g : A → B → A) a l1 x l2 e :
  foldM f a l1 ≡ ret (foldl g a l1) → (∀ a, f a x ≡ throw e) →
  foldM f a (l1 ++ x :: l2) ≡ throw e.
Proof.
  intros H1 Hx. rewrite foldM_app, H1, bind_ret_l. simpl.
  by rewrite Hx, bind_throw.
Qed.

Lemma fmap_comp_ret {A B} (f : A → B) a : fmap_comp (S:=S) (E:=E) f (ret a) ≡ ret (f a).
Proof. by intros s. Qed.

Lemma fmap_comp_throw {A B} (f : A → B) e :
  fmap_comp (S:=S) (E:=E) f (throw e) ≡ throw e.
Proof. by intros s. Qed.

(** The outcome of [fmap_comp]: the result mapped, the rest as it is. *)
Lemma run_fmap_comp {A B} (f : A → B) (m : comp S E A) s :
  fmap_comp f m s =
  (match (m s).1 with
   | Normal a => Normal (f a)
   | Panicked e => Panicked e
   | Exited e => Exited e
   end, (m s).2).
Proof. unfold fmap_comp, bind. by destruct (m s) as [[a|e|e] s']. Qed.

End laws.

(** ** Computations that always return, and computations that never panic *)

(** [m] returns normally from every state. *)
Class Returns {S E A} (m : comp S E A) : Prop :=
  returns : ∀ s, is_normal (m s).1 = true.

(** [m] never ends with a panic unwinding: it returns, or it ends its
    thread. *)
Class NoPanic {S E A} (m : comp S E A) : Prop :=
  no_panic : ∀ s, payload (m s).1 = None.

Section returns.
Context {S E : Type}.

Lemma is_normal_payload {A} (o : outcome E A) : is_normal o = true → payload o = None.
Proof. by destruct o. Qed.

Lemma payload_exiting {A B} (o : outcome E A) :
  payload (exiting (B:=B) o) = payload o.
Proof. by destruct o. Qed.

Lemma is_normal_Normal {A} (o : outcome E A) : is_normal o = true ↔ ∃ a, o = Normal a.
Proof. destruct o; split; try done; [by eauto|by intros [? ?]..]. Qed.

#[export] Instance returns_no_panic {A} (m : comp S E A) : Returns m → NoPanic m.
Proof. intros Hm s. apply is_normal_payload, Hm. Qed.

#[export] Instance ret_returns {A} (a : A) : Returns (S:=S) (E:=E) (ret a).
Proof. by intros s. Qed.

#[export] Instance gets_returns {A} (f : S → A) : Returns (E:=E) (gets f).
Proof. by intros s. Qed.

#[export] Instance modify_returns (f : S → S) : Returns (E:=E) (modify f).
Proof. by intros s. Qed.

#[export] Instance bind_returns {A B} (m : comp S E A) (k : A → comp S E B) :
  Returns m → (∀ a, Returns (k a)) → Returns (bind m k).
Proof.
  intros Hm Hk s. unfold bind. specialize (Hm s).
  destruct (m s) as [[a|e|e] s']; [apply Hk|done..].
Qed.

#[export] Instance fmap_comp_returns {A B} (f : A → B) (m : comp S E A) :
  Returns m → Returns (fmap_comp f m).
Proof. intros Hm. unfold fmap_comp. apply _. Qed.

#[export] Instance foldM_returns {A B} (f : A → B → comp S E A) a l :
  (∀ a x, Returns (f a x)) → Returns (foldM f a l).
Proof. intros Hf. revert a. induction l as [|x l IH]; intros a; simpl; apply _. Qed.

#[export] Instance exit_no_panic {A} : NoPanic (S:=S) (E:=E) (A:=A) exit.
Proof. by intros s. Qed.

#[export] Instance bind_no_panic {A B} (m : comp S E A) (k : A → comp S E B) :
  NoPanic m → (∀ a, NoPanic (k a)) → NoPanic (bind m k).
Proof.
  intros Hm Hk s. unfold bind. specialize (Hm s).
  destruct (m s) as [[a|e|e] s']; [apply Hk|done..].
Qed.

#[export] Instance try_catch_no_panic {A} (m : comp S E A) (h : E → comp S E A) :
  (∀ e, Returns (h e)) → NoPanic (try_catch m h).
Proof. intros Hh s. apply try_catch_payload. intros e s'. apply Hh. Qed.

(** A computation that always returns has a result in every state. *)
Lemma returns_result {A} (m : comp S E A) `{!Returns m} s :
  ∃ a, m s = (Normal a, (m s).2).
Proof.
  pose proof (returns (m:=m) s) as H.
  destruct (m s) as [[a|e|e] s']; [by exists a|done..].
Qed.

(** A computation that never panics returns or ends its thread. *)
Lemma no_panic_result {A} (m : comp S E A) `{!NoPanic m} s :
  (∃ a, m s = (Normal a, (m s).2)) ∨ m s = (Exited None, (m s).2).
Proof.
  pose proof (no_panic (m:=m) s) as H.
  destruct (m s) as [[a|e|[e|]] s']; [by left; exists a|done..|by right].
Qed.

End returns.

#[export] Hint Rewrite @run_ret @run_throw @run_exit @run_bind_ret @run_bind_throw
  @run_bind_exit @run_bind_gets @run_bind_modify : go_simpl.
#[export] Hint Resolve run_bind_normal run_bind_panicked run_bind_exited : go_spec.
