(* ===== verification/GoValue.v ===== *)
(** * GoValue: the Go values the package handles

    [Guard] receives whatever value was passed to [panic] (an [any]) and
    turns it into an [error]; the [Must] helpers pass an [error] to
    [panic].  This file models those values: interface values of type
    [any] ([value]), the errors among them ([goerror], and [error] for an
    error interface that may be nil), [context.Context] values, the type
    assertion [r.(error)], [errors.New], and the [%v] verb of [fmt] as far
    as [fmt.Errorf("panic: %v", r)] needs it.  A payload of a type the
    file does not name (a float, a struct, a pointer, a type with a
    [String] method) is a [VOther], given by the name of its type and by
    what [%v] prints for it.  None of this is code of the
    repository: it is the part of the language and of the standard library
    the repository calls. *)

From S2P Require Import Prelude.

Local Open Scope Z_scope.

(** ** Errors *)

(** The dynamic type of an error value. *)
Inductive error_type : Type :=
  | ErrorString                (* *errors.errorString: errors.New, fmt.Errorf *)
  | RuntimeError               (* runtime.Error: nil dereference and the like *)
  | PanicNilError              (* *runtime.PanicNilError: panic(nil) *)
  | UserError (name : string). (* any other type with an Error method *)

(** A non-nil error: its dynamic type and what its [Error] method returns. *)
Record goerror : Type := GoError {
  err_type : error_type;
  err_msg : string
}.

(** A value of interface type [error]: nil or a concrete error. *)
Abbreviation error := (option goerror) (only parsing).

(** [err.Error()] on a non-nil error. *)
Definition Error (e : goerror) : string := err_msg e.

(** [errors.New(msg)]. *)
Definition errors_New (msg : string) : goerror := GoError ErrorString msg.

(** ** Values of type [any] *)

Inductive value : Type :=
  | VNil                  (* the nil interface *)
  | VBool (b : bool)
  | VInt (n : Z)
  | VString (s : string)
  | VError (e : goerror)  (* a value whose dynamic type implements error *)
  | VOther (ty repr : string).
      (* a value of any other dynamic type [ty], and what [%v] prints for it *)

(** Conversion of an [error] to [any]: nil stays nil, a concrete error keeps
    its dynamic type. *)
Definition any_of_error (e : error) : value :=
  match e with Some e' => VError e' | None => VNil end.

(** The comma-ok type assertion [re, ok := r.(error)]. *)
Definition type_assert_error (r : value) : option goerror :=
  match r with VError e => Some e | _ => None end.

(** What was stored in a variable of type [error], read back as an [error]. *)
Definition error_of_any (v : value) : error := type_assert_error v.

(** ** [context.Context] *)

Inductive context : Type :=
  | ctx_Background            (* context.Background() *)
  | ctx_TODO                  (* context.TODO() *)
  | ctx_User (id : nat).      (* a context the application made *)

(** [context.TODO()]. *)
Definition context_TODO : context := ctx_TODO.

(** ** Decidable equality *)

#[export] Instance error_type_eq_dec : EqDecision error_type.
Proof. solve_decision. Defined.
#[export] Instance goerror_eq_dec : EqDecision goerror.
Proof. solve_decision. Defined.
#[export] Instance value_eq_dec : EqDecision value.
Proof. solve_decision. Defined.
#[export] Instance context_eq_dec : EqDecision context.
Proof. solve_decision. Defined.
#[export] Instance value_inhabited : Inhabited value := populate VNil.
#[export] Instance goerror_inhabited : Inhabited goerror :=
  populate (errors_New "").
#[export] Instance context_inhabited : Inhabited context := populate ctx_TODO.

(** ** Formatting *)

(** The text [fmt] prints for a value under the verb [%v]. *)
Definition format_v (v : value) : string :=
  match v with
  | VNil => "<nil>"
  | VBool b => if b then "true" else "false"
  | VInt n => pretty n
  | VString s => s
  | VError e => Error e
  | VOther _ repr => repr
  end.

(** [fmt.Errorf(prefix + "%v", v)]: with no [%w] in the format the result
    is what [errors.New] returns on the formatted text. *)
Definition fmt_Errorf_v (prefix : string) (v : value) : goerror :=
  errors_New (prefix +:+ format_v v).

(** ** Lemmas *)

Section values.
Implicit Types (e : goerror) (v r : value) (s : string).

Lemma any_of_error_nil (e : error) : any_of_error e = VNil ↔ e = None.
Proof. by destruct e. Qed.

Lemma any_of_error_inj : Inj (=) (=) any_of_error.
Proof. intros [e1|] [e2|]; simpl; congruence. Qed.

(** Storing an error in an [any] and asserting it back is the identity. *)
Lemma error_of_any_of_error (e : error) : error_of_any (any_of_error e) = e.
Proof. by destruct e. Qed.

Lemma type_assert_error_Some r e : type_assert_error r = Some e ↔ r = VError e.
Proof. destruct r; simpl; split; congruence. Qed.

Lemma type_assert_error_None r :
  type_assert_error r = None ↔ ∀ e, r ≠ VError e.
Proof.
  destruct r; simpl; split; try congruence; try done.
  intros H. by destruct (H e).
Qed.

Lemma Error_errors_New s : Error (errors_New s) = s.
Proof. done. Qed.

Lemma errors_New_inj : Inj (=) (=) errors_New.
Proof. by intros s1 s2 [=]. Qed.

(** Distinct integers print differently. *)
Lemma format_v_int_inj n1 n2 : format_v (VInt n1) = format_v (VInt n2) → n1 = n2.
Proof. apply pretty_Z_inj. Qed.

Lemma Error_fmt_Errorf_v p v : Error (fmt_Errorf_v p v) = p +:+ format_v v.
Proof. done. Qed.

Lemma fmt_Errorf_v_type p v : err_type (fmt_Errorf_v p v) = ErrorString.
Proof. done. Qed.

(** Two values are wrapped into the same error only if they print alike. *)
Lemma fmt_Errorf_v_inj p v1 v2 :
  fmt_Errorf_v p v1 = fmt_Errorf_v p v2 → format_v v1 = format_v v2.
Proof. intros [= H]. by apply string_app_inj_r in H. Qed.

End values.

#[export] Hint Rewrite error_of_any_of_error Error_errors_New Error_fmt_Errorf_v
  : go_simpl.
