(* ===== verification/Runtime.v ===== *)
(** * Runtime: goroutine state, panic, recover, Goexit, calls and deferred calls

    The package is a thin layer over three primitives of the language:
    [panic], [recover] and [defer].  This file gives them a functional
    semantics over an explicit goroutine state ([world]): the heap of
    variables that pointers reach, the package-level variables, the panic
    that is being unwound (if any) and the distance of the running code
    from the deferred call the unwinding invoked.  The definitions follow
    the language specification (sections "Handling panics" and "Defer
    statements") and the documentation of [runtime.Goexit]; they are not
    code of the repository.

    - [gopanic v] ends the computation abruptly with payload [v];
      [panic(nil)] carries a [*runtime.PanicNilError] (Go 1.21 and later).
    - [recover] returns the payload and stops the unwinding only when it is
      called directly by a deferred function run by the unwinding
      ([w_depth = 0]); anywhere else it returns nil and changes nothing.
    - [Goexit] ends the goroutine: the deferred calls of every function
      on the stack run, [recover] returns nil in them, and nothing
      returns to a caller.  A panic raised by a deferred call in the
      meantime can be recovered by a later one, and then the exit goes
      on; [Goexit] called while a panic unwinds takes its place.
    - [call f] runs [f] one frame deeper.
    - [go_func defers body] is a function whose [defer] statements stand
      at its start: the body runs, then the deferred calls in reverse
      order, each seeing the panic in flight; the function returns
      normally if none is left.  [None] as result means the body was
      aborted and the caller sees the results' current (zero) values. *)

From S2P Require Import Prelude Effects GoValue.

Local Open Scope go_scope.

(** ** Pointers *)

(** Addresses of variables. *)
Abbreviation loc := nat (only parsing).

(** A Go pointer: nil or the address of a variable. *)
Abbreviation ptr := (option nat) (only parsing).

(** The payload of the panic raised by a nil dereference or a call of a
    nil function value. *)
Definition nil_dereference : goerror :=
  GoError RuntimeError
    "runtime error: invalid memory address or nil pointer dereference".

(** The payload [panic(nil)] carries. *)
Definition panic_nil_error : goerror :=
  GoError PanicNilError
    "panic called with nil argument (obsolete, use runtime.PanicNilError)".

(** ** The goroutine state *)

Section runtime.
Context {G : Type}.

Record world : Type := World {
  w_heap : gmap nat value;   (* variables reached through pointers *)
  w_globals : G;             (* package-level variables *)
  w_panic : option value;    (* payload of the panic whose deferred call runs *)
  w_depth : nat              (* frames between the running code and that call *)
}.

Definition set_heap (f : gmap nat value → gmap nat value) (w : world) : world :=
  World (f (w_heap w)) (w_globals w) (w_panic w) (w_depth w).
Definition set_globals (f : G → G) (w : world) : world :=
  World (w_heap w) (f (w_globals w)) (w_panic w) (w_depth w).
Definition set_panic (p : option value) (w : world) : world :=
  World (w_heap w) (w_globals w) p (w_depth w).
Definition set_depth (d : nat) (w : world) : world :=
  World (w_heap w) (w_globals w) (w_panic w) d.

(** Put the panic state of a frame back as the caller had it. *)
Definition restore_frame (p : option value) (d : nat) (w : world) : world :=
  set_depth d (set_panic p w).

(** The state a goroutine starts in: nothing panics. *)
Definition init_world (h : gmap nat value) (g : G) : world := World h g None 0.

(** A panic in flight never carries nil. *)
Definition wf_world (w : world) : Prop := w_panic w ≠ Some VNil.

#[export] Instance wf_world_dec w : Decision (wf_world w).
Proof. unfold wf_world. apply _. Defined.

(** ** Panic and recover *)

(** What [panic(v)] raises. *)
Definition panic_value (v : value) : value :=
  match v with VNil => VError panic_nil_error | _ => v end.

Definition gopanic {A} (v : value) : comp world value A :=
  throw (panic_value v).

Definition recover : comp world value value :=
  λ w, match w_panic w, w_depth w with
       | Some p, 0 => (Normal p, set_panic None w)
       | _, _ => (Normal VNil, w)
       end.

(** [runtime.Goexit()]. *)
Definition Goexit {A} : comp world value A := exit.

(** ** Calls *)

(** A call of a function without deferred calls. *)
Definition call {A} (f : comp world value A) : comp world value A :=
  λ w, let '(o, w') := f (set_depth (S (w_depth w)) w) in
       (o, restore_frame (w_panic w) (w_depth w) w').

(** [go f()] and a wait for the goroutine to end: [f] runs on the shared
    variables with a panic state of its own, and the one who waits learns
    how it ended. *)
Definition in_goroutine {A} (f : comp world value A)
  : comp world value (outcome value A) :=
  λ w, let '(o, w') := f (restore_frame None 0 w) in
       (Normal o, restore_frame (w_panic w) (w_depth w) w').

(** How a function is leaving while its deferred calls run. *)
Inductive exit_status (A : Type) : Type :=
  | Returning (a : A)             (* the body returned *)
  | Recovered                     (* a deferred call recovered the panic *)
  | Panicking (p : value)         (* a panic is unwinding the function *)
  | Exiting (p : option value).   (* the goroutine is ending, [p] unwinding *)
Arguments Returning {A} a.
Arguments Recovered {A}.
Arguments Panicking {A} p.
Arguments Exiting {A} p.

Definition status_of_outcome {A} (o : outcome value A) : exit_status A :=
  match o with
  | Normal a => Returning a
  | Panicked p => Panicking p
  | Exited p => Exiting p
  end.

Definition outcome_of_status {A} (st : exit_status A) : outcome value (option A) :=
  match st with
  | Returning a => Normal (Some a)
  | Recovered => Normal None
  | Panicking p => Panicked p
  | Exiting p => Exited p
  end.

(** One deferred call.  While a panic unwinds the function the call runs
    at depth 0 with that panic in flight; a new panic replaces it, and the
    unwinding stops if the call returns with the panic recovered.  While
    the goroutine is ending the call runs at depth 0 as well, with the
    panic a deferred call raised since, if any: recovering that panic
    does not stop the exit.  Otherwise the call is an ordinary one under
    the caller's panic state; if it panics the function starts unwinding.
    In every case a call that ends the goroutine wins. *)
Definition run_deferred {A} (outer_panic : option value) (outer_depth : nat)
    (d : comp world value unit) (st : exit_status A) (w : world)
  : exit_status A * world :=
  match st with
  | Panicking p =>
      match d (restore_frame (Some p) 0 w) with
      | (Panicked q, w') => (Panicking q, w')
      | (Normal _, w') =>
          (match w_panic w' with None => Recovered | Some _ => Panicking p end, w')
      | (Exited q, w') => (Exiting q, w')
      end
  | Exiting p =>
      match d (restore_frame p 0 w) with
      | (Panicked q, w') => (Exiting (Some q), w')
      | (Normal _, w') =>
          (Exiting (match w_panic w' with None => None | Some _ => p end), w')
      | (Exited q, w') => (Exiting q, w')
      end
  | _ =>
      match d (restore_frame outer_panic (S outer_depth) w) with
      | (Panicked q, w') => (Panicking q, w')
      | (Normal _, w') => (st, w')
      | (Exited q, w') => (Exiting q, w')
      end
  end.

(** The deferred calls of a function, in the order they run. *)
Fixpoint run_defers {A} (outer_panic : option value) (outer_depth : nat)
    (ds : list (comp world value unit)) (st : exit_status A) (w : world)
  : exit_status A * world :=
  match ds with
  | [] => (st, w)
  | d :: ds' =>
      let '(st', w') := run_deferred outer_panic outer_depth d st w in
      run_defers outer_panic outer_depth ds' st' w'
  end.

(** A function whose [defer] statements (in program order) come first. *)
Definition go_func {A} (defers : list (comp world value unit))
    (body : comp world value A) : comp world value (option A) :=
  λ w, let '(o, w1) := body (set_depth (S (w_depth w)) w) in
       let '(st, w2) :=
         run_defers (w_panic w) (w_depth w) (rev defers) (status_of_outcome o) w1 in
       (outcome_of_status st, restore_frame (w_panic w) (w_depth w) w2).

(** ** Variables *)

(** [new(T)] or a variable that escapes: a fresh address holding [v]. *)
Definition go_new (v : value) : comp world value nat :=
  λ w, let l := fresh (dom (w_heap w)) in
       (Normal l, set_heap (insert l v) w).

(** [*p]. *)
Definition load (p : ptr) : comp world value value :=
  match p with
  | None => gopanic (VError nil_dereference)
  | Some l => gets (λ w, default VNil (w_heap w !! l))
  end.

(** [*p = v]. *)
Definition store (p : ptr) (v : value) : comp world value unit :=
  match p with
  | None => gopanic (VError nil_dereference)
  | Some l => modify (set_heap (insert l v))
  end.

(** [err.Error()] on a value of type [error]: a nil interface has no
    method to call. *)
Definition error_Error (err : value) : comp world value string :=
  match err with
  | VError e => ret (Error e)
  | _ => gopanic (VError nil_dereference)
  end.

(** Read and write a package-level variable. *)
Definition read_global {A} (f : G → A) : comp world value A :=
  gets (λ w, f (w_globals w)).
Definition write_global (f : G → G) : comp world value unit :=
  modify (set_globals f).

End runtime.

Arguments world : clear implicits.
Arguments Returning {A} a.
Arguments Recovered {A}.
Arguments Panicking {A} p.
Arguments Exiting {A} p.

(** Computations of the program: over the goroutine state, panicking with
    a Go value. *)
Abbreviation go G := (comp (world G) value).

(** ** Computations that ignore the panic state

    Most code neither recovers nor runs deferred calls: it commutes with
    any change of the panic state of the frame.  For such code a call is
    the same as its body. *)

Class FrameIndep {G A} (m : go G A) : Prop :=
  frame_indep : ∀ p d w,
    m (restore_frame p d w) = ((m w).1, restore_frame p d (m w).2).

Section laws.
Context {G : Type}.
Implicit Types (w : world G) (p : option value) (d : nat) (v r : value).

(** *** The state record *)

Lemma restore_frame_id w : restore_frame (w_panic w) (w_depth w) w = w.
Proof. by destruct w. Qed.

Lemma restore_frame_twice p d p' d' w :
  restore_frame p d (restore_frame p' d' w) = restore_frame p d w.
Proof. done. Qed.

Lemma restore_frame_set_depth p d d' w :
  restore_frame p d (set_depth d' w) = restore_frame p d w.
Proof. done. Qed.

Lemma set_depth_as_restore d w : set_depth d w = restore_frame (w_panic w) d w.
Proof. by destruct w. Qed.

(** The invariant holds when a goroutine starts. *)
Lemma wf_world_init h (g : G) : wf_world (init_world h g).
Proof. done. Qed.

(** *** Panic *)

Lemma panic_value_not_nil v : panic_value v ≠ VNil.
Proof. by destruct v. Qed.

Lemma panic_value_id v : v ≠ VNil → panic_value v = v.
Proof. by destruct v. Qed.

Lemma run_gopanic {A} v w : gopanic (A:=A) v w = (Panicked (panic_value v), w).
Proof. done. Qed.

Lemma bind_gopanic {A B} v (k : A → go G B) : bind (gopanic v) k ≡ gopanic v.
Proof. by intros w. Qed.

(** *** Goexit *)

Lemma run_Goexit {A} w : Goexit (A:=A) w = (Exited None, w).
Proof. done. Qed.

(** Nothing after [Goexit] runs. *)
Lemma bind_Goexit {A B} (k : A → go G B) : bind Goexit k ≡ Goexit.
Proof. by intros w. Qed.

(** *** Recover *)

Lemma recover_panicking w r :
  w_panic w = Some r → w_depth w = 0 →
  recover w = (Normal r, set_panic None w).
Proof. unfold recover. by intros -> ->. Qed.

Lemma recover_not_panicking w :
  w_panic w = None → recover w = (Normal VNil, w).
Proof. unfold recover. by intros ->. Qed.

Lemma recover_indirect w :
  w_depth w ≠ 0 → recover w = (Normal VNil, w).
Proof. unfold recover. destruct (w_panic w), (w_depth w); done. Qed.

(** [recover] returns nil exactly when it leaves the state alone. *)
Lemma recover_nil_iff w :
  wf_world w →
  (recover w).1 = Normal VNil ↔ w_panic w = None ∨ w_depth w ≠ 0.
Proof.
  unfold wf_world, recover.
  destruct (w_panic w) as [r|], (w_depth w); simpl; intros Hr;
    (split; [|done || by intros [|]]); [|by right|by left|by left].
  intros [= ->]. congruence.
Qed.

Lemma recover_always_normal w : is_normal (recover w).1 = true.
Proof. unfold recover. by destruct (w_panic w), (w_depth w). Qed.

(** After [recover] nothing is left to recover. *)
Lemma recover_clears w : w_depth w = 0 → w_panic (recover w).2 = None.
Proof. unfold recover. intros ->. by destruct (w_panic w) eqn:E. Qed.

(** *** Calls *)

Lemma run_call {A} (f : go G A) w :
  call f w =
  ((f (set_depth (S (w_depth w)) w)).1,
   restore_frame (w_panic w) (w_depth w) (f (set_depth (S (w_depth w)) w)).2).
Proof. unfold call. by destruct (f _). Qed.

Lemma call_frame_indep {A} (f : go G A) `{!FrameIndep f} : call f ≡ f.
Proof.
  intros w. rewrite run_call, set_depth_as_restore.
  rewrite (frame_indep (m:=f)); simpl. rewrite restore_frame_twice.
  pose proof (frame_indep (m:=f) (w_panic w) (w_depth w) w) as H.
  rewrite restore_frame_id in H. by rewrite <-H.
Qed.

(** A callee cannot recover the caller's panic. *)
Lemma call_recover w : call recover w = (Normal VNil, w).
Proof.
  rewrite run_call, recover_indirect by done. simpl.
  by rewrite restore_frame_set_depth, restore_frame_id.
Qed.

Lemma run_in_goroutine {A} (f : go G A) w :
  in_goroutine f w =
  (Normal (f (restore_frame None 0 w)).1,
   restore_frame (w_panic w) (w_depth w) (f (restore_frame None 0 w)).2).
Proof. unfold in_goroutine. by destruct (f _). Qed.

#[export] Instance call_proper {A} : Proper ((≡) ==> (≡)) (@call G A).
Proof. intros f1 f2 Hf w. unfold call. by rewrite Hf. Qed.

(** The caller's panic state survives any call. *)
Lemma call_frame {A} (f : go G A) w :
  w_panic (call f w).2 = w_panic w ∧ w_depth (call f w).2 = w_depth w.
Proof. by rewrite run_call. Qed.

(** *** Functions with deferred calls *)

Lemma run_go_func {A} ds (body : go G A) w :
  go_func ds body w =
  let r := body (set_depth (S (w_depth w)) w) in
  let r' := run_defers (w_panic w) (w_depth w) (rev ds) (status_of_outcome r.1) r.2 in
  (outcome_of_status r'.1, restore_frame (w_panic w) (w_depth w) r'.2).
Proof. unfold go_func. destruct (body _) as [o w1]. simpl. by destruct (run_defers _ _ _ _ _). Qed.

(** The caller's panic state survives a function, whatever it defers. *)
Lemma go_func_frame {A} ds (body : go G A) w :
  w_panic (go_func ds body w).2 = w_panic w ∧
  w_depth (go_func ds body w).2 = w_depth w.
Proof. by rewrite run_go_func. Qed.

Lemma run_defers_app {A} op od ds1 ds2 (st : exit_status A) w :
  run_defers op od (ds1 ++ ds2) st w =
  let r := run_defers op od ds1 st w in run_defers op od ds2 r.1 r.2.
Proof.
  revert st w. induction ds1 as [|d ds1 IH]; intros st w; simpl; [done|].
  destruct (run_deferred op od d st w) as [st' w']. apply IH.
Qed.

(** The body returned and the only deferred call returns as well. *)
Lemma go_func_defer_normal {A} (df : go G unit) (body : go G A) w a w1 w2 :
  body (set_depth (S (w_depth w)) w) = (Normal a, w1) →
  df (restore_frame (w_panic w) (S (w_depth w)) w1) = (Normal tt, w2) →
  go_func [df] body w = (Normal (Some a), restore_frame (w_panic w) (w_depth w) w2).
Proof. intros Hb Hd. rewrite run_go_func, Hb. simpl. by rewrite Hd. Qed.

(** The body panicked and the only deferred call recovers. *)
Lemma go_func_defer_recovered {A} (df : go G unit) (body : go G A) w r w1 w2 :
  body (set_depth (S (w_depth w)) w) = (Panicked r, w1) →
  df (restore_frame (Some r) 0 w1) = (Normal tt, w2) →
  w_panic w2 = None →
  go_func [df] body w = (Normal None, restore_frame (w_panic w) (w_depth w) w2).
Proof. intros Hb Hd Hp. rewrite run_go_func, Hb. simpl. by rewrite Hd, Hp. Qed.

(** The body panicked and the only deferred call returns without
    recovering: the panic goes on to the caller. *)
Lemma go_func_defer_not_recovered {A} (df : go G unit) (body : go G A) w r w1 w2 :
  body (set_depth (S (w_depth w)) w) = (Panicked r, w1) →
  df (restore_frame (Some r) 0 w1) = (Normal tt, w2) →
  is_Some (w_panic w2) →
  go_func [df] body w = (Panicked r, restore_frame (w_panic w) (w_depth w) w2).
Proof.
  intros Hb Hd [r' Hp]. rewrite run_go_func, Hb. simpl. by rewrite Hd, Hp.
Qed.

(** The panic state a deferred call runs under, by how the body ended. *)
Definition deferred_frame {A} (o : outcome value A) (w w1 : world G) : world G :=
  match o with
  | Normal _ => restore_frame (w_panic w) (S (w_depth w)) w1
  | Panicked r => restore_frame (Some r) 0 w1
  | Exited r => restore_frame r 0 w1
  end.

(** The only deferred call panics: its payload replaces whatever panic
    the body raised; if the body ended the goroutine the exit goes on
    with that payload. *)
Lemma go_func_defer_panics {A} (df : go G unit) (body : go G A) w o w1 q w2 :
  body (set_depth (S (w_depth w)) w) = (o, w1) →
  df (deferred_frame o w w1) = (Panicked q, w2) →
  go_func [df] body w =
  (match o with Exited _ => Exited (Some q) | _ => Panicked q end,
   restore_frame (w_panic w) (w_depth w) w2).
Proof.
  intros Hb Hd. rewrite run_go_func, Hb. destruct o; simpl in *; by rewrite Hd.
Qed.

(** The body ended the goroutine and the only deferred call returns: the
    function does not return, whatever the call did, and a panic the exit
    carried is left only if the call did not recover it. *)
Lemma go_func_defer_exited {A} (df : go G unit) (body : go G A) w x w1 w2 :
  body (set_depth (S (w_depth w)) w) = (Exited x, w1) →
  df (restore_frame x 0 w1) = (Normal tt, w2) →
  go_func [df] body w =
  (Exited (match w_panic w2 with None => None | Some _ => x end),
   restore_frame (w_panic w) (w_depth w) w2).
Proof. intros Hb Hd. rewrite run_go_func, Hb. simpl. by rewrite Hd. Qed.

(** The deferred call ends the goroutine: whatever the body did, the
    function does not return. *)
Lemma go_func_defer_exits {A} (df : go G unit) (body : go G A) w o w1 x w2 :
  body (set_depth (S (w_depth w)) w) = (o, w1) →
  df (deferred_frame o w w1) = (Exited x, w2) →
  go_func [df] body w = (Exited x, restore_frame (w_panic w) (w_depth w) w2).
Proof.
  intros Hb Hd. rewrite run_go_func, Hb. destruct o; simpl in *; by rewrite Hd.
Qed.

(** Without deferred calls a function is a call. *)
Lemma go_func_no_defers {A} (body : go G A) :
  go_func [] body ≡ fmap_comp Some (call body).
Proof.
  intros w. rewrite run_go_func. unfold fmap_comp, bind. rewrite run_call.
  by destruct (body _) as [[a|r|r] w1].
Qed.

#[export] Instance go_func_proper {A} ds :
  Proper ((≡) ==> (≡)) (@go_func G A ds).
Proof. intros b1 b2 Hb w. unfold go_func. by rewrite Hb. Qed.

(** *** Variables *)

Lemma load_store l v (k : value → go G unit) :
  (store (Some l) v ;; x <- load (Some l) ;; k x) ≡ (store (Some l) v ;; k v).
Proof.
  intros w. unfold bind. simpl. by rewrite lookup_insert_eq.
Qed.

Lemma store_store l v1 v2 :
  (store (G:=G) (Some l) v1 ;; store (Some l) v2) ≡ store (Some l) v2.
Proof.
  intros [h g p d]. cbv [bind store modify set_heap w_heap w_globals w_panic w_depth].
  by rewrite insert_insert_eq.
Qed.

(** The address [go_new] returns was not in use. *)
Lemma go_new_fresh v w l w' :
  go_new v w = (Normal l, w') → w_heap w !! l = None ∧ w_heap w' !! l = Some v.
Proof.
  intros [= <- <-]. split; [apply fresh_dom_lookup|]. simpl.
  apply lookup_insert_eq.
Qed.

(** A computation that starts by declaring a variable goes on with some
    address that was not in use. *)
Lemma run_bind_go_new {B} v (k : nat → go G B) w :
  ∃ l, w_heap w !! l = None ∧
       bind (go_new v) k w = k l (set_heap (insert l v) w).
Proof. exists (fresh (dom (w_heap w))). split; [apply fresh_dom_lookup|done]. Qed.

Lemma run_bind_error_Error {B} e (k : string → go G B) w :
  bind (error_Error (VError e)) k w = k (Error e) w.
Proof. done. Qed.

Lemma run_bind_load {B} l (k : value → go G B) w v :
  w_heap w !! l = Some v → bind (load (Some l)) k w = k v w.
Proof. intros Hl. unfold bind. simpl. by rewrite Hl. Qed.

End laws.

(** *** Frame independence of the primitives *)

Section frame_indep.
Context {G : Type}.

#[export] Instance ret_frame_indep {A} (a : A) : FrameIndep (G:=G) (ret a).
Proof. by intros p d w. Qed.

#[export] Instance throw_frame_indep {A} v : FrameIndep (G:=G) (A:=A) (throw v).
Proof. by intros p d w. Qed.

#[export] Instance gopanic_frame_indep {A} v : FrameIndep (G:=G) (A:=A) (gopanic v).
Proof. by intros p d w. Qed.

#[export] Instance Goexit_frame_indep {A} : FrameIndep (G:=G) (A:=A) Goexit.
Proof. by intros p d w. Qed.

#[export] Instance bind_frame_indep {A B} (m : go G A) (k : A → go G B) :
  FrameIndep m → (∀ a, FrameIndep (k a)) → FrameIndep (bind m k).
Proof.
  intros Hm Hk p d w. unfold bind. rewrite Hm.
  destruct (m w) as [[a|r|r] w']; simpl; [apply Hk|done..].
Qed.

#[export] Instance call_frame_indep_call {A} (f : go G A) :
  FrameIndep f → FrameIndep (call f).
Proof. intros Hf p d w. rewrite !(call_frame_indep f _). apply Hf. Qed.

#[export] Instance store_frame_indep q v : FrameIndep (G:=G) (store q v).
Proof. by intros p d w; destruct q. Qed.

#[export] Instance load_frame_indep q : FrameIndep (G:=G) (load q).
Proof. by intros p d w; destruct q. Qed.

#[export] Instance error_Error_frame_indep v : FrameIndep (G:=G) (error_Error v).
Proof. destruct v; apply _. Qed.

#[export] Instance go_new_frame_indep v : FrameIndep (G:=G) (go_new v).
Proof. by intros p d w. Qed.

#[export] Instance read_global_frame_indep {A} (f : G → A) :
  FrameIndep (read_global f).
Proof. by intros p d w. Qed.

#[export] Instance write_global_frame_indep (f : G → G) :
  FrameIndep (write_global f).
Proof. by intros p d w. Qed.

#[export] Instance foldM_frame_indep {A B} (f : A → B → go G A) a l :
  (∀ a x, FrameIndep (f a x)) → FrameIndep (foldM f a l).
Proof.
  intros Hf. revert a. induction l as [|x l IH]; intros a; simpl; apply _.
Qed.

(** Frame-independent code leaves the panic state as it found it. *)
Lemma frame_indep_preserves {A} (m : go G A) `{!FrameIndep m} w :
  w_panic (m w).2 = w_panic w ∧ w_depth (m w).2 = w_depth w.
Proof.
  pose proof (frame_indep (m:=m) (w_panic w) (w_depth w) w) as H.
  rewrite restore_frame_id in H. by rewrite H.
Qed.

End frame_indep.

(** ** Computations that give the panic state back

    Weaker than [FrameIndep]: a call or a function with deferred calls may
    look at the panic state, but returns it as it was. *)

Class FramePreserving {G A} (m : go G A) : Prop :=
  frame_preserving : ∀ w,
    w_panic (m w).2 = w_panic w ∧ w_depth (m w).2 = w_depth w.

Section frame_preserving.
Context {G : Type}.

#[export] Instance frame_indep_frame_preserving {A} (m : go G A) :
  FrameIndep m → FramePreserving m.
Proof. intros Hm w. by apply frame_indep_preserves. Qed.

#[export] Instance call_frame_preserving {A} (f : go G A) :
  FramePreserving (call f).
Proof. intros w. apply call_frame. Qed.

#[export] Instance in_goroutine_frame_preserving {A} (f : go G A) :
  FramePreserving (in_goroutine f).
Proof. intros w. by rewrite run_in_goroutine. Qed.

#[export] Instance in_goroutine_returns {A} (f : go G A) : Returns (in_goroutine f).
Proof. intros w. by rewrite run_in_goroutine. Qed.

#[export] Instance go_func_frame_preserving {A} ds (body : go G A) :
  FramePreserving (go_func ds body).
Proof. intros w. apply go_func_frame. Qed.

#[export] Instance bind_frame_preserving {A B} (m : go G A) (k : A → go G B) :
  FramePreserving m → (∀ a, FramePreserving (k a)) → FramePreserving (bind m k).
Proof.
  intros Hm Hk w. unfold bind. specialize (Hm w).
  destruct (m w) as [[a|r|r] w']; simpl in *; [|done..].
  destruct (Hk a w') as [-> ->]. done.
Qed.

#[export] Instance recover_returns : Returns (recover (G:=G)).
Proof. intros w. apply recover_always_normal. Qed.

#[export] Instance call_returns {A} (f : go G A) : Returns f → Returns (call f).
Proof. intros Hf w. rewrite run_call. apply Hf. Qed.

#[export] Instance call_no_panic {A} (f : go G A) : NoPanic f → NoPanic (call f).
Proof. intros Hf w. rewrite run_call. apply Hf. Qed.

#[export] Instance Goexit_no_panic {A} : NoPanic (Goexit (G:=G) (A:=A)).
Proof. by intros w. Qed.

#[export] Instance store_returns l v : Returns (store (G:=G) (Some l) v).
Proof. by intros w. Qed.

#[export] Instance load_returns l : Returns (load (G:=G) (Some l)).
Proof. by intros w. Qed.

#[export] Instance go_new_returns v : Returns (go_new (G:=G) v).
Proof. by intros w. Qed.

#[export] Instance read_global_returns {A} (f : G → A) : Returns (read_global f).
Proof. by intros w. Qed.

#[export] Instance write_global_returns (f : G → G) : Returns (write_global f).
Proof. by intros w. Qed.

(** A frame-preserving computation cannot have recovered anything. *)
Lemma frame_preserving_panic {A} (m : go G A) `{!FramePreserving m} w :
  w_panic (m w).2 = w_panic w.
Proof. apply frame_preserving. Qed.

End frame_preserving.

#[export] Hint Rewrite @restore_frame_id @restore_frame_twice
  @restore_frame_set_depth @call_recover @run_gopanic @run_Goexit : go_simpl.

(** ** Symbolic execution *)

(** Run a leading variable declaration: a new address [l] with the fact
    that it was not in use. *)
Ltac step_new :=
  match goal with
  | |- context [bind (go_new ?v) ?k ?w] =>
      let l := fresh "l" in let Hl := fresh "Hl" in
      destruct (run_bind_go_new v k w) as (l & Hl & ->); simpl in Hl; cbv beta
  end.

(** Turn the facts that addresses were fresh into disequalities. *)
Ltac fresh_facts :=
  repeat match goal with
         | H : <[_:=_]> _ !! _ = None |- _ => apply lookup_insert_None in H as [? ?]
         end.

(** Run a leading read of a variable whose content is known. *)
Ltac step_load :=
  match goal with
  | |- context [bind (load (Some ?l)) ?k ?w] =>
      erewrite (run_bind_load l k w) by (simpl; simplify_map_eq; reflexivity);
      cbv beta
  end.
