(* ===== verification/Testing.v ===== *)
(** * Testing: the test library under the tests of guard_test.go

    The tests of guard_test.go run under the package [testing] and check
    their results with [require] of testify.  This file models what of
    the two the tests rely on; none of it is code of the repository.

    - [T] is a [*testing.T], reduced to the two fields that decide how a
      test ends: [failed] and [finished].  [T_Fail] sets the first;
      [T_FailNow] sets both and ends the goroutine of the test with
      [runtime.Goexit].
    - [assert_Error], [assert_NoError] and [assert_Equal] are the checks
      of testify's [assert]: they report a failure with [t.Errorf] and
      return whether the check held.  [require_Error], [require_NoError]
      and [require_Equal] call them and stop the test with [t.FailNow]
      when the check did not hold: the statements after a failed
      [require] do not run.
    - [tRunner] is the function [testing] runs a test in: the test, then
      [finished = true], under a deferred call that lets a panic of the
      test go on and turns a test that ended its goroutine without
      [FailNow] into a panic.  [run_test] runs it in a goroutine of its
      own and gives the [verdict]. *)

From S2P Require Import Prelude Effects GoValue Runtime.

Local Open Scope go_scope.

(** A [*testing.T]: the addresses of its fields [failed] and
    [finished]. *)
Record T : Type := Build_T {
  T_failed : nat;
  T_finished : nat
}.

(** How a test ended. *)
Inductive verdict : Type :=
  | PASS
  | FAIL
  | CRASH (q : value).   (* a panic left the test: the test binary dies *)

#[export] Instance T_eq_dec : EqDecision T.
Proof. solve_decision. Defined.
#[export] Instance verdict_eq_dec : EqDecision verdict.
Proof. solve_decision. Defined.

(** What [tRunner] panics with when a test ended its goroutine without
    [FailNow] or [SkipNow]. *)
Definition errNilPanicOrGoexit : goerror :=
  errors_New "test executed panic(nil) or runtime.Goexit".

Section testing.
Context {G : Type}.
Implicit Types (t : T) (w : world G) (v err expected actual : value).

(** ** [testing.T] *)

(** [t.Fail()]. *)
Definition T_Fail t : go G unit := store (Some (T_failed t)) (VBool true).

(** [t.Errorf(...)]: the message is logged and the test marked failed. *)
Definition T_Errorf t : go G unit := call (T_Fail t).

(** [t.FailNow()]. *)
Definition T_FailNow {A} t : go G A :=
  call (T_Fail t) ;;
  store (Some (T_finished t)) (VBool true) ;;
  call Goexit.

(** ** testify *)

(** [assert.Fail(t, message)]. *)
Definition assert_Fail t : go G bool := call (T_Errorf t) ;; ret false.

(** [assert.Error(t, err)]. *)
Definition assert_Error t err : go G bool :=
  if decide (err = VNil) then call (assert_Fail t) else ret true.

(** [assert.NoError(t, err)]. *)
Definition assert_NoError t err : go G bool :=
  if decide (err ≠ VNil) then call (assert_Fail t) else ret true.

(** [assert.ObjectsAreEqual(expected, actual)]: equality of the dynamic
    types and of the values, which is what [reflect.DeepEqual] is on nil,
    booleans, integers and strings, the values the tests compare. *)
Definition ObjectsAreEqual expected actual : bool :=
  bool_decide (expected = actual).

(** [assert.Equal(t, expected, actual)]. *)
Definition assert_Equal t expected actual : go G bool :=
  if negb (ObjectsAreEqual expected actual) then call (assert_Fail t)
  else ret true.

(** [require.Error(t, err)]. *)
Definition require_Error t err : go G unit :=
  ok <- call (assert_Error t err) ;;
  if ok then ret tt else call (T_FailNow t).

(** [require.NoError(t, err)]. *)
Definition require_NoError t err : go G unit :=
  ok <- call (assert_NoError t err) ;;
  if ok then ret tt else call (T_FailNow t).

(** [require.Equal(t, expected, actual)]. *)
Definition require_Equal t expected actual : go G unit :=
  ok <- call (assert_Equal t expected actual) ;;
  if ok then ret tt else call (T_FailNow t).

(** ** Running a test *)

(** The deferred call of [tRunner]: a panic of the test goes on after
    the test was marked failed; a test that did not finish and did not
    panic has called [runtime.Goexit] outside [FailNow], which is
    reported as a panic. *)
Definition tRunner_deferred t : go G unit :=
  err <- recover ;;
  finished <- load (Some (T_finished t)) ;;
  let err := if decide (finished ≠ VBool true ∧ err = VNil)
             then VError errNilPanicOrGoexit else err in
  if decide (err ≠ VNil) then call (T_Fail t) ;; gopanic err
  else ret tt.

(** [func tRunner(t *T, fn func(t *T))]. *)
Definition tRunner t (fn : T → go G unit) : go G (option unit) :=
  go_func [tRunner_deferred t]
    (call (fn t) ;; store (Some (T_finished t)) (VBool true)).

(** What [testing] reports for a test whose goroutine ended with [o]. *)
Definition verdict_of {A} (o : outcome value A) (failed : value) : verdict :=
  match payload o with
  | Some q => CRASH q
  | None => if decide (failed = VBool true) then FAIL else PASS
  end.

(** [t := &T{}; go tRunner(t, fn); <-t.signal]: the test in a goroutine
    of its own, and its verdict. *)
Definition run_test (fn : T → go G unit) : go G verdict :=
  failed <- go_new (VBool false) ;;
  finished <- go_new (VBool false) ;;
  o <- in_goroutine (tRunner (Build_T failed finished) fn) ;;
  f <- load (Some failed) ;;
  ret (verdict_of o f).

End testing.

(** ** Laws *)

Section laws.
Context {G : Type}.
Implicit Types (t : T) (w : world G) (v err expected actual : value).

(** The library neither recovers nor defers. *)
#[export] Instance T_Fail_frame_indep t : FrameIndep (G:=G) (T_Fail t).
Proof. unfold T_Fail. apply _. Qed.

#[export] Instance T_FailNow_frame_indep {A} t :
  FrameIndep (G:=G) (A:=A) (T_FailNow t).
Proof. unfold T_FailNow. apply _. Qed.

#[export] Instance assert_Fail_frame_indep t : FrameIndep (G:=G) (assert_Fail t).
Proof. unfold assert_Fail, T_Errorf. apply _. Qed.

(** The state after [t.FailNow()]. *)
Definition failed_now t w : world G :=
  set_heap (insert (T_finished t) (VBool true))
    (set_heap (insert (T_failed t) (VBool true)) w).

Lemma failed_now_restore_frame t p d w :
  restore_frame p d (failed_now t w) = failed_now t (restore_frame p d w).
Proof. done. Qed.

Lemma run_T_FailNow {A} t w : T_FailNow (A:=A) t w = (Exited None, failed_now t w).
Proof. by destruct w. Qed.

(** A check that holds: the test goes on, nothing changes. *)
Lemma require_Error_holds t err w :
  err ≠ VNil → call (require_Error t err) w = (Normal tt, w).
Proof.
  intros He. rewrite run_call. unfold require_Error, assert_Error.
  rewrite decide_False by done. by destruct w.
Qed.

Lemma require_NoError_holds t w : call (require_NoError t VNil) w = (Normal tt, w).
Proof.
  rewrite run_call. unfold require_NoError, assert_NoError.
  rewrite decide_False by (by intros []). by destruct w.
Qed.

Lemma require_Equal_holds t v w : call (require_Equal t v v) w = (Normal tt, w).
Proof.
  rewrite run_call. unfold require_Equal, assert_Equal, ObjectsAreEqual.
  rewrite bool_decide_eq_true_2 by done. by destruct w.
Qed.

(** A check that does not hold: the test is marked failed and its
    goroutine ends. *)
Lemma require_fails t err expected actual w :
  call (require_Error t VNil) w = (Exited None, failed_now t w) ∧
  (err ≠ VNil → call (require_NoError t err) w = (Exited None, failed_now t w)) ∧
  (expected ≠ actual →
   call (require_Equal t expected actual) w = (Exited None, failed_now t w)).
Proof.
  split_and!; [|intros He..]; rewrite run_call;
    unfold require_Error, require_NoError, require_Equal, assert_Error,
      assert_NoError, assert_Equal, ObjectsAreEqual, assert_Fail, T_Errorf, bind;
    rewrite ?decide_True, ?bool_decide_eq_false_2 by done; simpl;
    destruct w as [h g p d]; unfold failed_now, set_heap; simpl;
    by rewrite insert_insert_eq.
Qed.

(** Nothing after a failed [require] runs. *)
Lemma require_stops {B} t (k : unit → go G B) w :
  (call (require_Error t VNil) ;; k tt) w = (Exited None, failed_now t w).
Proof.
  unfold bind.
  by rewrite (proj1 (require_fails t VNil VNil VNil w)).
Qed.

(** *** The runs of [tRunner] *)

(** [tRunner] on a test that returns: the test finished. *)
Lemma run_tRunner_returns t (fn : T → go G unit) w w1 :
  call (fn t) (set_depth (S (w_depth w)) w) = (Normal tt, w1) →
  tRunner t fn w =
  (Normal (Some tt),
   restore_frame (w_panic w) (w_depth w)
     (set_heap (insert (T_finished t) (VBool true)) w1)).
Proof.
  intros Hfn. unfold tRunner.
  erewrite go_func_defer_normal; [|unfold bind; by rewrite Hfn|]; cycle 1.
  - unfold tRunner_deferred, bind. rewrite recover_indirect by done. simpl.
    rewrite lookup_insert_eq. reflexivity.
  - done.
Qed.

(** [tRunner] on a test that a failed [require] stopped: the goroutine
    ends and no panic is raised. *)
Lemma run_tRunner_FailNow t (fn : T → go G unit) w w1 :
  call (fn t) (set_depth (S (w_depth w)) w) = (Exited None, w1) →
  w_heap w1 !! T_finished t = Some (VBool true) →
  tRunner t fn w = (Exited None, restore_frame (w_panic w) (w_depth w) w1).
Proof.
  intros Hfn Hfin. unfold tRunner.
  erewrite go_func_defer_exited; [|unfold bind; by rewrite Hfn|]; cycle 1.
  - unfold tRunner_deferred, bind. simpl. rewrite Hfin. reflexivity.
  - done.
Qed.

(** [tRunner] on a test that ended its goroutine outside [FailNow]: the
    test is marked failed and the goroutine ends in a panic. *)
Lemma run_tRunner_Goexit t (fn : T → go G unit) w w1 :
  call (fn t) (set_depth (S (w_depth w)) w) = (Exited None, w1) →
  w_heap w1 !! T_finished t = Some (VBool false) →
  tRunner t fn w =
  (Exited (Some (VError errNilPanicOrGoexit)),
   restore_frame (w_panic w) (w_depth w)
     (set_heap (insert (T_failed t) (VBool true)) w1)).
Proof.
  intros Hfn Hfin. unfold tRunner.
  erewrite go_func_defer_panics; [|unfold bind; by rewrite Hfn|]; cycle 1.
  - unfold tRunner_deferred, bind, deferred_frame. simpl. rewrite Hfin.
    reflexivity.
  - done.
Qed.

(** [tRunner] on a test that panics: the test is marked failed and the
    panic goes on. *)
Lemma run_tRunner_panics t (fn : T → go G unit) w q w1 :
  q ≠ VNil →
  call (fn t) (set_depth (S (w_depth w)) w) = (Panicked q, w1) →
  tRunner t fn w =
  (Panicked q,
   restore_frame (w_panic w) (w_depth w)
     (set_heap (insert (T_failed t) (VBool true)) w1)).
Proof.
  intros Hq Hfn. unfold tRunner.
  erewrite go_func_defer_panics; [|unfold bind; by rewrite Hfn|]; cycle 1.
  - unfold tRunner_deferred, bind, deferred_frame. simpl.
    destruct (decide (_ ∧ q = VNil)) as [[_ ?]|_]; [by exfalso|].
    rewrite decide_True by done. rewrite run_gopanic, panic_value_id by done.
    reflexivity.
  - done.
Qed.

(** *** The verdicts of [run_test] *)

(** [t := &T{}]: the fields of [t] are new variables. *)
Definition T_alloc t w : world G :=
  set_heap (insert (T_finished t) (VBool false))
    (set_heap (insert (T_failed t) (VBool false)) w).

(** The state a test starts in: in a goroutine of its own, one call below
    [tRunner]. *)
Definition test_start t w : world G :=
  set_depth 1 (restore_frame None 0 (T_alloc t w)).

(** [t] is new in [w]. *)
Definition T_fresh t w : Prop :=
  w_heap w !! T_failed t = None ∧ w_heap w !! T_finished t = None ∧
  T_failed t ≠ T_finished t.

(** [run_test] allocates [t], runs [tRunner] and reads [t.failed]. *)
Lemma run_run_test fn w :
  ∃ t, T_fresh t w ∧
    let r := tRunner t fn (restore_frame None 0 (T_alloc t w)) in
    run_test fn w =
    (Normal (verdict_of r.1 (default VNil (w_heap r.2 !! T_failed t))),
     restore_frame (w_panic w) (w_depth w) r.2).
Proof.
  unfold run_test.
  destruct (run_bind_go_new (VBool false)
    (λ failed, finished <- go_new (VBool false) ;;
       o <- in_goroutine (tRunner (Build_T failed finished) fn) ;;
       f <- load (Some failed) ;; ret (verdict_of o f)) w) as (l1 & Hl1 & ->).
  match goal with |- context [bind (go_new ?v) ?k ?w0] =>
    destruct (run_bind_go_new v k w0) as (l2 & Hl2 & ->) end.
  simpl in Hl2. apply lookup_insert_None in Hl2 as [Hl2 Hne].
  exists (Build_T l1 l2). split; [done|]. unfold bind at 1.
  rewrite run_in_goroutine. by destruct w.
Qed.

(** A test that returns with [t.failed] unset passes. *)
Lemma run_test_PASS fn w :
  (∀ t, T_fresh t w → ∃ w1,
     call (fn t) (test_start t w) = (Normal tt, w1) ∧
     w_heap w1 !! T_failed t = Some (VBool false)) →
  ∃ t w1, T_fresh t w ∧ call (fn t) (test_start t w) = (Normal tt, w1) ∧
    run_test fn w =
    (Normal PASS,
     restore_frame (w_panic w) (w_depth w)
       (set_heap (insert (T_finished t) (VBool true)) w1)).
Proof.
  intros Hfn. destruct (run_run_test fn w) as (t & Ht & ->).
  destruct (Hfn t Ht) as (w1 & Hw1 & Hf). exists t, w1. split_and!; [done..|].
  erewrite run_tRunner_returns by exact Hw1. simpl.
  destruct Ht as (_ & _ & ?).
  rewrite lookup_insert_ne, Hf by done. by destruct w, w1.
Qed.

(** A test that a failed [require] stopped fails. *)
Lemma run_test_FAIL fn w :
  (∀ t, T_fresh t w → ∃ w1,
     call (fn t) (test_start t w) = (Exited None, failed_now t w1)) →
  (run_test fn w).1 = Normal FAIL.
Proof.
  intros Hfn. destruct (run_run_test fn w) as (t & Ht & ->).
  destruct (Hfn t Ht) as (w1 & Hw1). destruct Ht as (_ & _ & ?).
  erewrite run_tRunner_FailNow; [|exact Hw1|by simplify_map_eq]. simpl.
  by simplify_map_eq.
Qed.

(** A test that panics crashes the test binary. *)
Lemma run_test_CRASH fn w q :
  q ≠ VNil →
  (∀ t, T_fresh t w → ∃ w1, call (fn t) (test_start t w) = (Panicked q, w1)) →
  (run_test fn w).1 = Normal (CRASH q).
Proof.
  intros Hq Hfn. destruct (run_run_test fn w) as (t & Ht & ->).
  destruct (Hfn t Ht) as (w1 & Hw1).
  by erewrite run_tRunner_panics by done.
Qed.

(** A test that calls [runtime.Goexit] itself crashes the test binary:
    [tRunner] turns the exit into a panic. *)
Lemma run_test_Goexit fn w :
  (∀ t, T_fresh t w → ∃ w1,
     call (fn t) (test_start t w) = (Exited None, w1) ∧
     w_heap w1 !! T_finished t = Some (VBool false)) →
  (run_test fn w).1 = Normal (CRASH (VError errNilPanicOrGoexit)).
Proof.
  intros Hfn. destruct (run_run_test fn w) as (t & Ht & ->).
  destruct (Hfn t Ht) as (w1 & Hw1 & Hf).
  by erewrite run_tRunner_Goexit by done.
Qed.

(** The three verdicts on the smallest tests that have them. *)
Lemma verdicts w :
  (run_test (λ t, call (require_NoError t VNil)) w).1 = Normal PASS ∧
  (run_test (λ t, call (require_Error t VNil)) w).1 = Normal FAIL ∧
  (run_test (λ _, gopanic (VString "boom")) w).1 = Normal (CRASH (VString "boom")) ∧
  (run_test (λ _, Goexit) w).1 = Normal (CRASH (VError errNilPanicOrGoexit)).
Proof.
  split_and!.
  - destruct (run_test_PASS (λ t, call (require_NoError t VNil)) w)
      as (t & w1 & _ & _ & ->); [|done].
    intros t (? & ? & ?). eexists. rewrite run_call, require_NoError_holds.
    split; [done|]. simpl. by simplify_map_eq.
  - apply run_test_FAIL. intros t _. eexists.
    rewrite run_call, (proj1 (require_fails t VNil VNil VNil _)). simpl.
    by rewrite failed_now_restore_frame.
  - apply run_test_CRASH; [done|]. intros t _. eexists. by rewrite run_call.
  - apply run_test_Goexit. intros t (? & ? & ?). eexists. rewrite run_call.
    split; [done|]. simpl. by simplify_map_eq.
Qed.

End laws.
