(* ===== verification/Hooks.v ===== *)
(** * Hooks: the package-level observer variables

    [guard.go] declares two package-level variables holding function
    values, [OnGuard] and [OnGuardWithContext], which the application may
    assign and which [Guard] reads and calls.  Function values are
    represented by the elements of two types the application chooses
    ([hook], [ctx_hook]) together with what calling one does ([hook_body],
    [ctx_hook_body]): the class [Hooks] is the interface between [Guard]
    and the application.  A hook is arbitrary code: it may write any
    variable, assign the hook variables themselves, panic, or end the
    goroutine.

    [Sample] is an application with a handful of hooks of each kind, used
    to run the theorems on concrete inputs. *)

From S2P Require Import Prelude Effects GoValue Runtime.

Local Open Scope go_scope.

(** ** State *)

(** The package-level variables; [None] is a nil function value. *)
Record globals (H C : Type) : Type := Globals {
  OnGuard : option H;
  OnGuardWithContext : option C
}.
Arguments Globals {H C} _ _.
Arguments OnGuard {H C} _.
Arguments OnGuardWithContext {H C} _.

(** The function values an application has, and what calling them does. *)
Class Hooks : Type := {
  hook : Type;
  ctx_hook : Type;
  hook_body : hook → value → go (globals hook ctx_hook) unit;
  ctx_hook_body : ctx_hook → context → value → go (globals hook ctx_hook) unit
}.

(** The globals of an application and its computations. *)
Abbreviation rg_globals := (globals hook ctx_hook).
Abbreviation rg_world := (world (globals hook ctx_hook)).
Abbreviation rg := (comp (world (globals hook ctx_hook)) value).

(** Observers that always return: they neither panic nor end the goroutine. *)
Class HooksReturn `{Hooks} : Prop := {
  hook_returns fn r :: Returns (hook_body fn r);
  ctx_hook_returns fn c r :: Returns (ctx_hook_body fn c r)
}.

Section hooks.
Context `{Hooks}.

(** [OnGuard = fn] and [OnGuardWithContext = fn], as the application
    writes them. *)
Definition set_OnGuard (fn : option hook) : rg unit :=
  write_global (λ g, Globals fn (OnGuardWithContext g)).
Definition set_OnGuardWithContext (fn : option ctx_hook) : rg unit :=
  write_global (λ g, Globals (OnGuard g) fn).

(** Last write wins. *)
Lemma set_OnGuard_twice fn1 fn2 :
  (set_OnGuard fn1 ;; set_OnGuard fn2) ≡ set_OnGuard fn2.
Proof. by intros [h [a b] p d]. Qed.

Lemma set_OnGuardWithContext_twice fn1 fn2 :
  (set_OnGuardWithContext fn1 ;; set_OnGuardWithContext fn2)
  ≡ set_OnGuardWithContext fn2.
Proof. by intros [h [a b] p d]. Qed.

(** The two variables are independent. *)
Lemma set_hooks_comm fn1 fn2 :
  (set_OnGuard fn1 ;; set_OnGuardWithContext fn2)
  ≡ (set_OnGuardWithContext fn2 ;; set_OnGuard fn1).
Proof. by intros [h [a b] p d]. Qed.

End hooks.

(** ** A sample application *)

Module Sample.

(** How a context is written down by a recording hook. *)
Definition ctx_tag (c : context) : value :=
  match c with
  | ctx_Background => VString "context.Background"
  | ctx_TODO => VString "context.TODO"
  | ctx_User id => VInt (Z.of_nat id)
  end.

Inductive sample_ctx_hook : Type :=
  | CtxRecord (lc lr : nat)   (* func(ctx, r) { *lc = tag(ctx); *lr = r } *)
  | CtxPanic (v : value).     (* func(ctx, r) { panic(v) } *)

Inductive sample_hook : Type :=
  | Record_ (l : nat)                           (* func(r) { *l = r } *)
  | PanicWith (v : value)                       (* func(r) { panic(v) } *)
  | Rethrow                                     (* func(r) { panic(r) } *)
  | Install (fn : option sample_ctx_hook)       (* func(r) { OnGuardWithContext = fn } *)
  | TryRecover (l : nat)                        (* func(r) { *l = recover() } *)
  | ExitNow.                                    (* func(r) { runtime.Goexit() } *)

Definition sample_ctx_hook_body (fn : sample_ctx_hook) (c : context) (r : value)
  : go (globals sample_hook sample_ctx_hook) unit :=
  match fn with
  | CtxRecord lc lr => store (Some lc) (ctx_tag c) ;; store (Some lr) r
  | CtxPanic v => gopanic v
  end.

Definition sample_hook_body (fn : sample_hook) (r : value)
  : go (globals sample_hook sample_ctx_hook) unit :=
  match fn with
  | Record_ l => store (Some l) r
  | PanicWith v => gopanic v
  | Rethrow => gopanic r
  | Install fn' => write_global (λ g, Globals (OnGuard g) fn')
  | TryRecover l => v <- recover ;; store (Some l) v
  | ExitNow => Goexit
  end.

#[export] Instance sample_hooks : Hooks := {|
  hook := sample_hook;
  ctx_hook := sample_ctx_hook;
  hook_body := sample_hook_body;
  ctx_hook_body := sample_ctx_hook_body
|}.

#[export] Instance sample_ctx_hook_eq_dec : EqDecision sample_ctx_hook.
Proof. solve_decision. Defined.
#[export] Instance sample_hook_eq_dec : EqDecision sample_hook.
Proof. solve_decision. Defined.

End Sample.

(** ** An application whose observers only record

    Every observer stores the payload (and a tag of the context) in
    variables of its own and returns: observers of this kind never panic. *)

Module Recording.

(** [func(r) { *l = r }], named by [l]. *)
Definition recording_hook_body (l : nat) (r : value)
  : go (globals nat (nat * nat)) unit :=
  store (Some l) r.

(** [func(ctx, r) { *lc = tag(ctx); *lr = r }], named by [(lc, lr)]. *)
Definition recording_ctx_hook_body (ls : nat * nat) (c : context) (r : value)
  : go (globals nat (nat * nat)) unit :=
  store (Some ls.1) (Sample.ctx_tag c) ;; store (Some ls.2) r.

#[export] Instance recording_hooks : Hooks := {|
  hook := nat;
  ctx_hook := nat * nat;
  hook_body := recording_hook_body;
  ctx_hook_body := recording_ctx_hook_body
|}.

#[export] Instance recording_hooks_return : HooksReturn.
Proof. split; intros; simpl; apply _. Qed.

End Recording.
