(* ===== verification/Guard.v ===== *)
(** * Guard: the recovery barrier of guard.go

    [Guard] is meant to be deferred at the start of a function.  It resolves
    its options, calls [recover], and when a panic was unwinding the
    function it notifies the two observer variables and stores the payload,
    converted to an error, through the pointer it was given.

    The definitions follow guard.go line by line: [options], [Option] and
    [WithContext] are the functional options; [resolve_options] is the loop
    over [opts], [resolve_context] the defaulting of the context,
    [notify_OnGuard] and [notify_OnGuardWithContext] the two guarded calls
    of the observer variables, [store_recovered] the final assignment
    through the pointer ([error_of_panic] is the error it stores) and
    [Guard] the whole function. *)

From S2P Require Import Prelude Effects GoValue Runtime Hooks.

Local Open Scope go_scope.

(** ** Options *)

(** [type options struct { ctx context.Context }]; [None] is a nil
    interface. *)
Record options : Type := Build_options {
  ctx : option context
}.

(** [type Option func(opts *options)]: a function value is nil ([None]) or
    a closure that updates the options it is given. *)
Definition Option : Type := option (options → options).

(** [func WithContext(ctx context.Context) Option]. *)
Definition WithContext (c : option context) : Option :=
  Some (λ opts, {| ctx := c |}).

#[export] Instance options_eq_dec : EqDecision options.
Proof. solve_decision. Defined.

Section guard.
Context `{Hooks}.

(** [opt(&_opts)]: calling a nil function value panics. *)
Definition apply_option (_opts : options) (opt : Option) : rg options :=
  match opt with
  | Some f => ret (f _opts)
  | None => gopanic (VError nil_dereference)
  end.

(** [_opts := options{}; for _, opt := range opts { opt(&_opts) }]. *)
Definition resolve_options (opts : list Option) : rg options :=
  foldM apply_option {| ctx := None |} opts.

(** [ctx := _opts.ctx; if ctx == nil { ctx = context.TODO() }]. *)
Definition resolve_context (_opts : options) : context :=
  match ctx _opts with
  | Some c => c
  | None => context_TODO
  end.

(** [if fn := OnGuard; fn != nil { fn(r) }]. *)
Definition notify_OnGuard (r : value) : rg unit :=
  fn <- read_global OnGuard ;;
  match fn with
  | Some fn => call (hook_body fn r)
  | None => ret tt
  end.

(** [if fn := OnGuardWithContext; fn != nil { fn(ctx, r) }]. *)
Definition notify_OnGuardWithContext (c : context) (r : value) : rg unit :=
  fn <- read_global OnGuardWithContext ;;
  match fn with
  | Some fn => call (ctx_hook_body fn c r)
  | None => ret tt
  end.

(** [if re, ok := r.(error); ok { *err = re }
    else { *err = fmt.Errorf("panic: %v", r) }]. *)
Definition store_recovered (err : ptr) (r : value) : rg unit :=
  match type_assert_error r with
  | Some re => store err (VError re)
  | None => store err (VError (fmt_Errorf_v "panic: " r))
  end.

(** The error the two branches above store for payload [r]. *)
Definition error_of_panic (r : value) : goerror :=
  match type_assert_error r with
  | Some re => re
  | None => fmt_Errorf_v "panic: " r
  end.

(** [func Guard(err *error, opts ...Option)]. *)
Definition Guard (err : ptr) (opts : list Option) : rg unit :=
  _opts <- resolve_options opts ;;
  let c := resolve_context _opts in
  r <- recover ;;
  if decide (r = VNil) then ret tt
  else
    notify_OnGuard r ;;
    notify_OnGuardWithContext c r ;;
    store_recovered err r.

(** ** Reference readings *)

(** The options struct a list of non-nil options leaves: each closure
    applied in turn to the zero value. *)
Definition final_options (opts : list Option) : options :=
  foldl (λ o opt, from_option (λ f, f o) o opt) {| ctx := None |} opts.

(** The context [Guard] hands to [OnGuardWithContext]. *)
Definition context_of (opts : list Option) : context :=
  resolve_context (final_options opts).

End guard.

(** ** Laws of the parts *)

Section parts.
Context `{Hooks}.
Implicit Types (w : rg_world) (r : value) (opts : list Option) (l : nat).

(** *** Options *)

Lemma apply_option_Some o opt :
  is_Some opt → apply_option o opt ≡ ret (from_option (λ f, f o) o opt).
Proof. by intros [f ->]. Qed.

Lemma resolve_options_pure opts :
  Forall is_Some opts → resolve_options opts ≡ ret (final_options opts).
Proof. apply foldM_pure_Forall, apply_option_Some. Qed.

Lemma resolve_options_nil_option opts1 opts2 :
  Forall is_Some opts1 →
  resolve_options (opts1 ++ None :: opts2) ≡ gopanic (VError nil_dereference).
Proof.
  intros H1. unfold resolve_options.
  by eapply foldM_throw; [apply (resolve_options_pure _ H1)|].
Qed.

Lemma final_options_snoc opts opt :
  final_options (opts ++ [opt]) =
  from_option (λ f, f (final_options opts)) (final_options opts) opt.
Proof. unfold final_options. by rewrite foldl_app. Qed.

Lemma final_options_WithContext opts c :
  final_options (opts ++ [WithContext c]) = {| ctx := c |}.
Proof. by rewrite final_options_snoc. Qed.

(** *** Observers *)

Lemma notify_OnGuard_unset r w :
  OnGuard (w_globals w) = None → notify_OnGuard r w = (Normal tt, w).
Proof. unfold notify_OnGuard, bind, read_global. simpl. by intros ->. Qed.

Lemma notify_OnGuard_set r w fn :
  OnGuard (w_globals w) = Some fn →
  notify_OnGuard r w = call (hook_body fn r) w.
Proof. unfold notify_OnGuard, bind, read_global. simpl. by intros ->. Qed.

Lemma notify_OnGuardWithContext_unset c r w :
  OnGuardWithContext (w_globals w) = None →
  notify_OnGuardWithContext c r w = (Normal tt, w).
Proof.
  unfold notify_OnGuardWithContext, bind, read_global. simpl. by intros ->.
Qed.

Lemma notify_OnGuardWithContext_set c r w fn :
  OnGuardWithContext (w_globals w) = Some fn →
  notify_OnGuardWithContext c r w = call (ctx_hook_body fn c r) w.
Proof.
  unfold notify_OnGuardWithContext, bind, read_global. simpl. by intros ->.
Qed.

(** Whatever an observer does, the panic state of [Guard]'s frame is as
    before when it returns. *)
Lemma notify_OnGuard_frame r w :
  w_panic (notify_OnGuard r w).2 = w_panic w ∧
  w_depth (notify_OnGuard r w).2 = w_depth w.
Proof.
  destruct (OnGuard (w_globals w)) as [fn|] eqn:E.
  - rewrite (notify_OnGuard_set _ _ _ E). apply call_frame.
  - by rewrite (notify_OnGuard_unset _ _ E).
Qed.

Lemma notify_OnGuardWithContext_frame c r w :
  w_panic (notify_OnGuardWithContext c r w).2 = w_panic w ∧
  w_depth (notify_OnGuardWithContext c r w).2 = w_depth w.
Proof.
  destruct (OnGuardWithContext (w_globals w)) as [fn|] eqn:E.
  - rewrite (notify_OnGuardWithContext_set _ _ _ _ E). apply call_frame.
  - by rewrite (notify_OnGuardWithContext_unset _ _ _ E).
Qed.

#[export] Instance notify_OnGuard_frame_preserving r :
  FramePreserving (notify_OnGuard r).
Proof. intros w. apply notify_OnGuard_frame. Qed.

#[export] Instance notify_OnGuardWithContext_frame_preserving c r :
  FramePreserving (notify_OnGuardWithContext c r).
Proof. intros w. apply notify_OnGuardWithContext_frame. Qed.

(** *** Conversion and assignment *)

#[export] Instance store_recovered_frame_indep err r :
  FrameIndep (store_recovered err r).
Proof. unfold store_recovered. destruct (type_assert_error r); apply _. Qed.

Lemma store_recovered_eq err r :
  store_recovered err r ≡ store err (VError (error_of_panic r)).
Proof. intros w. unfold store_recovered, error_of_panic. by destruct r. Qed.

Lemma run_store_recovered l r w :
  store_recovered (Some l) r w =
  (Normal tt, set_heap (insert l (VError (error_of_panic r))) w).
Proof. by rewrite store_recovered_eq. Qed.

Lemma error_of_panic_wrapped r :
  type_assert_error r = None → error_of_panic r = fmt_Errorf_v "panic: " r.
Proof. unfold error_of_panic. by intros ->. Qed.

(** Payloads that are wrapped into the same error print alike. *)
Lemma error_of_panic_wrapped_inj r1 r2 :
  type_assert_error r1 = None → type_assert_error r2 = None →
  error_of_panic r1 = error_of_panic r2 → format_v r1 = format_v r2.
Proof.
  intros H1 H2. rewrite !error_of_panic_wrapped by done. apply fmt_Errorf_v_inj.
Qed.

(** *** The whole function, step by step *)

(** [Guard] up to the test of what [recover] returned. *)
Lemma Guard_unfold err opts w :
  Forall is_Some opts →
  Guard err opts w =
  match recover w with
  | (Normal r, w') =>
      if decide (r = VNil) then (Normal tt, w')
      else (notify_OnGuard r ;;
            notify_OnGuardWithContext (context_of opts) r ;;
            store_recovered err r) w'
  | (Panicked q, w') => (Panicked q, w')
  | (Exited q, w') => (Exited q, w')
  end.
Proof.
  intros Hopts. unfold Guard.
  rewrite (run_bind_normal _ _ w (final_options opts) w)
    by apply (resolve_options_pure _ Hopts).
  unfold bind at 1. destruct (recover w) as [[r|q|q] w']; [|done..].
  by destruct (decide (r = VNil)).
Qed.

(** [Guard] once [recover] has returned the payload [r]. *)
Lemma Guard_recovering err opts w r :
  Forall is_Some opts → wf_world w →
  w_panic w = Some r → w_depth w = 0 →
  Guard err opts w =
  (notify_OnGuard r ;;
   notify_OnGuardWithContext (context_of opts) r ;;
   store_recovered err r) (set_panic None w).
Proof.
  intros Hopts Hwf Hp Hd. rewrite Guard_unfold, (recover_panicking _ r) by done.
  rewrite decide_False; [done|]. intros ->. by apply Hwf.
Qed.

(** Both observer variables are nil. *)
Definition unobserved (w : rg_world) : Prop :=
  OnGuard (w_globals w) = None ∧ OnGuardWithContext (w_globals w) = None.

#[export] Instance unobserved_dec w : Decision (unobserved w).
Proof. unfold unobserved. destruct (OnGuard _), (OnGuardWithContext _); apply _. Defined.

(** [Guard] with no observer set, on a panic in flight. *)
Lemma Guard_unobserved l opts w r :
  Forall is_Some opts → wf_world w → unobserved w →
  w_panic w = Some r → w_depth w = 0 →
  Guard (Some l) opts w =
  (Normal tt, set_heap (insert l (VError (error_of_panic r))) (set_panic None w)).
Proof.
  intros Hopts Hwf [H1 H2] Hp Hd. rewrite (Guard_recovering _ _ _ r) by done.
  rewrite (run_bind_normal _ _ _ tt (set_panic None w))
    by by apply notify_OnGuard_unset.
  rewrite (run_bind_normal _ _ _ tt (set_panic None w))
    by by apply notify_OnGuardWithContext_unset.
  apply run_store_recovered.
Qed.

(** [Guard] anywhere but directly in a deferred call of a panicking
    function. *)
Lemma Guard_idle err opts w :
  Forall is_Some opts → w_panic w = None ∨ w_depth w ≠ 0 →
  Guard err opts w = (Normal tt, w).
Proof.
  intros Hopts Hw. rewrite Guard_unfold by done.
  destruct Hw as [Hp|Hd];
    [rewrite recover_not_panicking|rewrite recover_indirect]; try done;
    by rewrite decide_True.
Qed.

(** Called directly by a deferred call, [Guard] always leaves the
    goroutine with no panic to recover, whatever the observers do and
    whether it returns or panics itself. *)
Lemma Guard_leaves_no_panic w err opts :
  Forall is_Some opts → w_depth w = 0 →
  w_panic (Guard err opts w).2 = None ∧ w_depth (Guard err opts w).2 = 0.
Proof.
  intros Hopts Hd. rewrite Guard_unfold by done.
  destruct (w_panic w) as [r|] eqn:Hp;
    [rewrite (recover_panicking _ r) by done
    |by rewrite recover_not_panicking, decide_True].
  destruct (decide (r = VNil)); [done|].
  by destruct (frame_preserving
    (m:=notify_OnGuard r ;; notify_OnGuardWithContext (context_of opts) r ;;
        store_recovered err r) (set_panic None w)) as [-> ->].
Qed.

(** With observers that return and a non-nil [err], [Guard] returns. *)
#[export] Instance notify_OnGuard_returns `{!HooksReturn} r :
  Returns (notify_OnGuard r).
Proof.
  intros w. destruct (OnGuard (w_globals w)) as [fn|] eqn:E.
  - rewrite (notify_OnGuard_set _ _ _ E). apply call_returns, _.
  - by rewrite (notify_OnGuard_unset _ _ E).
Qed.

#[export] Instance notify_OnGuardWithContext_returns `{!HooksReturn} c r :
  Returns (notify_OnGuardWithContext c r).
Proof.
  intros w. destruct (OnGuardWithContext (w_globals w)) as [fn|] eqn:E.
  - rewrite (notify_OnGuardWithContext_set _ _ _ _ E). apply call_returns, _.
  - by rewrite (notify_OnGuardWithContext_unset _ _ _ E).
Qed.

#[export] Instance store_recovered_returns l r :
  Returns (store_recovered (Some l) r).
Proof. unfold store_recovered. destruct (type_assert_error r); apply _. Qed.

Lemma Guard_returns `{!HooksReturn} l opts :
  Forall is_Some opts → Returns (Guard (Some l) opts).
Proof.
  intros Hopts w. rewrite Guard_unfold by done.
  pose proof (recover_always_normal w) as Hn.
  destruct (recover w) as [[r|q|q] w'] eqn:Hr; [|done..].
  destruct (decide (r = VNil)); [done|]. apply returns.
Qed.

(** [Guard] with the first observer set and returning. *)
Lemma Guard_first_observer_returns l opts w r fn w1 :
  Forall is_Some opts → wf_world w →
  w_panic w = Some r → w_depth w = 0 →
  OnGuard (w_globals w) = Some fn →
  call (hook_body fn r) (set_panic None w) = (Normal tt, w1) →
  Guard (Some l) opts w =
  (notify_OnGuardWithContext (context_of opts) r ;;
   store_recovered (Some l) r) w1.
Proof.
  intros Hopts Hwf Hp Hd Hfn H1. rewrite (Guard_recovering _ _ _ r) by done.
  by rewrite (run_bind_normal _ _ _ tt w1)
    by by rewrite (notify_OnGuard_set _ _ fn).
Qed.

(** The second observer is all that sees the context. *)
Lemma notify_OnGuardWithContext_ext c c' r :
  (∀ fc, ctx_hook_body fc c r ≡ ctx_hook_body fc c' r) →
  notify_OnGuardWithContext c r ≡ notify_OnGuardWithContext c' r.
Proof.
  intros Hc w. unfold notify_OnGuardWithContext, bind, read_global. simpl.
  destruct (OnGuardWithContext _) as [fc|]; [|done].
  by apply call_proper.
Qed.

End parts.

(** ** Theorems *)

Section theorems.
Context `{Hooks}.
Implicit Types (w : rg_world) (r : value) (opts : list Option) (l : nat).

(** C1: when [Guard] runs as the deferred call of a function that a panic
    with payload [r] is unwinding, and the observers (if set) return, then
    [Guard] returns normally, the panic is recovered, and the variable
    [err] points to holds the payload converted to an error; the rest of
    the state is what the two observers left, [OnGuard] having run first
    and [OnGuardWithContext] second on the resolved context. *)
Theorem Guard_absorbs_panic w l opts r w1 w2 :
  Forall is_Some opts → wf_world w →
  w_panic w = Some r → w_depth w = 0 →
  notify_OnGuard r (set_panic None w) = (Normal tt, w1) →
  notify_OnGuardWithContext (context_of opts) r w1 = (Normal tt, w2) →
  Guard (Some l) opts w =
  (Normal tt, set_heap (insert l (VError (error_of_panic r))) w2).
Proof.
  intros Hopts Hwf Hp Hd H1 H2. rewrite (Guard_recovering _ _ _ r) by done.
  rewrite (run_bind_normal _ _ _ _ _ H1), (run_bind_normal _ _ _ _ _ H2).
  apply run_store_recovered.
Qed.

(** C2: [Guard] is a no-op (it returns normally and the whole state, the
    variable behind [err] included, is exactly as before) if and only if
    no panic is unwinding the function or [Guard] was not called directly
    by the deferred call.  [err] may even be nil. *)
Theorem Guard_noop_iff w err opts :
  Forall is_Some opts →
  Guard err opts w = (Normal tt, w) ↔ w_panic w = None ∨ w_depth w ≠ 0.
Proof.
  intros Hopts. split; [|by apply Guard_idle].
  intros HG. destruct (w_panic w) as [r|] eqn:Hp; [right|by left].
  intros Hd. destruct (Guard_leaves_no_panic w err opts Hopts Hd) as [Hn _].
  rewrite HG in Hn. simpl in Hn. congruence.
Qed.

(** C3: the error [Guard] stores is the payload itself when the payload is
    an error (no re-wrapping), and otherwise a new error whose message is
    ["panic: "] followed by the payload printed with [%v]. *)
Theorem store_recovered_conversion l r w :
  ∃ e, w_heap (store_recovered (Some l) r w).2 !! l = Some (VError e) ∧
       (∀ re, r = VError re → e = re) ∧
       ((∀ re, r ≠ VError re) →
        Error e = "panic: " +:+ format_v r ∧ err_type e = ErrorString).
Proof.
  exists (error_of_panic r). rewrite run_store_recovered. simpl.
  rewrite lookup_insert_eq. split_and!; [done|by intros re ->|].
  intros Hr. apply type_assert_error_None in Hr.
  by rewrite (error_of_panic_wrapped _ Hr).
Qed.

(** C4: a panic raised by an observer is not absorbed.  When [OnGuard]
    does not return ([o] is its panic, or the end of the goroutine),
    [Guard] ends the same way, [OnGuardWithContext] is not called, and
    nothing is stored through [err]: the state is what the observer left.
    When [OnGuard] returns and [OnGuardWithContext] does not, likewise:
    [Guard] ends as that observer did and nothing is stored. *)
Theorem Guard_observer_panic_propagates w err opts r :
  Forall is_Some opts → wf_world w →
  w_panic w = Some r → w_depth w = 0 →
  (∀ o w1,
     notify_OnGuard r (set_panic None w) = (o, w1) → is_normal o = false →
     Guard err opts w = (o, w1)) ∧
  (∀ w1 o w2,
     notify_OnGuard r (set_panic None w) = (Normal tt, w1) →
     notify_OnGuardWithContext (context_of opts) r w1 = (o, w2) →
     is_normal o = false →
     Guard err opts w = (o, w2)).
Proof.
  intros Hopts Hwf Hp Hd. rewrite (Guard_recovering _ _ _ r) by done. split.
  - intros o w1 H1 Ho. by rewrite (run_bind_abrupt _ _ _ _ _ H1 Ho).
  - intros w1 o w2 H1 H2 Ho.
    by rewrite (run_bind_normal _ _ _ _ _ H1), (run_bind_abrupt _ _ _ _ _ H2 Ho).
Qed.

(** C5: with a nil [err] a recovered panic is replaced by a nil-dereference
    panic, raised after both observers have run. *)
Theorem Guard_nil_pointer_panics w opts r w1 w2 :
  Forall is_Some opts → wf_world w →
  w_panic w = Some r → w_depth w = 0 →
  notify_OnGuard r (set_panic None w) = (Normal tt, w1) →
  notify_OnGuardWithContext (context_of opts) r w1 = (Normal tt, w2) →
  Guard None opts w = (Panicked (VError nil_dereference), w2).
Proof.
  intros Hopts Hwf Hp Hd H1 H2. rewrite (Guard_recovering _ _ _ r) by done.
  rewrite (run_bind_normal _ _ _ _ _ H1), (run_bind_normal _ _ _ _ _ H2).
  by rewrite store_recovered_eq.
Qed.

(** C6: a nil [Option] among the arguments makes [Guard] panic in its
    options loop, before [recover] is called: the state is unchanged, and a
    panic that was unwinding the function is not recovered. *)
Theorem Guard_nil_option_panics w err opts1 opts2 :
  Forall is_Some opts1 →
  Guard err (opts1 ++ None :: opts2) w = (Panicked (VError nil_dereference), w).
Proof.
  intros H1. unfold Guard.
  by rewrite (run_bind_panicked _ _ w (VError nil_dereference) w)
    by apply (resolve_options_nil_option _ _ H1).
Qed.

(** C7: the context [Guard] resolves is the one of the last [WithContext]
    option, and [context.TODO()] when that one is nil or no option was
    given; resolving the options changes nothing of the state. *)
Theorem resolved_context_last_WithContext opts c w :
  Forall is_Some opts →
  fmap_comp resolve_context (resolve_options []) w = (Normal context_TODO, w) ∧
  fmap_comp resolve_context (resolve_options (opts ++ [WithContext c])) w =
  (Normal (default context_TODO c), w).
Proof.
  intros Hopts. split; [done|]. unfold fmap_comp.
  rewrite (run_bind_normal _ _ w (final_options (opts ++ [WithContext c])) w).
  - rewrite final_options_WithContext. by destruct c.
  - apply resolve_options_pure, Forall_app. split; [done|].
    by apply Forall_singleton.
Qed.

(** C25: the observer variables are read one after the other:
    [OnGuardWithContext] is read after [OnGuard] has returned, so the
    function called second is the one the variable holds then, whatever it
    held when [Guard] was entered. *)
Theorem OnGuardWithContext_read_after_OnGuard w l opts r fn fc w1 w2 :
  Forall is_Some opts → wf_world w →
  w_panic w = Some r → w_depth w = 0 →
  OnGuard (w_globals w) = Some fn →
  call (hook_body fn r) (set_panic None w) = (Normal tt, w1) →
  OnGuardWithContext (w_globals w1) = Some fc →
  call (ctx_hook_body fc (context_of opts) r) w1 = (Normal tt, w2) →
  Guard (Some l) opts w =
  (Normal tt, set_heap (insert l (VError (error_of_panic r))) w2).
Proof.
  intros Hopts Hwf Hp Hd Hfn H1 Hfc H2.
  rewrite (Guard_first_observer_returns _ _ _ r fn w1) by done.
  erewrite run_bind_normal; [apply run_store_recovered|].
  by rewrite (notify_OnGuardWithContext_set _ _ _ fc).
Qed.

(** C32: what [*err] tells about the payload.  The conversion keeps error
    payloads apart, keeps apart wrapped payloads that print differently
    (integers among them), and the message of a wrapped payload starts
    with ["panic: "].  But it forgets the dynamic type of what it wraps:
    the string ["42"] and the integer [42] give errors of the same type
    and message, so do a string [s] and a value of any other type that
    prints as [s], and so do a string [s] and the error
    [errors.New("panic: " + s)]. *)
Theorem converted_error_information r1 r2 (n : Z) (s ty : string) :
  (error_of_panic r1 = error_of_panic r2 →
   (∀ e1 e2, r1 = VError e1 → r2 = VError e2 → e1 = e2) ∧
   ((∀ e, r1 ≠ VError e) → (∀ e, r2 ≠ VError e) → format_v r1 = format_v r2) ∧
   (∀ n1 n2, r1 = VInt n1 → r2 = VInt n2 → n1 = n2)) ∧
  ((∀ e, r1 ≠ VError e) →
   String.prefix "panic: " (Error (error_of_panic r1)) = true) ∧
  error_of_panic (VString (pretty n)) = error_of_panic (VInt n) ∧
  error_of_panic (VString s) = error_of_panic (VOther ty s) ∧
  error_of_panic (VString s) =
  error_of_panic (VError (errors_New ("panic: " +:+ s))).
Proof.
  split_and!; [|intros H1%type_assert_error_None|done..].
  - intros Heq. split_and!.
    + by intros e1 e2 -> ->.
    + intros H1%type_assert_error_None H2%type_assert_error_None.
      by apply error_of_panic_wrapped_inj.
    + intros n1 n2 -> ->.
      by apply format_v_int_inj, error_of_panic_wrapped_inj.
  - rewrite error_of_panic_wrapped by done. apply string_prefix_app.
Qed.

(** C33: the options are informational.  They reach a run of [Guard]
    through the context handed to [OnGuardWithContext] and in no other
    way: two lists of options whose resolved contexts the observers do not
    tell apart give the same [Guard], on every state.  [Guard] itself
    never looks into the context: no cancellation, no deadline. *)
Theorem Guard_context_informational err opts opts' :
  Forall is_Some opts → Forall is_Some opts' →
  (∀ fc r, ctx_hook_body fc (context_of opts) r
           ≡ ctx_hook_body fc (context_of opts') r) →
  Guard err opts ≡ Guard err opts'.
Proof.
  intros Ho Ho' Hc w. rewrite !Guard_unfold by done.
  destruct (recover w) as [[r|q|q] w']; [|done..].
  destruct (decide (r = VNil)); [done|].
  unfold bind. destruct (notify_OnGuard r w') as [[[]|?|?] w1]; [|done..].
  by rewrite (notify_OnGuardWithContext_ext _ _ _ (λ fc, Hc fc r) w1).
Qed.

End theorems.

(** ** The theorems on concrete runs

    Variable 1 is the [err] of the caller; variables 2, 3 and 4 are what
    the sample observers write. *)

Module Runs.
Import Sample.

(** Both observers set, recording what they are called with. *)
Definition observed : globals sample_hook sample_ctx_hook :=
  Globals (Some (Record_ 2)) (Some (CtxRecord 3 4)).

(** No observer set. *)
Definition unset : globals sample_hook sample_ctx_hook := Globals None None.

(** [OnGuard] panics. *)
Definition observer_panics : globals sample_hook sample_ctx_hook :=
  Globals (Some (PanicWith (VString "observer"))) (Some (CtxRecord 3 4)).

(** [OnGuardWithContext] panics. *)
Definition ctx_observer_panics : globals sample_hook sample_ctx_hook :=
  Globals (Some (Record_ 2)) (Some (CtxPanic (VInt 5))).

(** [OnGuard] ends the goroutine. *)
Definition observer_exits : globals sample_hook sample_ctx_hook :=
  Globals (Some ExitNow) (Some (CtxRecord 3 4)).

(** The state [Guard] finds when it runs as the deferred call of a function
    that panicked with the string ["hello"]. *)
Definition w_hello (g : globals sample_hook sample_ctx_hook)
  : world (globals sample_hook sample_ctx_hook) :=
  World {[ 1 := VNil ]} g (Some (VString "hello")) 0.

(** A goroutine that is not panicking. *)
Definition w_calm (g : globals sample_hook sample_ctx_hook)
  : world (globals sample_hook sample_ctx_hook) :=
  World {[ 1 := VNil ]} g None 0.

Lemma Guard_absorbs_panic_witness :
  Guard (Some 1) [WithContext (Some (ctx_User 7))] (w_hello observed) =
  (Normal tt,
   World {[ 1 := VError (errors_New "panic: hello"); 2 := VString "hello";
            3 := VInt 7; 4 := VString "hello" ]} observed None 0).
Proof.
  etrans; [eapply (Guard_absorbs_panic _ _ _ (VString "hello"))|];
    [by repeat constructor|done|done|done|reflexivity|reflexivity|].
  vm_compute. reflexivity.
Defined.

Lemma Guard_noop_iff_witness :
  Guard None [] (World {[ 1 := VNil ]} observed (Some (VString "hello")) 1) =
  (Normal tt, World {[ 1 := VNil ]} observed (Some (VString "hello")) 1).
Proof.
  refine (proj2 (Guard_noop_iff (H:=sample_hooks) _ _ _ _) _); [done|by right].
Defined.

Lemma Guard_observer_panic_propagates_witness :
  Guard (Some 1) [] (w_hello observer_panics) =
  (Panicked (VString "observer"), World {[ 1 := VNil ]} observer_panics None 0) ∧
  Guard (Some 1) [] (w_hello ctx_observer_panics) =
  (Panicked (VInt 5),
   World {[ 1 := VNil; 2 := VString "hello" ]} ctx_observer_panics None 0) ∧
  Guard (Some 1) [] (w_hello observer_exits) =
  (Exited None, World {[ 1 := VNil ]} observer_exits None 0).
Proof.
  split_and!.
  - by apply (Guard_observer_panic_propagates (H:=sample_hooks)
      (w_hello observer_panics) (Some 1) [] (VString "hello")).
  - etrans; [eapply (Guard_observer_panic_propagates (H:=sample_hooks)
      (w_hello ctx_observer_panics) (Some 1) [] (VString "hello"))|];
      [done|done|done|done|reflexivity|reflexivity|done|].
    vm_compute. reflexivity.
  - by apply (Guard_observer_panic_propagates (H:=sample_hooks)
      (w_hello observer_exits) (Some 1) [] (VString "hello")).
Defined.

Lemma Guard_nil_pointer_panics_witness :
  Guard None [] (w_hello observed) =
  (Panicked (VError nil_dereference),
   World {[ 1 := VNil; 2 := VString "hello"; 3 := VString "context.TODO";
            4 := VString "hello" ]} observed None 0).
Proof.
  etrans; [eapply (Guard_nil_pointer_panics _ _ (VString "hello"))|];
    [done|done|done|done|reflexivity|reflexivity|].
  vm_compute. reflexivity.
Defined.

Lemma Guard_nil_option_panics_witness :
  Guard (Some 1) [WithContext None; None] (w_hello observed) =
  (Panicked (VError nil_dereference), w_hello observed).
Proof.
  apply (Guard_nil_option_panics (H:=sample_hooks) _ _ [WithContext None] []).
  by repeat constructor.
Defined.

Lemma resolved_context_last_WithContext_witness :
  fmap_comp resolve_context
    (resolve_options [WithContext (Some ctx_Background); WithContext (Some (ctx_User 3))])
    (w_calm observed) =
  (Normal (ctx_User 3), w_calm observed).
Proof.
  apply (resolved_context_last_WithContext (H:=sample_hooks)
    [WithContext (Some ctx_Background)] (Some (ctx_User 3))).
  by repeat constructor.
Defined.

(** [OnGuard] installs a recording [OnGuardWithContext]. *)
Definition installing : globals sample_hook sample_ctx_hook :=
  Globals (Some (Install (Some (CtxRecord 3 4)))) None.

Lemma OnGuardWithContext_read_after_OnGuard_witness :
  Guard (Some 1) [] (w_hello installing) =
  (Normal tt,
   World {[ 1 := VError (errors_New "panic: hello");
            3 := VString "context.TODO"; 4 := VString "hello" ]}
     (Globals (Some (Install (Some (CtxRecord 3 4)))) (Some (CtxRecord 3 4)))
     None 0).
Proof.
  etrans; [eapply (OnGuardWithContext_read_after_OnGuard (H:=sample_hooks)
    _ _ _ (VString "hello") (Install (Some (CtxRecord 3 4))) (CtxRecord 3 4))|];
    [done|done|done|done|done|reflexivity|done|reflexivity|].
  vm_compute. reflexivity.
Defined.

Lemma Guard_context_informational_witness :
  Guard (Some 1) [WithContext (Some ctx_Background); WithContext None]
  ≡ Guard (H:=sample_hooks) (Some 1) [].
Proof.
  apply (Guard_context_informational (H:=sample_hooks));
    [by repeat constructor|done|done].
Defined.

End Runs.
