(* ===== verification/Must.v ===== *)
(** * Must: the assert-or-propagate helpers of guard.go

    [Must0], [Must], [Must2] ... [Must7] take the results of a call that
    may fail, the error last.  With a nil error they return the other
    values unchanged; with a non-nil error they panic with that error as
    payload.  Each definition follows its function in guard.go: the same
    test of [err], the same order of the branches, the values returned as a
    tuple.  [MustN] is the one generic helper over a tuple of any arity
    that the family instantiates. *)

From S2P Require Import Prelude Effects GoValue Runtime.

Local Open Scope go_scope.

Section must.
Context {G : Type}.

(** [func Must0(err error)]. *)
Definition Must0 (err : error) : go G unit :=
  (if bool_decide (err ≠ None) then gopanic (any_of_error err) else ret tt) ;;
  ret tt.

(** [func Must[T any](v T, err error) T]. *)
Definition Must {T : Type} (v : T) (err : error) : go G T :=
  if bool_decide (err = None) then ret v
  else gopanic (any_of_error err).

(** [func Must2[T1, T2 any](v1 T1, v2 T2, err error) (T1, T2)]. *)
Definition Must2 {T1 T2 : Type} (v1 : T1) (v2 : T2) (err : error)
  : go G (T1 * T2) :=
  (if bool_decide (err ≠ None) then gopanic (any_of_error err) else ret tt) ;;
  ret (v1, v2).

(** [func Must3]. *)
Definition Must3 {T1 T2 T3 : Type} (v1 : T1) (v2 : T2) (v3 : T3) (err : error)
  : go G (T1 * T2 * T3) :=
  (if bool_decide (err ≠ None) then gopanic (any_of_error err) else ret tt) ;;
  ret (v1, v2, v3).

(** [func Must4]. *)
Definition Must4 {T1 T2 T3 T4 : Type} (v1 : T1) (v2 : T2) (v3 : T3) (v4 : T4)
    (err : error) : go G (T1 * T2 * T3 * T4) :=
  (if bool_decide (err ≠ None) then gopanic (any_of_error err) else ret tt) ;;
  ret (v1, v2, v3, v4).

(** [func Must5]. *)
Definition Must5 {T1 T2 T3 T4 T5 : Type} (v1 : T1) (v2 : T2) (v3 : T3)
    (v4 : T4) (v5 : T5) (err : error) : go G (T1 * T2 * T3 * T4 * T5) :=
  (if bool_decide (err ≠ None) then gopanic (any_of_error err) else ret tt) ;;
  ret (v1, v2, v3, v4, v5).

(** [func Must6]. *)
Definition Must6 {T1 T2 T3 T4 T5 T6 : Type} (v1 : T1) (v2 : T2) (v3 : T3)
    (v4 : T4) (v5 : T5) (v6 : T6) (err : error)
  : go G (T1 * T2 * T3 * T4 * T5 * T6) :=
  (if bool_decide (err ≠ None) then gopanic (any_of_error err) else ret tt) ;;
  ret (v1, v2, v3, v4, v5, v6).

(** [func Must7]. *)
Definition Must7 {T1 T2 T3 T4 T5 T6 T7 : Type} (v1 : T1) (v2 : T2) (v3 : T3)
    (v4 : T4) (v5 : T5) (v6 : T6) (v7 : T7) (err : error)
  : go G (T1 * T2 * T3 * T4 * T5 * T6 * T7) :=
  (if bool_decide (err ≠ None) then gopanic (any_of_error err) else ret tt) ;;
  ret (v1, v2, v3, v4, v5, v6, v7).

(** ** The generic helper *)

(** A tuple of values of the given types. *)
Fixpoint hlist (ts : list Type) : Type :=
  match ts with
  | [] => unit
  | T :: ts' => (T * hlist ts')%type
  end.

(** Assert-or-propagate over a tuple: the tuple itself on a nil error, a
    panic carrying the error otherwise. *)
Definition MustN {ts : list Type} (vs : hlist ts) (err : error) : go G (hlist ts) :=
  match err with
  | None => ret vs
  | Some e => gopanic (VError e)
  end.

End must.

(** ** Laws *)

Section laws.
Context {G : Type}.
Implicit Types (w : world G) (e : goerror) (err : error).

(** The statement every helper but [Must] starts with. *)
Lemma panic_if_err_nil :
  (if bool_decide (None ≠ @None goerror) then gopanic (G:=G) (any_of_error None)
   else ret tt) = ret tt.
Proof. by rewrite bool_decide_eq_false_2 by (by intros []). Qed.

Lemma panic_if_err_Some e :
  (if bool_decide (Some e ≠ None) then @gopanic G unit (any_of_error (Some e))
   else ret tt) = gopanic (VError e).
Proof. by rewrite bool_decide_eq_true_2. Qed.

(** The helpers neither recover nor defer: a call of one is its body. *)
#[export] Instance panic_if_err_frame_indep err :
  FrameIndep (G:=G)
    (if bool_decide (err ≠ None) then gopanic (any_of_error err) else ret tt).
Proof. destruct (bool_decide _); apply _. Qed.

#[export] Instance Must0_frame_indep err : FrameIndep (G:=G) (Must0 err).
Proof. unfold Must0. apply _. Qed.

#[export] Instance Must_frame_indep {T} (v : T) err :
  FrameIndep (G:=G) (Must v err).
Proof. unfold Must. destruct (bool_decide _); apply _. Qed.

#[export] Instance Must2_frame_indep {T1 T2} (v1 : T1) (v2 : T2) err :
  FrameIndep (G:=G) (Must2 v1 v2 err).
Proof. unfold Must2. apply _. Qed.

#[export] Instance Must3_frame_indep {T1 T2 T3} (v1 : T1) (v2 : T2) (v3 : T3) err :
  FrameIndep (G:=G) (Must3 v1 v2 v3 err).
Proof. unfold Must3. apply _. Qed.

#[export] Instance Must4_frame_indep {T1 T2 T3 T4}
    (v1 : T1) (v2 : T2) (v3 : T3) (v4 : T4) err :
  FrameIndep (G:=G) (Must4 v1 v2 v3 v4 err).
Proof. unfold Must4. apply _. Qed.

#[export] Instance Must5_frame_indep {T1 T2 T3 T4 T5}
    (v1 : T1) (v2 : T2) (v3 : T3) (v4 : T4) (v5 : T5) err :
  FrameIndep (G:=G) (Must5 v1 v2 v3 v4 v5 err).
Proof. unfold Must5. apply _. Qed.

#[export] Instance Must6_frame_indep {T1 T2 T3 T4 T5 T6}
    (v1 : T1) (v2 : T2) (v3 : T3) (v4 : T4) (v5 : T5) (v6 : T6) err :
  FrameIndep (G:=G) (Must6 v1 v2 v3 v4 v5 v6 err).
Proof. unfold Must6. apply _. Qed.

#[export] Instance Must7_frame_indep {T1 T2 T3 T4 T5 T6 T7}
    (v1 : T1) (v2 : T2) (v3 : T3) (v4 : T4) (v5 : T5) (v6 : T6) (v7 : T7) err :
  FrameIndep (G:=G) (Must7 v1 v2 v3 v4 v5 v6 v7 err).
Proof. unfold Must7. apply _. Qed.

#[export] Instance MustN_frame_indep {ts} (vs : hlist ts) err :
  FrameIndep (G:=G) (MustN vs err).
Proof. destruct err; apply _. Qed.

End laws.

(** Unfold the helpers and decide the test of [err]. *)
Ltac must_unfold :=
  cbv [Must0 Must Must2 Must3 Must4 Must5 Must6 Must7];
  rewrite ?panic_if_err_nil, ?panic_if_err_Some,
    ?bool_decide_eq_true_2, ?bool_decide_eq_false_2 by done.

(** ** The contract *)

(** What a helper [m] that hands back [v] promises.  With a nil error it
    returns [v] and leaves the state alone.  With an error [e] it panics
    with [e] as payload and leaves the state alone, and so does a
    statement of the caller that calls it and goes on with the result. *)
Definition assert_or_propagate {G A} (m : error → go G A) (v : A) : Prop :=
  (∀ w, m None w = (Normal v, w)) ∧
  (∀ e w, m (Some e) w = (Panicked (VError e), w)) ∧
  (∀ B (k : A → go G B) e w,
     (x <- call (m (Some e)) ;; k x) w = (Panicked (VError e), w)).

(** ** Theorems *)

Section theorems.
Context {G : Type} {T1 T2 T3 T4 T5 T6 T7 : Type}.
Context (v1 : T1) (v2 : T2) (v3 : T3) (v4 : T4) (v5 : T5) (v6 : T6) (v7 : T7).
Implicit Types (w : world G) (e : goerror) (err : error).

(** C9: every helper keeps the contract [assert_or_propagate] on the
    values it is given.  With a nil error it returns its values unchanged,
    does not panic and leaves the state as it is.  With a non-nil error
    it panics with exactly that error as payload and leaves the state as
    it is; it never returns to its caller: whatever the caller does with
    the results after the call does not happen, so the variables the
    results were to be assigned to keep their values. *)
Theorem Must_contract :
  assert_or_propagate (G:=G) Must0 tt ∧
  assert_or_propagate (G:=G) (Must v1) v1 ∧
  assert_or_propagate (G:=G) (Must2 v1 v2) (v1, v2) ∧
  assert_or_propagate (G:=G) (Must3 v1 v2 v3) (v1, v2, v3) ∧
  assert_or_propagate (G:=G) (Must4 v1 v2 v3 v4) (v1, v2, v3, v4) ∧
  assert_or_propagate (G:=G) (Must5 v1 v2 v3 v4 v5) (v1, v2, v3, v4, v5) ∧
  assert_or_propagate (G:=G) (Must6 v1 v2 v3 v4 v5 v6)
    (v1, v2, v3, v4, v5, v6) ∧
  assert_or_propagate (G:=G) (Must7 v1 v2 v3 v4 v5 v6 v7)
    (v1, v2, v3, v4, v5, v6, v7).
Proof.
  repeat split; intros;
    try match goal with
        | |- context [call _] => unfold bind; rewrite (call_frame_indep _ _)
        end;
    by must_unfold.
Qed.

(** Each helper is the generic tuple helper [MustN] at its arity, up to
    the shape of the tuple. *)
Lemma Must_family_is_MustN err :
  Must0 (G:=G) err ≡ MustN (ts:=[]) tt err ∧
  Must (G:=G) v1 err ≡ fmap_comp fst (MustN (ts:=[T1]) (v1, tt) err) ∧
  Must2 (G:=G) v1 v2 err ≡
    fmap_comp (λ '(a, (b, _)), (a, b)) (MustN (ts:=[T1; T2]) (v1, (v2, tt)) err) ∧
  Must3 (G:=G) v1 v2 v3 err ≡
    fmap_comp (λ '(a, (b, (c, _))), (a, b, c))
      (MustN (ts:=[T1; T2; T3]) (v1, (v2, (v3, tt))) err) ∧
  Must4 (G:=G) v1 v2 v3 v4 err ≡
    fmap_comp (λ '(a, (b, (c, (d, _)))), (a, b, c, d))
      (MustN (ts:=[T1; T2; T3; T4]) (v1, (v2, (v3, (v4, tt)))) err) ∧
  Must5 (G:=G) v1 v2 v3 v4 v5 err ≡
    fmap_comp (λ '(a, (b, (c, (d, (f, _))))), (a, b, c, d, f))
      (MustN (ts:=[T1; T2; T3; T4; T5]) (v1, (v2, (v3, (v4, (v5, tt))))) err) ∧
  Must6 (G:=G) v1 v2 v3 v4 v5 v6 err ≡
    fmap_comp (λ '(a, (b, (c, (d, (f, (g, _)))))), (a, b, c, d, f, g))
      (MustN (ts:=[T1; T2; T3; T4; T5; T6])
         (v1, (v2, (v3, (v4, (v5, (v6, tt)))))) err) ∧
  Must7 (G:=G) v1 v2 v3 v4 v5 v6 v7 err ≡
    fmap_comp (λ '(a, (b, (c, (d, (f, (g, (h, _))))))), (a, b, c, d, f, g, h))
      (MustN (ts:=[T1; T2; T3; T4; T5; T6; T7])
         (v1, (v2, (v3, (v4, (v5, (v6, (v7, tt))))))) err).
Proof. destruct err as [e|]; split_and!; intros w; by must_unfold. Qed.

End theorems.
