(* ===== verification/Guarded.v ===== *)
(** * Guarded: functions that defer [Guard]

    The package is used in one pattern, the one every test of
    guard_test.go has: a function (often a function literal) whose first
    statement is [defer Guard(&err)].  [guarded] is that function.  This
    file says what deferring [Guard] buys the caller, and what it does
    not: [Guard] wrapped in a closure ([guarded_in_closure]), [Guard]
    registered before or after another deferred call ([guarded_first],
    [guarded_last]), a guarded function inside another, a helper of
    [Must.v] inside a guarded function, observers assigned after [Guard]
    was deferred, a body that ends the goroutine with [runtime.Goexit]. *)

From S2P Require Import Prelude Effects GoValue Runtime Hooks Guard Must.

Local Open Scope go_scope.

Section guarded.
Context `{Hooks}.

(** [func() { defer Guard(err, opts...); body }()]: the function literal
    every use of the package has, with [Guard] as its only deferred call. *)
Definition guarded {A} (err : ptr) (opts : list Option) (body : rg A)
  : rg (option A) :=
  go_func [Guard err opts] body.

(** The same with [Guard] wrapped in a closure:
    [defer func() { Guard(err, opts...) }()]. *)
Definition guarded_in_closure {A} (err : ptr) (opts : list Option) (body : rg A)
  : rg (option A) :=
  go_func [call (Guard err opts)] body.

(** [func() { defer Guard(err, opts...); defer cleanup(); body }()]: [Guard]
    is registered first, as its contract asks, and runs last. *)
Definition guarded_first {A} (err : ptr) (opts : list Option)
    (cleanup : rg unit) (body : rg A) : rg (option A) :=
  go_func [Guard err opts; cleanup] body.

(** [func() { defer cleanup(); defer Guard(err, opts...); body }()]: [Guard]
    is registered last and runs first. *)
Definition guarded_last {A} (err : ptr) (opts : list Option)
    (cleanup : rg unit) (body : rg A) : rg (option A) :=
  go_func [cleanup; Guard err opts] body.

End guarded.

(** ** One run of a guarded function *)

Section laws.
Context `{Hooks}.
Implicit Types (w : rg_world) (r q : value) (opts : list Option) (l : nat).

(** The body panicked and no observer is set. *)
Lemma run_guarded_panic {A} (body : rg A) w l opts r w1 :
  Forall is_Some opts → r ≠ VNil →
  body (set_depth (S (w_depth w)) w) = (Panicked r, w1) →
  unobserved w1 →
  guarded (Some l) opts body w =
  (Normal None,
   restore_frame (w_panic w) (w_depth w)
     (set_heap (insert l (VError (error_of_panic r))) w1)).
Proof.
  intros Hopts Hr Hb Hu. unfold guarded.
  etrans.
  { eapply go_func_defer_recovered; [exact Hb| |].
    - apply (Guard_unobserved _ _ _ r); try done. by intros [=].
    - done. }
  done.
Qed.

(** The body returned. *)
Lemma run_guarded_normal {A} (body : rg A) w err opts a w1 :
  Forall is_Some opts →
  body (set_depth (S (w_depth w)) w) = (Normal a, w1) →
  guarded err opts body w =
  (Normal (Some a), restore_frame (w_panic w) (w_depth w) w1).
Proof.
  intros Hopts Hb. unfold guarded.
  etrans.
  { eapply go_func_defer_normal; [exact Hb|].
    apply Guard_idle; [done|by right]. }
  done.
Qed.

(** The body calls a function that panics with an error, whatever
    follows the call. *)
Lemma run_guarded_call_error {A B} (m : rg A) (k : A → rg B) w l opts e :
  FrameIndep m → Forall is_Some opts → unobserved w →
  m (set_depth (S (w_depth w)) w) =
    (Panicked (VError e), set_depth (S (w_depth w)) w) →
  guarded (Some l) opts (x <- call m ;; k x) w =
  (Normal None, set_heap (insert l (VError e)) w).
Proof.
  intros Hm Hopts Hu Hr.
  rewrite (run_guarded_panic _ _ _ _ (VError e)
    (set_depth (S (w_depth w)) w)); [by destruct w|done|done| |done].
  unfold bind. by rewrite (call_frame_indep m _), Hr.
Qed.

(** Two deferred calls after a body that returned: the second registered
    panics, the first registered recovers. *)
Lemma go_func_defer2_late_panic_recovered {A} (d1 d2 : rg unit) (body : rg A)
    w a w1 q w2 w3 :
  body (set_depth (S (w_depth w)) w) = (Normal a, w1) →
  d2 (restore_frame (w_panic w) (S (w_depth w)) w1) = (Panicked q, w2) →
  d1 (restore_frame (Some q) 0 w2) = (Normal tt, w3) →
  w_panic w3 = None →
  go_func [d1; d2] body w = (Normal None, restore_frame (w_panic w) (w_depth w) w3).
Proof.
  intros Hb H2 H1 Hp. rewrite run_go_func, Hb. simpl. rewrite H2. simpl.
  by rewrite H1, Hp.
Qed.

(** Two deferred calls after a body that returned: the second registered
    returns, the first registered panics. *)
Lemma go_func_defer2_last_panics {A} (d1 d2 : rg unit) (body : rg A)
    w a w1 q w2 w3 :
  body (set_depth (S (w_depth w)) w) = (Normal a, w1) →
  d2 (restore_frame (w_panic w) (S (w_depth w)) w1) = (Normal tt, w2) →
  d1 (restore_frame (w_panic w) (S (w_depth w)) w2) = (Panicked q, w3) →
  go_func [d1; d2] body w = (Panicked q, restore_frame (w_panic w) (w_depth w) w3).
Proof.
  intros Hb H2 H1. rewrite run_go_func, Hb. simpl. rewrite H2. simpl.
  by rewrite H1.
Qed.

(** Two deferred calls after a body that panicked: the second registered
    recovers, the first registered runs as after a normal return. *)
Lemma go_func_defer2_recovered_first {A} (d1 d2 : rg unit) (body : rg A)
    w r w1 w2 w3 :
  body (set_depth (S (w_depth w)) w) = (Panicked r, w1) →
  d2 (restore_frame (Some r) 0 w1) = (Normal tt, w2) →
  w_panic w2 = None →
  d1 (restore_frame (w_panic w) (S (w_depth w)) w2) = (Normal tt, w3) →
  go_func [d1; d2] body w = (Normal None, restore_frame (w_panic w) (w_depth w) w3).
Proof.
  intros Hb H2 Hp H1. rewrite run_go_func, Hb. simpl. rewrite H2, Hp. simpl.
  by rewrite H1.
Qed.

(** The body panicked and [Guard] returns, whatever the observers are. *)
Lemma run_guarded_recovered {A} (body : rg A) w err opts r w1 w2 :
  Forall is_Some opts →
  body (set_depth (S (w_depth w)) w) = (Panicked r, w1) →
  Guard err opts (restore_frame (Some r) 0 w1) = (Normal tt, w2) →
  guarded err opts body w =
  (Normal None, restore_frame (w_panic w) (w_depth w) w2).
Proof.
  intros Hopts Hb HG. unfold guarded.
  eapply go_func_defer_recovered; [exact Hb|exact HG|].
  pose proof (Guard_leaves_no_panic (restore_frame (Some r) 0 w1) err opts
    Hopts eq_refl) as [Hn _].
  by rewrite HG in Hn.
Qed.

(** Run by the unwinding, [Guard] with observers that return and a
    non-nil [err] returns and leaves nothing to recover. *)
Lemma Guard_deferred_returns `{!HooksReturn} l opts w :
  Forall is_Some opts → w_depth w = 0 →
  ∃ w', Guard (Some l) opts w = (Normal tt, w') ∧ w_panic w' = None.
Proof.
  intros Hopts Hd.
  destruct (@returns_result _ _ _ (Guard (Some l) opts)
    (Guard_returns l opts Hopts) w) as [[] HG].
  destruct (Guard_leaves_no_panic w (Some l) opts Hopts Hd) as [Hn _].
  eauto.
Qed.

(** The body ended the goroutine and no panic is unwinding: [Guard] has
    nothing to do and the exit goes on. *)
Lemma run_guarded_exited {A} (body : rg A) w err opts w1 :
  Forall is_Some opts →
  body (set_depth (S (w_depth w)) w) = (Exited None, w1) →
  guarded err opts body w =
  (Exited None, restore_frame (w_panic w) (w_depth w) w1).
Proof.
  intros Hopts Hb. unfold guarded. etrans.
  { eapply go_func_defer_exited; [exact Hb|].
    apply Guard_idle; [done|by left]. }
  done.
Qed.

(** The body ended the goroutine while a panic was unwinding, and
    [Guard] returns: the panic is recovered and the exit goes on. *)
Lemma run_guarded_exited_recovered {A} (body : rg A) w err opts r w1 w2 :
  Forall is_Some opts →
  body (set_depth (S (w_depth w)) w) = (Exited (Some r), w1) →
  Guard err opts (restore_frame (Some r) 0 w1) = (Normal tt, w2) →
  guarded err opts body w =
  (Exited None, restore_frame (w_panic w) (w_depth w) w2).
Proof.
  intros Hopts Hb HG. unfold guarded.
  rewrite (go_func_defer_exited _ _ _ _ _ _ Hb HG).
  pose proof (Guard_leaves_no_panic (restore_frame (Some r) 0 w1) err opts
    Hopts eq_refl) as [Hn _].
  rewrite HG in Hn. simpl in Hn. by rewrite Hn.
Qed.

(** The body panicked and the [OnGuard] observer panics: its panic
    leaves the function, the payload of the body is lost and nothing is
    stored. *)
Lemma run_guarded_observer_panics {A} (body : rg A) w err opts r w1 q w2 :
  Forall is_Some opts → r ≠ VNil →
  body (set_depth (S (w_depth w)) w) = (Panicked r, w1) →
  notify_OnGuard r (restore_frame None 0 w1) = (Panicked q, w2) →
  guarded err opts body w =
  (Panicked q, restore_frame (w_panic w) (w_depth w) w2).
Proof.
  intros Hopts Hr Hb Hn. unfold guarded.
  apply (go_func_defer_panics _ _ _ _ _ _ _ Hb). simpl.
  rewrite (Guard_recovering _ _ _ r); [|done|by intros [=]|done|done].
  by apply run_bind_panicked.
Qed.

(** How a guarded function ends, by how its body did: with observers
    that return it returns, unless the body ended the goroutine, and then
    the goroutine ends with no panic left. *)
Lemma guarded_outcome `{!HooksReturn} {A} (body : rg A) w l opts :
  Forall is_Some opts →
  match (body (set_depth (S (w_depth w)) w)).1 with
  | Exited _ => (guarded (Some l) opts body w).1 = Exited None
  | _ => is_normal (guarded (Some l) opts body w).1 = true
  end.
Proof.
  intros Hopts.
  destruct (body (set_depth (S (w_depth w)) w)) as [[a|r|[r|]] w1] eqn:Hb; simpl.
  - by rewrite (run_guarded_normal _ _ _ _ a w1).
  - destruct (Guard_deferred_returns l opts (restore_frame (Some r) 0 w1))
      as (w2 & HG & _); [done..|].
    by rewrite (run_guarded_recovered _ _ _ _ r w1 w2).
  - destruct (Guard_deferred_returns l opts (restore_frame (Some r) 0 w1))
      as (w2 & HG & _); [done..|].
    by rewrite (run_guarded_exited_recovered _ _ _ _ r w1 w2).
  - by rewrite (run_guarded_exited _ _ _ _ w1).
Qed.

(** No panic leaves a guarded function. *)
Lemma guarded_no_panic `{!HooksReturn} {A} (body : rg A) l opts :
  Forall is_Some opts → NoPanic (guarded (Some l) opts body).
Proof.
  intros Hopts w. pose proof (guarded_outcome body w l opts Hopts) as Ho.
  destruct (body _).1; try (by rewrite Ho); by apply is_normal_payload.
Qed.

End laws.

(** ** Theorems *)

Section theorems.
Context `{Hooks}.
Implicit Types (w : rg_world) (r q : value) (opts : list Option) (l : nat).

(** C8: a function that defers [Guard(err)] and whose body panics with
    payload [r] returns normally to its caller.  The observers that are
    set have been called, in order, and have returned; the state is the
    one the body and the observers left, with the converted payload stored
    in the variable [err] points to, and the caller's own panic state is
    as before the call. *)
Theorem guarded_absorbs_panic {A} (body : rg A) w l opts r w1 w2 w3 :
  Forall is_Some opts → r ≠ VNil →
  body (set_depth (S (w_depth w)) w) = (Panicked r, w1) →
  notify_OnGuard r (restore_frame None 0 w1) = (Normal tt, w2) →
  notify_OnGuardWithContext (context_of opts) r w2 = (Normal tt, w3) →
  guarded (Some l) opts body w =
  (Normal None,
   restore_frame (w_panic w) (w_depth w)
     (set_heap (insert l (VError (error_of_panic r))) w3)) ∧
  w_heap (guarded (Some l) opts body w).2 !! l = Some (VError (error_of_panic r)) ∧
  w_panic (guarded (Some l) opts body w).2 = w_panic w ∧
  w_depth (guarded (Some l) opts body w).2 = w_depth w.
Proof.
  intros Hopts Hr Hb H1 H2.
  assert (guarded (Some l) opts body w =
          (Normal None,
           restore_frame (w_panic w) (w_depth w)
             (set_heap (insert l (VError (error_of_panic r))) w3))) as Hg.
  { unfold guarded. eapply go_func_defer_recovered; [exact Hb|..].
    - rewrite (Guard_recovering _ _ _ r); [|done|by intros [=]|done|done].
      erewrite run_bind_normal; [|exact H1].
      erewrite run_bind_normal; [|exact H2]. apply run_store_recovered.
    - pose proof (notify_OnGuard_frame r (restore_frame None 0 w1)) as [Hp1 _].
      pose proof (notify_OnGuardWithContext_frame (context_of opts) r w2)
        as [Hp2 _].
      rewrite H1 in Hp1. rewrite H2 in Hp2. simpl in *. congruence. }
  rewrite Hg. simpl. by rewrite lookup_insert_eq.
Qed.

(** C10: a function that defers [Guard(err)] and whose body returns gives
    the body's result, and [Guard] changes nothing: variables and
    package-level variables are as the body left them, whatever [err] is,
    and the caller's panic state is as before the call. *)
Theorem guarded_normal_untouched {A} (body : rg A) w err opts a w1 :
  Forall is_Some opts →
  body (set_depth (S (w_depth w)) w) = (Normal a, w1) →
  (guarded err opts body w).1 = Normal (Some a) ∧
  w_heap (guarded err opts body w).2 = w_heap w1 ∧
  w_globals (guarded err opts body w).2 = w_globals w1 ∧
  w_panic (guarded err opts body w).2 = w_panic w ∧
  w_depth (guarded err opts body w).2 = w_depth w.
Proof.
  intros Hopts Hb. by rewrite (run_guarded_normal _ _ _ _ a w1).
Qed.

(** C11: with observers that return, a non-nil [err] and no nil option,
    no panic ever leaves a function that defers [Guard], whatever its
    body does: every panic is absorbed at the boundary, the one a
    goroutine that is ending carries included.  The function returns
    normally unless its body ends the goroutine. *)
Theorem guarded_never_panics `{!HooksReturn} {A} (body : rg A) w l opts :
  Forall is_Some opts →
  payload (guarded (Some l) opts body w).1 = None ∧
  ((∀ x, (body (set_depth (S (w_depth w)) w)).1 ≠ Exited x) →
   is_normal (guarded (Some l) opts body w).1 = true).
Proof.
  intros Hopts. split; [by apply guarded_no_panic|].
  intros Hx. pose proof (guarded_outcome body w l opts Hopts) as Ho.
  destruct (body _).1 as [| |x]; [done..|by destruct (Hx x)].
Qed.

(** C14: [Guard] wrapped in a deferred closure recovers nothing: the panic
    of the body goes on to the caller and nothing is stored. *)
Theorem guarded_in_closure_propagates {A} (body : rg A) w err opts r w1 :
  Forall is_Some opts →
  body (set_depth (S (w_depth w)) w) = (Panicked r, w1) →
  guarded_in_closure err opts body w =
  (Panicked r, restore_frame (w_panic w) (w_depth w) w1).
Proof.
  intros Hopts Hb. unfold guarded_in_closure.
  etrans.
  { eapply go_func_defer_not_recovered; [exact Hb| |].
    - rewrite run_call, Guard_idle; [done|done|by right].
    - by simpl. }
  done.
Qed.

(** C15: [Guard] does not stop [runtime.Goexit].  When the body of a
    function that defers [Guard] ends the goroutine, [Guard] runs and
    finds nothing to recover: no observer is called, nothing is stored
    through [err] (whatever [err] is), the state is as the body left it
    and the function does not return to its caller.  When a panic [r] was
    raised while the goroutine was ending (by a deferred call of a
    callee), [Guard] absorbs it as any other panic: the observers are
    called, the converted payload is stored, and the goroutine still
    ends. *)
Theorem guarded_Goexit_not_absorbed {A} (body : rg A) w err opts :
  Forall is_Some opts →
  (∀ w1, body (set_depth (S (w_depth w)) w) = (Exited None, w1) →
     guarded err opts body w =
     (Exited None, restore_frame (w_panic w) (w_depth w) w1)) ∧
  (∀ l r w1 w2 w3, err = Some l → r ≠ VNil →
     body (set_depth (S (w_depth w)) w) = (Exited (Some r), w1) →
     notify_OnGuard r (restore_frame None 0 w1) = (Normal tt, w2) →
     notify_OnGuardWithContext (context_of opts) r w2 = (Normal tt, w3) →
     guarded err opts body w =
     (Exited None,
      restore_frame (w_panic w) (w_depth w)
        (set_heap (insert l (VError (error_of_panic r))) w3))).
Proof.
  intros Hopts. split; [intros w1 Hb; by apply run_guarded_exited|].
  intros l r w1 w2 w3 -> Hr Hb H1 H2.
  apply (run_guarded_exited_recovered _ _ _ _ r w1); [done..|].
  rewrite (Guard_recovering _ _ _ r); [|done|by intros [=]|done|done].
  erewrite run_bind_normal; [|exact H1].
  erewrite run_bind_normal; [|exact H2]. apply run_store_recovered.
Qed.

(** ** The helpers of [Must.v] under [Guard] *)

Section must.
Context {T1 T2 T3 T4 T5 T6 T7 B : Type}.
Context (v1 : T1) (v2 : T2) (v3 : T3) (v4 : T4) (v5 : T5) (v6 : T6) (v7 : T7).
Context (k0 : unit → rg B) (k1 : T1 → rg B) (k2 : T1 * T2 → rg B)
  (k3 : T1 * T2 * T3 → rg B) (k4 : T1 * T2 * T3 * T4 → rg B)
  (k5 : T1 * T2 * T3 * T4 * T5 → rg B)
  (k6 : T1 * T2 * T3 * T4 * T5 * T6 → rg B)
  (k7 : T1 * T2 * T3 * T4 * T5 * T6 * T7 → rg B).

(** C16: the helpers under [Guard].  An error handed to a helper inside
    a guarded function comes out of the function as the value of [err],
    the very same error.  For each of [Must0], [Must], [Must2] ...
    [Must7]: the function returns normally, the rest of the body after
    the call of the helper does not run (whatever it is), and the only
    change of the state is the assignment to [err].  With a nil error the
    helpers are transparent: the function behaves as if the values had
    been used directly, on every state and whatever [err] is. *)
Theorem guarded_Must_roundtrip w l opts e :
  Forall is_Some opts → unobserved w →
  let absorbed := (Normal None, set_heap (insert l (VError e)) w) in
  guarded (Some l) opts (x <- call (Must0 (Some e)) ;; k0 x) w = absorbed ∧
  guarded (Some l) opts (x <- call (Must v1 (Some e)) ;; k1 x) w = absorbed ∧
  guarded (Some l) opts (x <- call (Must2 v1 v2 (Some e)) ;; k2 x) w = absorbed ∧
  guarded (Some l) opts (x <- call (Must3 v1 v2 v3 (Some e)) ;; k3 x) w
    = absorbed ∧
  guarded (Some l) opts (x <- call (Must4 v1 v2 v3 v4 (Some e)) ;; k4 x) w
    = absorbed ∧
  guarded (Some l) opts (x <- call (Must5 v1 v2 v3 v4 v5 (Some e)) ;; k5 x) w
    = absorbed ∧
  guarded (Some l) opts (x <- call (Must6 v1 v2 v3 v4 v5 v6 (Some e)) ;; k6 x) w
    = absorbed ∧
  guarded (Some l) opts (x <- call (Must7 v1 v2 v3 v4 v5 v6 v7 (Some e)) ;; k7 x) w
    = absorbed ∧
  error_of_any (default VNil (w_heap absorbed.2 !! l)) = Some e ∧
  ∀ err,
    guarded err opts (x <- call (Must0 None) ;; k0 x) ≡ guarded err opts (k0 tt) ∧
    guarded err opts (x <- call (Must v1 None) ;; k1 x) ≡ guarded err opts (k1 v1) ∧
    guarded err opts (x <- call (Must2 v1 v2 None) ;; k2 x)
      ≡ guarded err opts (k2 (v1, v2)) ∧
    guarded err opts (x <- call (Must3 v1 v2 v3 None) ;; k3 x)
      ≡ guarded err opts (k3 (v1, v2, v3)) ∧
    guarded err opts (x <- call (Must4 v1 v2 v3 v4 None) ;; k4 x)
      ≡ guarded err opts (k4 (v1, v2, v3, v4)) ∧
    guarded err opts (x <- call (Must5 v1 v2 v3 v4 v5 None) ;; k5 x)
      ≡ guarded err opts (k5 (v1, v2, v3, v4, v5)) ∧
    guarded err opts (x <- call (Must6 v1 v2 v3 v4 v5 v6 None) ;; k6 x)
      ≡ guarded err opts (k6 (v1, v2, v3, v4, v5, v6)) ∧
    guarded err opts (x <- call (Must7 v1 v2 v3 v4 v5 v6 v7 None) ;; k7 x)
      ≡ guarded err opts (k7 (v1, v2, v3, v4, v5, v6, v7)).
Proof.
  intros Hopts Hu. simpl.
  split_and!; try (apply run_guarded_call_error; [apply _|done|done|by must_unfold]).
  { by rewrite lookup_insert_eq. }
  intros err. unfold guarded.
  split_and!; rewrite call_frame_indep by apply _; must_unfold;
    by rewrite ?bind_ret_l.
Qed.

End must.

(** ** Other deferred calls, other barriers *)

(** C23: the order of registration matters.  When the body returns and
    another deferred call, [cleanup], panics with [q]: [Guard] registered
    first (as its contract asks) runs last and absorbs the panic, and the
    function returns normally with the converted [q] in [*err]; [Guard]
    registered last runs first and finds nothing to recover, then the
    cleanup panics and the panic leaves the function with nothing stored
    through [err], whatever [err] is.  Of two calls of [Guard] deferred by
    one function whose body panics, the one registered last absorbs the
    panic and stores the error; the other runs after it, finds nothing to
    recover and leaves its [err] alone. *)
Theorem Guard_defer_order {A} (body : rg A) w l opts :
  Forall is_Some opts →
  (∀ cleanup a w1 q w2,
     body (set_depth (S (w_depth w)) w) = (Normal a, w1) →
     cleanup (restore_frame (w_panic w) (S (w_depth w)) w1) = (Panicked q, w2) →
     (q ≠ VNil → unobserved w2 →
      guarded_first (Some l) opts cleanup body w =
      (Normal None,
       restore_frame (w_panic w) (w_depth w)
         (set_heap (insert l (VError (error_of_panic q))) w2))) ∧
     (∀ err, guarded_last err opts cleanup body w =
             (Panicked q, restore_frame (w_panic w) (w_depth w) w2))) ∧
  (∀ l2 opts2 r w1,
     Forall is_Some opts2 → r ≠ VNil →
     body (set_depth (S (w_depth w)) w) = (Panicked r, w1) → unobserved w1 →
     guarded_first (Some l) opts (Guard (Some l2) opts2) body w =
     (Normal None,
      restore_frame (w_panic w) (w_depth w)
        (set_heap (insert l2 (VError (error_of_panic r))) w1))).
Proof.
  intros Hopts. split; [intros cleanup a w1 q w2 Hb Hc; split|].
  - intros Hq Hu. unfold guarded_first. etrans.
    { eapply go_func_defer2_late_panic_recovered; [exact Hb|exact Hc| |].
      - apply (Guard_unobserved _ _ _ q); try done. by intros [=].
      - done. }
    done.
  - intros err. unfold guarded_last. eapply go_func_defer2_last_panics.
    + exact Hb.
    + apply Guard_idle; [done|by right].
    + exact Hc.
  - intros l2 opts2 r w1 Ho2 Hr Hb Hu. unfold guarded_first. etrans.
    { eapply go_func_defer2_recovered_first; [exact Hb|..].
      - apply (Guard_unobserved _ _ _ r); try done. by intros [=].
      - done.
      - apply Guard_idle; [done|by right]. }
    done.
Qed.

(** C24: a panic is absorbed by the nearest enclosing barrier.  When a
    guarded function runs as the body of another and its own body panics,
    the inner function returns normally with the converted payload behind
    its [err]; the outer function returns the inner one's result, and its
    [Guard] stores nothing. *)
Theorem nearest_barrier_absorbs {A} (body : rg A) w l1 l2 opts1 opts2 r w1 :
  Forall is_Some opts1 → Forall is_Some opts2 → r ≠ VNil →
  body (set_depth (S (S (w_depth w))) w) = (Panicked r, w1) →
  unobserved w1 →
  guarded (Some l1) opts1 (guarded (Some l2) opts2 body) w =
  (Normal (Some None),
   restore_frame (w_panic w) (w_depth w)
     (set_heap (insert l2 (VError (error_of_panic r))) w1)).
Proof.
  intros Ho1 Ho2 Hr Hb Hu.
  erewrite (run_guarded_normal (guarded (Some l2) opts2 body)); [|done|].
  2: { by apply (run_guarded_panic _ _ _ _ r w1). }
  done.
Qed.

(** C34: the observers are read when [Guard] runs, not when it is
    deferred, and the last assignment wins.  A function that defers
    [Guard], then assigns the observer variables (here [OnGuard] twice)
    and panics with [r] has the function assigned last called with [r],
    whatever the variables held when [Guard] was deferred. *)
Theorem observers_read_when_Guard_runs w l opts fn1 fn r w1 :
  Forall is_Some opts → r ≠ VNil →
  call (hook_body fn r) (World (w_heap w) (Globals (Some fn) None) None 0)
    = (Normal tt, w1) →
  OnGuardWithContext (w_globals w1) = None →
  guarded (A:=unit) (Some l) opts
    (set_OnGuardWithContext None ;; set_OnGuard fn1 ;;
     set_OnGuard (Some fn) ;; gopanic r) w =
  (Normal None,
   restore_frame (w_panic w) (w_depth w)
     (set_heap (insert l (VError (error_of_panic r))) w1)).
Proof.
  intros Hopts Hr Hfn Hc.
  eapply (run_guarded_recovered _ _ _ _ r
    (World (w_heap w) (Globals (Some fn) None) (w_panic w) (S (w_depth w))));
    [done|by destruct r|].
  rewrite (Guard_first_observer_returns _ _ _ r fn w1); try done.
  - erewrite run_bind_normal; [apply run_store_recovered|].
    by apply notify_OnGuardWithContext_unset.
  - by intros [=].
Qed.

End theorems.

(** ** On concrete runs

    Variable 1 is the [err] of the caller; variables 2, 3 and 4 are what
    the sample observers write. *)

Module GuardedRuns.
Import Sample Runs.

Lemma guarded_absorbs_panic_witness :
  guarded (H:=sample_hooks) (A:=unit) (Some 1) [] (gopanic (VString "hello"))
    (w_calm observed) =
  (Normal None,
   World {[ 1 := VError (errors_New "panic: hello"); 2 := VString "hello";
            3 := VString "context.TODO"; 4 := VString "hello" ]}
     observed None 0).
Proof.
  etrans; [eapply (guarded_absorbs_panic (H:=sample_hooks) (A:=unit) _ _ _ _
    (VString "hello"))|]; [done|done|reflexivity|reflexivity|reflexivity|].
  vm_compute. reflexivity.
Defined.

Lemma guarded_normal_untouched_witness :
  (guarded (Some 1) [] (store (Some 2) (VInt 3) ;; ret 5) (w_calm observed)).1
    = Normal (Some 5) ∧
  w_heap (guarded (Some 1) [] (store (Some 2) (VInt 3) ;; ret 5)
            (w_calm observed)).2
    = {[ 1 := VNil; 2 := VInt 3 ]}.
Proof.
  destruct (guarded_normal_untouched (H:=sample_hooks)
    (store (Some 2) (VInt 3) ;; ret 5) (w_calm observed) (Some 1) [] 5
    (set_heap (insert 2 (VInt 3)) (set_depth 1 (w_calm observed))))
    as (H1 & H2 & _); [done|done|].
  split; [done|]. rewrite H2. vm_compute. reflexivity.
Defined.

(** The body ends the goroutine; and the body calls a function whose
    deferred call panics while the goroutine is ending. *)
Lemma guarded_Goexit_not_absorbed_witness :
  guarded (H:=sample_hooks) (A:=unit) (Some 1) [] Goexit (w_calm observed) =
  (Exited None, w_calm observed) ∧
  guarded (H:=sample_hooks) (A:=unit) (Some 1) []
    (go_func (A:=unit) [gopanic (VString "late")] Goexit ;; ret tt)
    (w_calm observed) =
  (Exited None,
   World {[ 1 := VError (errors_New "panic: late"); 2 := VString "late";
            3 := VString "context.TODO"; 4 := VString "late" ]}
     observed None 0).
Proof.
  split.
  - by apply (proj1 (guarded_Goexit_not_absorbed (H:=sample_hooks) (A:=unit)
      Goexit (w_calm observed) (Some 1) [] (Forall_nil_2 _))
      (set_depth 1 (w_calm observed))).
  - etrans; [eapply (proj2 (guarded_Goexit_not_absorbed (H:=sample_hooks)
      (A:=unit) _ (w_calm observed) (Some 1) [] (Forall_nil_2 _))
      1 (VString "late"))|];
      [done|done|reflexivity|reflexivity|reflexivity|].
    vm_compute. reflexivity.
Defined.

Lemma guarded_in_closure_propagates_witness :
  guarded_in_closure (A:=unit) (Some 1) [] (gopanic (VString "hello"))
    (w_calm observed) =
  (Panicked (VString "hello"), w_calm observed).
Proof.
  etrans; [eapply guarded_in_closure_propagates|]; [done|reflexivity|].
  vm_compute. reflexivity.
Defined.

Lemma guarded_Must_roundtrip_witness :
  guarded (H:=sample_hooks) (Some 1) []
    (x <- call (Must 3%Z (Some (errors_New "hello"))) ;; store (Some 2) (VInt x))
    (World {[ 1 := VNil; 2 := VInt 0 ]} unset None 0) =
  (Normal None,
   World {[ 1 := VError (errors_New "hello"); 2 := VInt 0 ]} unset None 0).
Proof.
  etrans.
  { apply (guarded_Must_roundtrip (H:=sample_hooks) (B:=unit)
      3%Z true true true true true true
      (λ _, ret tt) (λ x, store (Some 2) (VInt x)) (λ _, ret tt) (λ _, ret tt)
      (λ _, ret tt) (λ _, ret tt) (λ _, ret tt) (λ _, ret tt)); done. }
  vm_compute. reflexivity.
Defined.

(** A cleanup that panics after [Guard] was deferred first and last; two
    calls of [Guard] deferred by a function that panics. *)
Lemma Guard_defer_order_witness :
  guarded_first (H:=sample_hooks) (Some 1) [] (gopanic (VString "cleanup"))
    (ret 5) (w_calm unset) =
  (Normal None,
   World {[ 1 := VError (errors_New "panic: cleanup") ]} unset None 0) ∧
  guarded_last (H:=sample_hooks) (Some 1) [] (gopanic (VString "cleanup"))
    (ret 5) (w_calm unset) =
  (Panicked (VString "cleanup"), w_calm unset) ∧
  guarded_first (H:=sample_hooks) (A:=unit) (Some 1) [] (Guard (Some 2) [])
    (gopanic (VInt 7)) (World {[ 1 := VNil; 2 := VNil ]} unset None 0) =
  (Normal None,
   World {[ 1 := VNil; 2 := VError (errors_New "panic: 7") ]} unset None 0).
Proof.
  destruct (proj1 (Guard_defer_order (H:=sample_hooks) (ret 5)
    (w_calm unset) 1 [] (Forall_nil_2 _)) (gopanic (VString "cleanup")) 5
    (set_depth 1 (w_calm unset)) (VString "cleanup")
    (set_depth 1 (w_calm unset))) as [H1 H2]; [done|done|].
  rewrite H1, H2 by done. split_and!; [by vm_compute..|].
  etrans; [eapply (proj2 (Guard_defer_order (H:=sample_hooks) (A:=unit) _ _ 1 []
    (Forall_nil_2 _)) 2 [] (VInt 7))|]; [done|done|reflexivity|done|].
  vm_compute. reflexivity.
Defined.

Lemma nearest_barrier_absorbs_witness :
  guarded (H:=sample_hooks) (Some 1) []
    (guarded (A:=unit) (Some 2) [] (gopanic (VInt 7)))
    (World {[ 1 := VNil; 2 := VNil ]} unset None 0) =
  (Normal (Some None),
   World {[ 1 := VNil; 2 := VError (errors_New "panic: 7") ]} unset None 0).
Proof.
  etrans; [eapply (nearest_barrier_absorbs (H:=sample_hooks) _ _ _ _ _ _ (VInt 7))|];
    [done|done|done|reflexivity|done|].
  vm_compute. reflexivity.
Defined.

Lemma observers_read_when_Guard_runs_witness :
  guarded (H:=sample_hooks) (A:=unit) (Some 1) []
    (set_OnGuardWithContext None ;; set_OnGuard (Some Rethrow) ;;
     set_OnGuard (Some (Record_ 2)) ;; gopanic (VString "hello"))
    (w_calm observer_panics) =
  (Normal None,
   World {[ 1 := VError (errors_New "panic: hello"); 2 := VString "hello" ]}
     (Globals (Some (Record_ 2)) None) None 0).
Proof.
  etrans; [eapply (observers_read_when_Guard_runs (H:=sample_hooks))|];
    [done|done|reflexivity|done|].
  vm_compute. reflexivity.
Defined.

End GuardedRuns.

Module RecordingRuns.
Import Recording.

Lemma guarded_never_panics_witness :
  is_normal
    (guarded (A:=unit) (Some 1) [WithContext (Some ctx_Background)]
       (gopanic (VInt 42))
       (World {[ 1 := VNil ]} (Globals (Some 2) (Some (3, 4))) None 0)).1 = true.
Proof. apply guarded_never_panics; [by repeat constructor|done]. Defined.

End RecordingRuns.
