(* ===== verification/Soundness.v ===== *)
(** * Soundness: the invariant of the panic state

    [Guard] tells a recovered panic from no panic by the test [r != nil]
    (guard.go line 41).  The test is right because of an invariant of the
    runtime: a panic in flight never carries nil ([wf_world]), since
    [panic(nil)] raises a [*runtime.PanicNilError].  This file proves that
    the invariant is kept by every primitive of [Runtime], by [Guard], by
    the functions that defer it and by the [Must] helpers, together with
    its counterpart on outcomes: every panic that leaves one of them,
    alone or with the end of the goroutine, carries a non-nil payload.  The class [Sound] states both; its
    instances follow the structure of the code, so that soundness of a
    program is found by instance search.  [HooksSound] is what the
    application owes for its observers. *)

From S2P Require Import Prelude Effects GoValue Runtime Hooks Guard Must Guarded.

Local Open Scope go_scope.

(** A computation keeps the invariant, and panics with non-nil payloads
    only. *)
Class Sound {G A} (m : go G A) : Prop :=
  sound : ∀ w, wf_world w →
    wf_world (m w).2 ∧ ∀ q, payload (m w).1 = Some q → q ≠ VNil.

(** Every deferred call of a list is sound. *)
Class AllSound {G} (ds : list (go G unit)) : Prop :=
  all_sound : Forall Sound ds.

(** An exit status is sound when the panic it carries is not nil. *)
Definition status_sound {A} (st : exit_status A) : Prop :=
  match st with
  | Panicking p | Exiting (Some p) => p ≠ VNil
  | _ => True
  end.

(** ** The primitives *)

Section primitives.
Context {G : Type}.
Implicit Types (w : world G) (v q : value).

Lemma sound_outcome {A} (m : go G A) `{!Sound m} w o w' q :
  wf_world w → m w = (o, w') → payload o = Some q → q ≠ VNil.
Proof. intros Hw Hm Ho. apply (sound (m:=m) w Hw). by rewrite Hm. Qed.

Lemma sound_payload {A} (m : go G A) `{!Sound m} w q w' :
  wf_world w → m w = (Panicked q, w') → q ≠ VNil.
Proof. intros Hw Hm. by apply (sound_outcome m w _ w' q Hw Hm). Qed.

#[export] Instance Goexit_sound {A} : Sound (G:=G) (A:=A) Goexit.
Proof. by intros w Hw. Qed.

#[export] Instance ret_sound {A} (a : A) : Sound (G:=G) (ret a).
Proof. by intros w Hw. Qed.

#[export] Instance gopanic_sound {A} v : Sound (G:=G) (A:=A) (gopanic v).
Proof.
  intros w Hw. split; [done|]. intros q [= <-]. apply panic_value_not_nil.
Qed.

#[export] Instance bind_sound {A B} (m : go G A) (k : A → go G B) :
  Sound m → (∀ a, Sound (k a)) → Sound (bind m k).
Proof.
  intros Hm Hk w Hw. unfold bind. destruct (Hm w Hw) as [Hw' Hq].
  destruct (m w) as [[a|q|q] w']; simpl in *; [by apply Hk|done..].
Qed.

#[export] Instance fmap_comp_sound {A B} (f : A → B) (m : go G A) :
  Sound m → Sound (fmap_comp f m).
Proof. intros Hm. unfold fmap_comp. apply _. Qed.

#[export] Instance try_catch_sound {A} (m : go G A) (h : value → go G A) :
  Sound m → (∀ q, Sound (h q)) → Sound (try_catch m h).
Proof.
  intros Hm Hh w Hw. unfold try_catch. destruct (Hm w Hw) as [Hw' Hq].
  destruct (m w) as [[a|q|[q|]] w']; simpl in *; [done|by apply Hh| |done].
  rewrite payload_exiting. by apply Hh.
Qed.

#[export] Instance foldM_sound {A B} (f : A → B → go G A) a l :
  (∀ a x, Sound (f a x)) → Sound (foldM f a l).
Proof.
  intros Hf. revert a. induction l as [|x l IH]; intros a; simpl; apply _.
Qed.

#[export] Instance recover_sound : Sound (recover (G:=G)).
Proof.
  intros w Hw. unfold recover.
  destruct (w_panic w) as [p|] eqn:Hp, (w_depth w); by simpl.
Qed.

#[export] Instance store_sound p v : Sound (G:=G) (store p v).
Proof. destruct p; [by intros w Hw|apply _]. Qed.

#[export] Instance load_sound p : Sound (G:=G) (load p).
Proof. destruct p; [by intros w Hw|apply _]. Qed.

#[export] Instance go_new_sound v : Sound (G:=G) (go_new v).
Proof. by intros w Hw. Qed.

#[export] Instance read_global_sound {A} (f : G → A) : Sound (read_global f).
Proof. by intros w Hw. Qed.

#[export] Instance write_global_sound (f : G → G) : Sound (write_global f).
Proof. by intros w Hw. Qed.

#[export] Instance call_sound {A} (f : go G A) : Sound f → Sound (call f).
Proof.
  intros Hf w Hw. rewrite run_call. simpl.
  destruct (Hf (set_depth (S (w_depth w)) w) Hw) as [_ Hq]. by split.
Qed.

(** *** Deferred calls *)

#[export] Instance all_sound_nil : AllSound (G:=G) [].
Proof. constructor. Qed.

#[export] Instance all_sound_cons (d : go G unit) ds :
  Sound d → AllSound ds → AllSound (d :: ds).
Proof. by constructor. Qed.

Lemma all_sound_rev (ds : list (go G unit)) : AllSound ds → AllSound (rev ds).
Proof. apply Forall_rev. Qed.

Lemma run_deferred_sound {A} op od (d : go G unit) (st : exit_status A) w :
  Sound d → op ≠ Some VNil → status_sound st →
  status_sound (run_deferred op od d st w).1.
Proof.
  intros Hd Hop Hst. unfold run_deferred.
  destruct st as [a| |p|[p|]]; simpl in *;
    destruct (d _) as [[[]|q|[q|]] w'] eqn:E; simpl; try done;
    try (by destruct (w_panic w'));
    (eapply (sound_outcome d); [|exact E|done]);
    unfold wf_world; simpl; congruence.
Qed.

Lemma run_defers_sound {A} op od (ds : list (go G unit)) (st : exit_status A) w :
  AllSound ds → op ≠ Some VNil → status_sound st →
  status_sound (run_defers op od ds st w).1.
Proof.
  intros Hds Hop. revert st w.
  induction Hds as [|d ds Hd _ IH]; intros st w Hst; simpl; [done|].
  pose proof (run_deferred_sound op od d st w Hd Hop Hst) as H1.
  destruct (run_deferred op od d st w) as [st' w']. by apply IH.
Qed.

Lemma status_of_outcome_sound {A} (o : outcome value A) :
  (∀ q, payload o = Some q → q ≠ VNil) → status_sound (status_of_outcome o).
Proof. destruct o as [a|q|[q|]]; simpl; [done| | |done]; intros H; by apply H. Qed.

Lemma outcome_of_status_sound {A} (st : exit_status A) q :
  status_sound st → payload (outcome_of_status st) = Some q → q ≠ VNil.
Proof. destruct st as [a| |p|[p|]]; simpl; try done; by intros ? [= <-]. Qed.

#[export] Instance go_func_sound {A} ds (body : go G A) :
  AllSound ds → Sound body → Sound (go_func ds body).
Proof.
  intros Hds Hb w Hw. rewrite run_go_func. simpl. split; [done|].
  intros q. apply outcome_of_status_sound, run_defers_sound;
    [by apply all_sound_rev|done|].
  apply status_of_outcome_sound, (sound (m:=body)). done.
Qed.

End primitives.

(** ** The package *)

(** What the application owes: its observers are sound. *)
Class HooksSound `{Hooks} : Prop := {
  hook_sound fn r :: Sound (hook_body fn r);
  ctx_hook_sound fn c r :: Sound (ctx_hook_body fn c r)
}.

Section package.
Context `{Hooks} `{!HooksSound}.
Implicit Types (w : rg_world) (r : value) (opts : list Option).

#[export] Instance apply_option_sound o opt : Sound (apply_option o opt).
Proof. destruct opt; apply _. Qed.

#[export] Instance resolve_options_sound opts : Sound (resolve_options opts).
Proof. unfold resolve_options. apply _. Qed.

#[export] Instance notify_OnGuard_sound r : Sound (notify_OnGuard r).
Proof.
  unfold notify_OnGuard. apply bind_sound; [apply _|]. intros [fn|]; apply _.
Qed.

#[export] Instance notify_OnGuardWithContext_sound c r :
  Sound (notify_OnGuardWithContext c r).
Proof.
  unfold notify_OnGuardWithContext. apply bind_sound; [apply _|].
  intros [fn|]; apply _.
Qed.

#[export] Instance store_recovered_sound err r : Sound (store_recovered err r).
Proof. unfold store_recovered. destruct (type_assert_error r); apply _. Qed.

#[export] Instance Guard_sound err opts : Sound (Guard err opts).
Proof.
  unfold Guard. apply bind_sound; [apply _|]. intros o.
  apply bind_sound; [apply _|]. intros r. destruct (decide (r = VNil)); apply _.
Qed.

#[export] Instance guarded_sound {A} err opts (body : rg A) :
  Sound body → Sound (guarded err opts body).
Proof. intros Hb. unfold guarded. apply _. Qed.

End package.

(** The helpers are sound whatever the application is. *)
Section helpers.
Context {G : Type}.

Lemma panic_if_err_sound (err : error) :
  Sound (G:=G)
    (if bool_decide (err ≠ None) then gopanic (any_of_error err) else ret tt).
Proof. destruct (bool_decide _); apply _. Qed.

Lemma panic_if_err_then_sound {A} (err : error) (a : A) :
  Sound (G:=G)
    ((if bool_decide (err ≠ None) then gopanic (any_of_error err) else ret tt) ;;
     ret a).
Proof. apply bind_sound; [apply panic_if_err_sound|apply _]. Qed.

#[export] Instance Must0_sound err : Sound (G:=G) (Must0 err).
Proof. apply panic_if_err_then_sound. Qed.

#[export] Instance Must_sound {T} (v : T) err : Sound (G:=G) (Must v err).
Proof. unfold Must. destruct (bool_decide _); apply _. Qed.

#[export] Instance Must2_sound {T1 T2} (v1 : T1) (v2 : T2) err :
  Sound (G:=G) (Must2 v1 v2 err).
Proof. apply panic_if_err_then_sound. Qed.

#[export] Instance Must3_sound {T1 T2 T3} (v1 : T1) (v2 : T2) (v3 : T3) err :
  Sound (G:=G) (Must3 v1 v2 v3 err).
Proof. apply panic_if_err_then_sound. Qed.

#[export] Instance Must4_sound {T1 T2 T3 T4} (v1 : T1) (v2 : T2) (v3 : T3)
    (v4 : T4) err : Sound (G:=G) (Must4 v1 v2 v3 v4 err).
Proof. apply panic_if_err_then_sound. Qed.

#[export] Instance Must5_sound {T1 T2 T3 T4 T5} (v1 : T1) (v2 : T2) (v3 : T3)
    (v4 : T4) (v5 : T5) err : Sound (G:=G) (Must5 v1 v2 v3 v4 v5 err).
Proof. apply panic_if_err_then_sound. Qed.

#[export] Instance Must6_sound {T1 T2 T3 T4 T5 T6} (v1 : T1) (v2 : T2) (v3 : T3)
    (v4 : T4) (v5 : T5) (v6 : T6) err :
  Sound (G:=G) (Must6 v1 v2 v3 v4 v5 v6 err).
Proof. apply panic_if_err_then_sound. Qed.

#[export] Instance Must7_sound {T1 T2 T3 T4 T5 T6 T7} (v1 : T1) (v2 : T2)
    (v3 : T3) (v4 : T4) (v5 : T5) (v6 : T6) (v7 : T7) err :
  Sound (G:=G) (Must7 v1 v2 v3 v4 v5 v6 v7 err).
Proof. apply panic_if_err_then_sound. Qed.

#[export] Instance MustN_sound {ts} (vs : hlist ts) err : Sound (G:=G) (MustN vs err).
Proof. destruct err; apply _. Qed.

End helpers.

(** ** Panics that carry nil

    Before Go 1.21 (and with [GODEBUG=panicnil=1] since) [panic(nil)]
    raises nil itself. *)

Definition gopanic_legacy {G A} (v : value) : go G A := throw v.

(** ** Theorems *)

Section theorems.
Context `{Hooks}.
Implicit Types (w : rg_world) (r : value) (opts : list Option) (l : nat).


(** C21: exactly one of "untouched" and "overwritten with the converted
    payload" holds of [*err] after a function that defers [Guard]: when
    the body returns, its result is returned and [*err] is as the body left
    it; when the body panics, the function returns normally and [*err]
    holds the converted payload.  When the body ends the goroutine the
    function does not return, and [*err] is as the body left it unless a
    panic was unwinding as well, whose converted payload it then holds.
    No panic is lost: the body is sound, so the nil test of [Guard] cannot
    miss one. *)
Theorem err_untouched_or_converted {A} (body : rg A) w l opts :
  Sound body → wf_world w → Forall is_Some opts →
  unobserved (body (set_depth (S (w_depth w)) w)).2 →
  let after := guarded (Some l) opts body w in
  match (body (set_depth (S (w_depth w)) w)).1 with
  | Normal a =>
      after.1 = Normal (Some a) ∧
      w_heap after.2 !! l = w_heap (body (set_depth (S (w_depth w)) w)).2 !! l
  | Panicked r =>
      after.1 = Normal None ∧
      w_heap after.2 !! l = Some (VError (error_of_panic r))
  | Exited None =>
      after.1 = Exited None ∧
      w_heap after.2 !! l = w_heap (body (set_depth (S (w_depth w)) w)).2 !! l
  | Exited (Some r) =>
      after.1 = Exited None ∧
      w_heap after.2 !! l = Some (VError (error_of_panic r))
  end.
Proof.
  intros Hb Hw Hopts Hu.
  destruct (body (set_depth (S (w_depth w)) w)) as [[a|r|[r|]] w1] eqn:E;
    simpl in *.
  - by rewrite (run_guarded_normal _ _ _ _ a w1).
  - rewrite (run_guarded_panic _ _ _ _ r w1); try done.
    + simpl. by rewrite lookup_insert_eq.
    + by eapply (sound_payload body _ r w1); [|exact E].
  - assert (r ≠ VNil) as Hr by by eapply (sound_outcome body _ _ w1 r); [|exact E|].
    rewrite (run_guarded_exited_recovered _ _ _ _ r w1
      (set_heap (insert l (VError (error_of_panic r))) (restore_frame None 0 w1)));
      [simpl; by rewrite lookup_insert_eq|done|done|].
    apply (Guard_unobserved _ _ (restore_frame (Some r) 0 w1) r); try done.
    by intros [=].
  - by rewrite (run_guarded_exited _ _ _ _ w1).
Qed.

(** C22: a panic that carries nil is lost.  Under the semantics of
    [panic(nil)] before Go 1.21 a function that defers [Guard] and calls
    [panic(nil)] returns normally with the state exactly as before the
    call: the panic is recovered, no observer is called and nothing is
    stored through [err]. *)
Theorem legacy_nil_panic_is_lost w err opts :
  Forall is_Some opts →
  guarded (A:=unit) err opts (gopanic_legacy VNil) w = (Normal None, w).
Proof.
  intros Hopts. unfold guarded. etrans.
  { eapply (go_func_defer_recovered _ _ w VNil); [done| |].
    - rewrite Guard_unfold by done. by rewrite (recover_panicking _ VNil).
    - done. }
  simpl. by destruct w.
Qed.

End theorems.

(** ** On concrete runs *)

Module SoundRuns.
Import Sample.

#[export] Instance sample_hooks_sound : HooksSound.
Proof.
  split; intros []; intros;
    cbn [hook_body ctx_hook_body sample_hooks sample_hook_body
         sample_ctx_hook_body]; apply _.
Qed.


Lemma err_untouched_or_converted_witness :
  (guarded (H:=sample_hooks) (Some 1) [] (Must0 (Some (errors_New "hello")))
     (World {[ 1 := VNil ]} (Globals None None) None 0)).1 = Normal None ∧
  w_heap (guarded (H:=sample_hooks) (Some 1) []
            (Must0 (Some (errors_New "hello")))
            (World {[ 1 := VNil ]} (Globals None None) None 0)).2 !! 1 =
  Some (VError (errors_New "hello")).
Proof.
  apply (err_untouched_or_converted (H:=sample_hooks)
    (Must0 (Some (errors_New "hello")))
    (World {[ 1 := VNil ]} (Globals None None) None 0) 1 []);
    [apply _|done|done|done].
Defined.

Lemma legacy_nil_panic_is_lost_witness :
  guarded (H:=sample_hooks) (A:=unit) (Some 1) [WithContext None]
    (gopanic_legacy VNil)
    (World {[ 1 := VNil ]} (Globals (Some (Record_ 2)) None) None 0) =
  (Normal None, World {[ 1 := VNil ]} (Globals (Some (Record_ 2)) None) None 0).
Proof.
  apply (legacy_nil_panic_is_lost (H:=sample_hooks)). by repeat constructor.
Defined.

End SoundRuns.
