(* ===== verification/Typing.v ===== *)
(** * Typing: the static types of the variables

    Go is statically typed: a variable declared [var err error] holds nil
    or an error for as long as it lives, a [var v1 int] an integer of 64
    bits.  The heap of [Runtime.v] holds values of any dynamic type; this
    file states the discipline as an invariant of the heap
    ([heap_typed]: every declared variable is allocated and holds a value
    of its type) and proves that the package keeps it: what [Guard]
    assigns through [err *error] is an error, whatever was recovered.

    [Keeps P m] says that the computation [m] keeps a property [P] of the
    heap; its instances follow the structure of the code, so that a
    program built from the primitives, [Guard] and the [Must] helpers
    keeps the typing by instance search.  [HooksKeep] is what the
    application owes for its observers, [ErrPtr] what the type [*error]
    of [err] gives. *)

From S2P Require Import Prelude Effects GoValue Runtime Hooks Guard Must Guarded.

Local Open Scope go_scope.

(** ** Types and typed heaps *)

(** The types of the variables the package and its tests declare. *)
Inductive go_type : Type :=
  | TBool     (* bool *)
  | TInt      (* int *)
  | TString   (* string *)
  | TError    (* error *)
  | TAny.     (* any *)

#[export] Instance go_type_eq_dec : EqDecision go_type.
Proof. solve_decision. Defined.

(** The range of [int] on the 64-bit platforms. *)
Definition int_min : Z := -9223372036854775808.
Definition int_max : Z := 9223372036854775807.

(** [v] is a value of a variable of type [t].  An interface type holds
    nil as well. *)
Definition has_type (v : value) (t : go_type) : Prop :=
  match t, v with
  | TAny, _ => True
  | TError, (VNil | VError _) => True
  | TBool, VBool _ => True
  | TInt, VInt n => (int_min ≤ n ≤ int_max)%Z
  | TString, VString _ => True
  | _, _ => False
  end.

#[export] Instance has_type_dec v t : Decision (has_type v t).
Proof. destruct t, v; apply _. Defined.

(** The types of the declared variables, by address. *)
Definition store_typing : Type := gmap nat go_type.

(** The variable at [l] is allocated and holds a value of type [t]. *)
Definition typed_at (h : gmap nat value) (l : nat) (t : go_type) : Prop :=
  from_option (λ v, has_type v t) False (h !! l).

Definition heap_typed (Σ : store_typing) (h : gmap nat value) : Prop :=
  map_Forall (typed_at h) Σ.

#[export] Instance typed_at_dec h l t : Decision (typed_at h l t).
Proof. unfold typed_at. destruct (h !! l); apply _. Defined.

#[export] Instance heap_typed_dec Σ h : Decision (heap_typed Σ h).
Proof. unfold heap_typed. apply _. Defined.

(** ** Computations that keep a property of the heap *)

Class Keeps {G A} (P : gmap nat value → Prop) (m : go G A) : Prop :=
  keeps : ∀ w, P (w_heap w) → P (w_heap (m w).2).

(** Every deferred call of a list keeps it. *)
Class AllKeep {G} (P : gmap nat value → Prop) (ds : list (go G unit)) : Prop :=
  all_keep : Forall (Keeps P) ds.

Section keeps.
Context {G : Type} (P : gmap nat value → Prop).
Implicit Types (w : world G) (v : value).

#[export] Instance ret_keeps {A} (a : A) : Keeps (G:=G) P (ret a).
Proof. by intros w. Qed.

#[export] Instance throw_keeps {A} v : Keeps (G:=G) (A:=A) P (throw v).
Proof. by intros w. Qed.

#[export] Instance gopanic_keeps {A} v : Keeps (G:=G) (A:=A) P (gopanic v).
Proof. by intros w. Qed.

#[export] Instance Goexit_keeps {A} : Keeps (G:=G) (A:=A) P Goexit.
Proof. by intros w. Qed.

#[export] Instance bind_keeps {A B} (m : go G A) (k : A → go G B) :
  Keeps P m → (∀ a, Keeps P (k a)) → Keeps P (bind m k).
Proof.
  intros Hm Hk w Hw. unfold bind. specialize (Hm w Hw).
  destruct (m w) as [[a|q|q] w']; [by apply Hk|done..].
Qed.

#[export] Instance fmap_comp_keeps {A B} (f : A → B) (m : go G A) :
  Keeps P m → Keeps P (fmap_comp f m).
Proof. intros Hm. unfold fmap_comp. apply _. Qed.

#[export] Instance try_catch_keeps {A} (m : go G A) (h : value → go G A) :
  Keeps P m → (∀ q, Keeps P (h q)) → Keeps P (try_catch m h).
Proof.
  intros Hm Hh w Hw. unfold try_catch. specialize (Hm w Hw).
  destruct (m w) as [[a|q|[q|]] w']; [done|by apply Hh|by apply Hh|done].
Qed.

#[export] Instance foldM_keeps {A B} (f : A → B → go G A) a l :
  (∀ a x, Keeps P (f a x)) → Keeps P (foldM f a l).
Proof.
  intros Hf. revert a. induction l as [|x l IH]; intros a; simpl; apply _.
Qed.

#[export] Instance recover_keeps : Keeps P (recover (G:=G)).
Proof. intros w Hw. unfold recover. by destruct (w_panic w), (w_depth w). Qed.

#[export] Instance load_keeps p : Keeps (G:=G) P (load p).
Proof. destruct p; [by intros w|apply _]. Qed.

#[export] Instance store_nil_keeps v : Keeps (G:=G) P (store None v).
Proof. apply _. Qed.

#[export] Instance read_global_keeps {A} (f : G → A) : Keeps P (read_global f).
Proof. by intros w. Qed.

#[export] Instance write_global_keeps (f : G → G) : Keeps P (write_global f).
Proof. by intros w. Qed.

#[export] Instance call_keeps {A} (f : go G A) : Keeps P f → Keeps P (call f).
Proof. intros Hf w Hw. rewrite run_call. apply (Hf (set_depth _ w) Hw). Qed.

(** *** Deferred calls *)

#[export] Instance all_keep_nil : AllKeep (G:=G) P [].
Proof. constructor. Qed.

#[export] Instance all_keep_cons (d : go G unit) ds :
  Keeps P d → AllKeep P ds → AllKeep P (d :: ds).
Proof. by constructor. Qed.

Lemma run_deferred_keeps {A} op od (d : go G unit) (st : exit_status A) w :
  Keeps P d → P (w_heap w) → P (w_heap (run_deferred op od d st w).2).
Proof.
  intros Hd Hw. unfold run_deferred.
  destruct st as [a| |p|p];
    match goal with
    | |- context [d ?w'] => pose proof (Hd w' Hw); by destruct (d w') as [[[]|?|?] ?]
    end.
Qed.

Lemma run_defers_keeps {A} op od (ds : list (go G unit)) (st : exit_status A) w :
  AllKeep P ds → P (w_heap w) → P (w_heap (run_defers op od ds st w).2).
Proof.
  intros Hds. revert st w.
  induction Hds as [|d ds Hd _ IH]; intros st w Hw; simpl; [done|].
  pose proof (run_deferred_keeps op od d st w Hd Hw) as H1.
  destruct (run_deferred op od d st w) as [st' w']. by apply IH.
Qed.

#[export] Instance go_func_keeps {A} ds (body : go G A) :
  AllKeep P ds → Keeps P body → Keeps P (go_func ds body).
Proof.
  intros Hds Hb w Hw. rewrite run_go_func. simpl.
  apply run_defers_keeps; [by apply Forall_rev|]. by apply (Hb (set_depth _ w)).
Qed.

(** *** The helpers *)

#[export] Instance panic_if_err_keeps (err : error) :
  Keeps (G:=G) P
    (if bool_decide (err ≠ None) then gopanic (any_of_error err) else ret tt).
Proof. destruct (bool_decide _); apply _. Qed.

#[export] Instance Must0_keeps err : Keeps (G:=G) P (Must0 err).
Proof. unfold Must0. apply _. Qed.

#[export] Instance Must_keeps {T} (v : T) err : Keeps (G:=G) P (Must v err).
Proof. unfold Must. destruct (bool_decide _); apply _. Qed.

#[export] Instance Must2_keeps {T1 T2} (v1 : T1) (v2 : T2) err :
  Keeps (G:=G) P (Must2 v1 v2 err).
Proof. unfold Must2. apply _. Qed.

#[export] Instance Must3_keeps {T1 T2 T3} (v1 : T1) (v2 : T2) (v3 : T3) err :
  Keeps (G:=G) P (Must3 v1 v2 v3 err).
Proof. unfold Must3. apply _. Qed.

#[export] Instance Must4_keeps {T1 T2 T3 T4} (v1 : T1) (v2 : T2) (v3 : T3)
    (v4 : T4) err : Keeps (G:=G) P (Must4 v1 v2 v3 v4 err).
Proof. unfold Must4. apply _. Qed.

#[export] Instance Must5_keeps {T1 T2 T3 T4 T5} (v1 : T1) (v2 : T2) (v3 : T3)
    (v4 : T4) (v5 : T5) err : Keeps (G:=G) P (Must5 v1 v2 v3 v4 v5 err).
Proof. unfold Must5. apply _. Qed.

#[export] Instance Must6_keeps {T1 T2 T3 T4 T5 T6} (v1 : T1) (v2 : T2) (v3 : T3)
    (v4 : T4) (v5 : T5) (v6 : T6) err :
  Keeps (G:=G) P (Must6 v1 v2 v3 v4 v5 v6 err).
Proof. unfold Must6. apply _. Qed.

#[export] Instance Must7_keeps {T1 T2 T3 T4 T5 T6 T7} (v1 : T1) (v2 : T2)
    (v3 : T3) (v4 : T4) (v5 : T5) (v6 : T6) (v7 : T7) err :
  Keeps (G:=G) P (Must7 v1 v2 v3 v4 v5 v6 v7 err).
Proof. unfold Must7. apply _. Qed.

End keeps.

(** ** Assignments and declarations in a typed heap *)

(** [l] may be assigned [v]: if it is a declared variable, [v] has its
    type. *)
Class Assignable (Σ : store_typing) (l : nat) (v : value) : Prop :=
  assignable : from_option (has_type v) True (Σ !! l).

#[export] Instance assignable_dec Σ l v : Decision (Assignable Σ l v).
Proof. unfold Assignable. destruct (Σ !! l); apply _. Defined.

Section typed.
Context {G : Type} (Σ : store_typing).
Implicit Types (w : world G) (v : value) (h : gmap nat value).

Lemma heap_typed_lookup h l t :
  heap_typed Σ h → Σ !! l = Some t → ∃ v, h !! l = Some v ∧ has_type v t.
Proof.
  intros Hh Hl. specialize (Hh l t Hl). unfold typed_at in Hh.
  destruct (h !! l) as [v|]; [by exists v|done].
Qed.

Lemma heap_typed_insert h l v :
  Assignable Σ l v → heap_typed Σ h → heap_typed Σ (<[l:=v]> h).
Proof.
  intros Hv Hh l' t Hl'. unfold typed_at.
  destruct (decide (l' = l)) as [->|Hne].
  - rewrite lookup_insert_eq. unfold Assignable in Hv. by rewrite Hl' in Hv.
  - rewrite lookup_insert_ne by done. by apply Hh.
Qed.

(** A fresh address is not a declared variable. *)
Lemma heap_typed_fresh h : heap_typed Σ h → Σ !! fresh (dom h) = None.
Proof.
  intros Hh. destruct (Σ !! fresh (dom h)) as [t|] eqn:E; [|done].
  destruct (heap_typed_lookup _ _ _ Hh E) as (v & Hv & _).
  by rewrite fresh_dom_lookup in Hv.
Qed.

#[export] Instance store_keeps l v :
  Assignable Σ l v → Keeps (G:=G) (heap_typed Σ) (store (Some l) v).
Proof. intros Hv w Hw. by apply heap_typed_insert. Qed.

#[export] Instance go_new_keeps v : Keeps (G:=G) (heap_typed Σ) (go_new v).
Proof.
  intros w Hw. apply heap_typed_insert; [|done].
  unfold Assignable. by rewrite (heap_typed_fresh _ Hw).
Qed.

#[export] Instance assignable_error l e :
  Σ !! l = Some TError → Assignable Σ l (VError e).
Proof. intros Hl. unfold Assignable. by rewrite Hl. Qed.

End typed.

(** ** The package *)

(** What the application owes: its observers keep the property. *)
Class HooksKeep `{Hooks} (P : gmap nat value → Prop) : Prop := {
  hook_keeps fn r :: Keeps P (hook_body fn r);
  ctx_hook_keeps fn c r :: Keeps P (ctx_hook_body fn c r)
}.

(** What the type [*error] of [err] gives: [err] is nil or the address of
    a variable of type [error]. *)
Class ErrPtr (Σ : store_typing) (err : ptr) : Prop :=
  err_ptr : ∀ l, err = Some l → Σ !! l = Some TError.

Section package.
Context `{Hooks} (Σ : store_typing) `{!HooksKeep (heap_typed Σ)}.
Implicit Types (w : rg_world) (r : value) (opts : list Option) (err : ptr).

#[export] Instance err_ptr_nil : ErrPtr Σ None.
Proof. by intros l. Qed.

#[export] Instance apply_option_keeps P o opt : Keeps P (apply_option o opt).
Proof. destruct opt; apply _. Qed.

#[export] Instance resolve_options_keeps P opts : Keeps P (resolve_options opts).
Proof. unfold resolve_options. apply _. Qed.

#[export] Instance notify_OnGuard_keeps r :
  Keeps (heap_typed Σ) (notify_OnGuard r).
Proof.
  unfold notify_OnGuard. apply bind_keeps; [apply _|]. intros [fn|]; apply _.
Qed.

#[export] Instance notify_OnGuardWithContext_keeps c r :
  Keeps (heap_typed Σ) (notify_OnGuardWithContext c r).
Proof.
  unfold notify_OnGuardWithContext. apply bind_keeps; [apply _|].
  intros [fn|]; apply _.
Qed.

#[export] Instance store_recovered_keeps err r :
  ErrPtr Σ err → Keeps (heap_typed Σ) (store_recovered err r).
Proof.
  intros He w Hw. rewrite store_recovered_eq.
  destruct err as [l|]; [|done].
  by apply (store_keeps Σ l _ (assignable_error Σ l _ (He l eq_refl))).
Qed.

#[export] Instance Guard_keeps err opts :
  ErrPtr Σ err → Keeps (heap_typed Σ) (Guard err opts).
Proof.
  intros He. unfold Guard. apply bind_keeps; [apply _|]. intros o.
  apply bind_keeps; [apply _|]. intros r. destruct (decide (r = VNil)); apply _.
Qed.

#[export] Instance guarded_keeps {A} err opts (body : rg A) :
  ErrPtr Σ err → Keeps (heap_typed Σ) body →
  Keeps (heap_typed Σ) (guarded err opts body).
Proof. intros He Hb. unfold guarded. apply _. Qed.

End package.

(** ** Theorems *)

Section theorems.
Context `{Hooks}.
Implicit Types (w : rg_world) (r : value) (opts : list Option) (err : ptr).


End theorems.

(** ** On concrete runs *)

Module TypingRuns.

(** An application whose observers log the payload in variable 4. *)
Definition log_hook_body (_ : unit) (r : value) : go (globals unit unit) unit :=
  store (Some 4) r.

Definition log_ctx_hook_body (_ : unit) (c : context) (r : value)
  : go (globals unit unit) unit :=
  store (Some 4) r.

#[export] Instance logging_hooks : Hooks := {|
  hook := unit;
  ctx_hook := unit;
  hook_body := log_hook_body;
  ctx_hook_body := log_ctx_hook_body
|}.

(** [var err error; var v int; var s string; var log any]. *)
Definition declared : store_typing :=
  {[ 1 := TError; 2 := TInt; 3 := TString; 4 := TAny ]}.

#[export] Instance logging_hooks_keep : HooksKeep (heap_typed declared).
Proof. split; intros; apply store_keeps; by vm_compute. Qed.

Definition typed_world : world (globals unit unit) :=
  World {[ 1 := VNil; 2 := VInt 0; 3 := VString ""; 4 := VNil ]}
    (Globals (Some tt) (Some tt)) None 0.

(** [Must0(errors.New("hello")); v = 7]. *)
Definition typed_body : go (globals unit unit) unit :=
  call (Must0 (Some (errors_New "hello"))) ;; store (Some 2) (VInt 7).


End TypingRuns.
