(* ===== verification/Refinement.v ===== *)
(** * Refinement: the barrier as an exception handler and as a result value

    What a function that defers [Guard] promises can be said without
    [defer] and [recover], in two steps.

    - [protect] is the function as a [try]/[catch]: run the body as a
      call, and on a panic run [panic_handler] (the observers and the
      assignment through [err]) and return normally.  The end of the
      goroutine is not caught; a panic raised while the goroutine was
      ending is.  The function literal that defers [Guard] refines it on
      every state that satisfies the invariant of the panic state.
    - [attempt] is the body as a computation that returns a tagged union,
      the result or the converted payload, and [deliver] is what the
      function does with it.  With no observer set the function literal
      is [attempt] followed by [deliver].

    [attempt] is the inverse of the [Must] helpers: [Must] turns a value
    and an error into a result or a panic, [attempt] turns them back.

    [GuardWith] is [Guard] with the two observers handed to it as a
    registry instead of read from the package-level variables; the two
    agree when the observers do not reassign the variables. *)

From S2P Require Import Prelude Effects GoValue Runtime Hooks Guard Must Guarded Soundness.

Local Open Scope go_scope.

Section spec.
Context `{Hooks}.

(** What [Guard] does once it has recovered the payload [r]
    (guard.go lines 42-52). *)
Definition panic_handler (err : ptr) (c : context) (r : value) : rg unit :=
  notify_OnGuard r ;;
  notify_OnGuardWithContext c r ;;
  store_recovered err r.

(** Run [m] in the frame of a deferred call whose panic has been
    recovered, and give the caller its own panic state back. *)
Definition as_deferred {A} (m : rg A) : rg A :=
  λ w, let '(o, w') := m (restore_frame None 0 w) in
       (o, restore_frame (w_panic w) (w_depth w) w').

(** The guarded function as a [try]/[catch]. *)
Definition protect {A} (err : ptr) (opts : list Option) (body : rg A)
  : rg (option A) :=
  try_catch (fmap_comp Some (call body))
    (λ r, as_deferred (panic_handler err (context_of opts) r) ;; ret None).

(** The body as a computation that returns its result or the error its
    panic converts to. *)
Definition attempt {A} (body : rg A) : rg (A + goerror) :=
  try_catch (fmap_comp inl (call body)) (λ r, ret (inr (error_of_panic r))).

(** What the guarded function does with the result of the attempt. *)
Definition deliver {A} (err : ptr) (x : A + goerror) : rg (option A) :=
  match x with
  | inl a => ret (Some a)
  | inr e => store err (VError e) ;; ret None
  end.

(** The observers as an explicit registry: the barrier with the two
    function values handed to it instead of read from the package-level
    variables. *)
Definition notify_with (reg : rg_globals) (c : context) (r : value) : rg unit :=
  match OnGuard reg with
  | Some fn => call (hook_body fn r)
  | None => ret tt
  end ;;
  match OnGuardWithContext reg with
  | Some fn => call (ctx_hook_body fn c r)
  | None => ret tt
  end.

Definition GuardWith (reg : rg_globals) (err : ptr) (opts : list Option)
  : rg unit :=
  _opts <- resolve_options opts ;;
  r <- recover ;;
  if decide (r = VNil) then ret tt
  else notify_with reg (resolve_context _opts) r ;; store_recovered err r.

(** A value and an error as a result. *)
Definition result_of {A} (v : A) (err : error) : A + goerror :=
  match err with None => inl v | Some e => inr e end.

(** How the function ends when its handler ended with [o]: without a
    result if the handler returned, as the handler did otherwise. *)
Definition handled {A} (o : outcome value unit) : outcome value (option A) :=
  match o with
  | Normal _ => Normal None
  | Panicked q => Panicked q
  | Exited x => Exited x
  end.

End spec.

Section laws.
Context `{Hooks}.
Implicit Types (w : rg_world) (r q : value) (opts : list Option) (l : nat).

#[export] Instance panic_handler_frame_preserving err c r :
  FramePreserving (panic_handler err c r).
Proof. unfold panic_handler. apply _. Qed.

#[export] Instance panic_handler_returns `{!HooksReturn} l c r :
  Returns (panic_handler (Some l) c r).
Proof. unfold panic_handler. apply _. Qed.

#[export] Instance as_deferred_returns {A} (m : rg A) :
  Returns m → Returns (as_deferred m).
Proof.
  intros Hm w. unfold as_deferred. specialize (Hm (restore_frame None 0 w)).
  by destruct (m _).
Qed.

#[export] Instance as_deferred_frame_preserving {A} (m : rg A) :
  FramePreserving (as_deferred m).
Proof. intros w. unfold as_deferred. by destruct (m _). Qed.

#[export] Instance as_deferred_proper {A} :
  Proper ((≡) ==> (≡)) (@as_deferred _ A).
Proof. intros m1 m2 Hm w. unfold as_deferred. by rewrite Hm. Qed.

(** Code that ignores the panic state runs in any frame alike. *)
Lemma as_deferred_frame_indep {A} (m : rg A) `{!FrameIndep m} : as_deferred m ≡ m.
Proof.
  intros w. unfold as_deferred. rewrite (frame_indep (m:=m)). simpl.
  destruct (frame_indep_preserves m w) as [Hp Hd].
  rewrite restore_frame_twice, <-Hp, <-Hd, restore_frame_id.
  by destruct (m w).
Qed.

(** [Guard] is the handler when it recovers, up to the frame. *)
Lemma Guard_is_panic_handler err opts w1 r :
  Forall is_Some opts → r ≠ VNil →
  Guard err opts (restore_frame (Some r) 0 w1) =
  panic_handler err (context_of opts) r (restore_frame None 0 w1).
Proof.
  intros Hopts Hr. rewrite (Guard_recovering _ _ _ r); try done.
  by intros [=].
Qed.

(** The body returned. *)
Lemma run_protect_normal {A} (body : rg A) err opts w a w1 :
  body (set_depth (S (w_depth w)) w) = (Normal a, w1) →
  protect err opts body w =
  (Normal (Some a), restore_frame (w_panic w) (w_depth w) w1).
Proof.
  intros Hb. unfold protect, try_catch, fmap_comp, bind.
  by rewrite run_call, Hb.
Qed.

(** The body panicked, or ended the goroutine while a panic unwinds:
    the handler runs, and an exit goes on. *)
Lemma run_protect_panic {A} (body : rg A) err opts w r w1 :
  let r' := panic_handler err (context_of opts) r (restore_frame None 0 w1) in
  (body (set_depth (S (w_depth w)) w) = (Panicked r, w1) →
   protect err opts body w =
   (handled r'.1, restore_frame (w_panic w) (w_depth w) r'.2)) ∧
  (body (set_depth (S (w_depth w)) w) = (Exited (Some r), w1) →
   protect err opts body w =
   (exiting r'.1, restore_frame (w_panic w) (w_depth w) r'.2)).
Proof.
  split; intros Hb; unfold protect, try_catch, fmap_comp, bind;
    rewrite run_call, Hb; simpl; unfold as_deferred; simpl;
    by destruct (panic_handler _ _ _ _) as [[[]|q|q] w2].
Qed.

(** The function literal in the same cases, in the same terms. *)
Lemma run_guarded_panic_handler {A} (body : rg A) err opts w r w1 :
  Forall is_Some opts → r ≠ VNil →
  let r' := panic_handler err (context_of opts) r (restore_frame None 0 w1) in
  (body (set_depth (S (w_depth w)) w) = (Panicked r, w1) →
   guarded err opts body w =
   (handled r'.1, restore_frame (w_panic w) (w_depth w) r'.2)) ∧
  (body (set_depth (S (w_depth w)) w) = (Exited (Some r), w1) →
   guarded err opts body w =
   (exiting r'.1, restore_frame (w_panic w) (w_depth w) r'.2)).
Proof.
  intros Hopts Hr.
  pose proof (frame_preserving_panic
    (panic_handler err (context_of opts) r) (restore_frame None 0 w1)) as Hp.
  split; intros Hb; unfold guarded; rewrite run_go_func, Hb; simpl;
    rewrite Guard_is_panic_handler by done;
    destruct (panic_handler _ _ _ _) as [[[]|q|q] w2]; simpl in *; try done;
    by rewrite Hp.
Qed.

(** [attempt] on a body that returned, on one that panicked and on one
    that ended the goroutine. *)
Lemma run_attempt {A} (body : rg A) w :
  attempt body w =
  (match (body (set_depth (S (w_depth w)) w)).1 with
   | Normal a => Normal (inl a)
   | Panicked r => Normal (inr (error_of_panic r))
   | Exited _ => Exited None
   end,
   restore_frame (w_panic w) (w_depth w) (body (set_depth (S (w_depth w)) w)).2).
Proof.
  unfold attempt, try_catch, fmap_comp, bind. rewrite run_call.
  by destruct (body _) as [[a|r|[r|]] w1].
Qed.

#[export] Instance attempt_no_panic {A} (body : rg A) : NoPanic (attempt body).
Proof. intros w. rewrite run_attempt. simpl. by destruct (body _).1. Qed.

#[export] Instance attempt_proper {A} : Proper ((≡) ==> (≡)) (@attempt _ A).
Proof. intros b1 b2 Hb w. by rewrite !run_attempt, Hb. Qed.

(** With observers that return, the specification never panics. *)
#[export] Instance protect_no_panic `{!HooksReturn} {A} l opts (body : rg A) :
  NoPanic (protect (Some l) opts body).
Proof. unfold protect. apply _. Qed.

(** [attempt] of a helper, whatever its arity: the helper's two runs. *)
Lemma attempt_of_runs {A} (m : rg A) (v : A) (err : error) :
  (∀ w, m w = (match err with
               | None => Normal v
               | Some e => Panicked (VError e)
               end, w)) →
  attempt m ≡ ret (result_of v err).
Proof.
  intros Hm w. rewrite run_attempt, Hm. go_rewrite. by destruct err.
Qed.

(** The options loop and [recover] leave the package-level variables
    alone. *)
Lemma foldM_apply_option_state o opts w : (foldM apply_option o opts w).2 = w.
Proof.
  revert o. induction opts as [|[f|] opts IH]; intros o; simpl; [done| |done].
  unfold bind. simpl. apply IH.
Qed.

Lemma resolve_options_state opts w : (resolve_options opts w).2 = w.
Proof. apply foldM_apply_option_state. Qed.

Lemma recover_globals w : w_globals (recover w).2 = w_globals w.
Proof. unfold recover. by destruct (w_panic w), (w_depth w). Qed.

(** The first observer with the function value read beforehand. *)
Lemma notify_OnGuard_registry r w :
  notify_OnGuard r w =
  match OnGuard (w_globals w) with
  | Some fn => call (hook_body fn r) w
  | None => (Normal tt, w)
  end.
Proof.
  destruct (OnGuard (w_globals w)) as [fn|] eqn:E;
    [by apply notify_OnGuard_set|by apply notify_OnGuard_unset].
Qed.

End laws.

(** ** Theorems *)

Section theorems.
Context `{Hooks}.
Implicit Types (w : rg_world) (r q : value) (opts : list Option) (l : nat).

(** C26: the function literal that defers [Guard] refines the
    [try]/[catch] specification: on every state that satisfies the
    invariant, for every sound body (one that ends the goroutine
    included), whatever the observers do and whatever [err] is, the two
    have the same outcome and the same final state. *)
Theorem guarded_refines_protect {A} (body : rg A) err opts w :
  Sound body → Forall is_Some opts → wf_world w →
  guarded err opts body w = protect err opts body w.
Proof.
  intros Hb Hopts Hw.
  destruct (body (set_depth (S (w_depth w)) w)) as [[a|r|[r|]] w1] eqn:E.
  - by rewrite (run_guarded_normal _ _ _ _ a w1), (run_protect_normal _ _ _ _ a w1).
  - assert (r ≠ VNil) as Hr by by eapply (sound_payload body _ r w1); [|exact E].
    by rewrite (proj1 (run_guarded_panic_handler body err opts w r w1 Hopts Hr)),
      (proj1 (run_protect_panic body err opts w r w1)).
  - assert (r ≠ VNil) as Hr by by eapply (sound_outcome body _ _ w1 r); [|exact E|].
    by rewrite (proj2 (run_guarded_panic_handler body err opts w r w1 Hopts Hr)),
      (proj2 (run_protect_panic body err opts w r w1)).
  - rewrite (run_guarded_exited _ _ _ _ w1) by done.
    unfold protect, try_catch, fmap_comp, bind. by rewrite run_call, E.
Qed.

(** C27: with no observer set, the function literal is the attempt of its
    body followed by the delivery of the result: the result is returned, or
    the error is stored behind [err] and the function returns without
    one; when the body ends the goroutine neither returns.  The one case
    a result value cannot express is excluded: a body that ends the
    goroutine while a panic unwinds, where [Guard] still stores the
    error. *)
Theorem guarded_is_attempt_then_deliver {A} (body : rg A) l opts w :
  Sound body → Forall is_Some opts → wf_world w →
  unobserved (body (set_depth (S (w_depth w)) w)).2 →
  (∀ r, (body (set_depth (S (w_depth w)) w)).1 ≠ Exited (Some r)) →
  guarded (Some l) opts body w = (x <- attempt body ;; deliver (Some l) x) w.
Proof.
  intros Hb Hopts Hw Hu Hx. unfold bind. rewrite run_attempt.
  destruct (body (set_depth (S (w_depth w)) w)) as [[a|r|[r|]] w1] eqn:E;
    simpl in *.
  - by rewrite (run_guarded_normal _ _ _ _ a w1).
  - rewrite (run_guarded_panic _ _ _ _ r w1); try done.
    by eapply (sound_payload body _ r w1); [|exact E].
  - by destruct (Hx r).
  - by rewrite (run_guarded_exited _ _ _ _ w1).
Qed.

(** [attempt] undoes the helpers.  A value and an error given to a
    helper and attempted come back as the result they stand for: the
    values when the error is nil, the error itself otherwise, with the
    state unchanged. *)
Lemma attempt_Must_roundtrip {T1 T2 T3 T4 T5 T6 T7} (v1 : T1) (v2 : T2)
    (v3 : T3) (v4 : T4) (v5 : T5) (v6 : T6) (v7 : T7) (err : error) :
  attempt (Must0 err) ≡ ret (result_of tt err) ∧
  attempt (Must v1 err) ≡ ret (result_of v1 err) ∧
  attempt (Must2 v1 v2 err) ≡ ret (result_of (v1, v2) err) ∧
  attempt (Must3 v1 v2 v3 err) ≡ ret (result_of (v1, v2, v3) err) ∧
  attempt (Must4 v1 v2 v3 v4 err) ≡ ret (result_of (v1, v2, v3, v4) err) ∧
  attempt (Must5 v1 v2 v3 v4 v5 err) ≡ ret (result_of (v1, v2, v3, v4, v5) err) ∧
  attempt (Must6 v1 v2 v3 v4 v5 v6 err) ≡
    ret (result_of (v1, v2, v3, v4, v5, v6) err) ∧
  attempt (Must7 v1 v2 v3 v4 v5 v6 v7 err) ≡
    ret (result_of (v1, v2, v3, v4, v5, v6, v7) err).
Proof.
  split_and!; apply attempt_of_runs; intros w; destruct err; by must_unfold.
Qed.

(** C35: the package-level variables can be replaced by a registry handed
    to the barrier.  When no [OnGuard] observer assigns
    [OnGuardWithContext], [Guard] is [GuardWith] on the observers the
    variables hold when it is entered: same outcome and same final state,
    on every state and for all options, a nil one included. *)
Theorem Guard_refines_registry err opts w :
  (∀ fn r w', OnGuardWithContext (w_globals (hook_body fn r w').2)
              = OnGuardWithContext (w_globals w')) →
  Guard err opts w = GuardWith (w_globals w) err opts w.
Proof.
  intros Hst. unfold Guard, GuardWith.
  pose proof (resolve_options_state opts w) as Hw.
  destruct (resolve_options opts w) as [[o|q|q] w0] eqn:E; simpl in Hw; subst w0;
    [|by rewrite !(run_bind_panicked _ _ _ _ _ E)
     |by rewrite !(run_bind_exited _ _ _ _ _ E)].
  rewrite !(run_bind_normal _ _ _ _ _ E).
  pose proof (recover_globals w) as Hg.
  destruct (recover w) as [[r|q|q] w'] eqn:Er; simpl in Hg;
    [|by rewrite !(run_bind_panicked _ _ _ _ _ Er)
     |by rewrite !(run_bind_exited _ _ _ _ _ Er)].
  rewrite !(run_bind_normal _ _ _ _ _ Er).
  destruct (decide (r = VNil)); [done|]. rewrite <-Hg.
  unfold notify_with, bind. rewrite notify_OnGuard_registry.
  destruct (OnGuard (w_globals w')) as [fn|]; [|done].
  rewrite run_call. specialize (Hst fn r (set_depth (S (w_depth w')) w')).
  destruct (hook_body fn r _) as [[[]|q|q] w1]; [|done..]. simpl in *.
  unfold notify_OnGuardWithContext, bind, read_global. simpl. by rewrite Hst.
Qed.

End theorems.

(** ** On concrete runs *)

Module RefinementRuns.
Import Sample SoundRuns.

Lemma guarded_refines_protect_witness :
  guarded (H:=sample_hooks) (Some 1) [WithContext (Some ctx_Background)]
    (Must0 (Some (errors_New "hello")))
    (World {[ 1 := VNil ]} (Globals (Some (Record_ 2)) (Some (CtxPanic (VInt 3))))
       None 0) =
  protect (Some 1) [WithContext (Some ctx_Background)]
    (Must0 (Some (errors_New "hello")))
    (World {[ 1 := VNil ]} (Globals (Some (Record_ 2)) (Some (CtxPanic (VInt 3))))
       None 0).
Proof.
  apply (guarded_refines_protect (H:=sample_hooks)); [apply _| |done].
  by repeat constructor.
Defined.

Lemma guarded_is_attempt_then_deliver_witness :
  guarded (H:=sample_hooks) (Some 1) [] (Must 3%Z (Some (errors_New "hello")))
    (World {[ 1 := VNil ]} (Globals None None) None 0) =
  (Normal None,
   World {[ 1 := VError (errors_New "hello") ]} (Globals None None) None 0).
Proof.
  etrans; [apply (guarded_is_attempt_then_deliver (H:=sample_hooks));
           [apply _|done|done|done|done]|].
  vm_compute. reflexivity.
Defined.

End RefinementRuns.

Module RegistryRuns.
Import Recording.

Lemma Guard_refines_registry_witness :
  Guard (Some 1) [WithContext (Some (ctx_User 7))]
    (World {[ 1 := VNil ]} (Globals (Some 2) (Some (3, 4))) (Some (VInt 42)) 0) =
  GuardWith (Globals (Some 2) (Some (3, 4))) (Some 1)
    [WithContext (Some (ctx_User 7))]
    (World {[ 1 := VNil ]} (Globals (Some 2) (Some (3, 4))) (Some (VInt 42)) 0).
Proof. by apply (Guard_refines_registry (H:=recording_hooks)). Defined.

End RegistryRuns.
