(* ===== verification/Machine.v ===== *)
(** * Machine: [Guard] statement by statement

    [Guard.v] gives [Guard] as one function of the state.  This file gives
    it as a transition system whose control points are the statements of
    guard.go lines 30-53 and whose transitions emit the events an outside
    observer can see: an option applied, the call of [recover], the call of
    each observer, the assignment through [err], a panic leaving [Guard],
    the end of the goroutine in an observer.

    - [step] is the transition relation, one rule per statement and
      outcome; [guard_step] is the same as a function and [run] iterates
      it with fuel.
    - [resume] is what remains to be run from a control point, in the
      terms of [Guard.v]; every step preserves it, which is how the
      machine and the function are shown to agree.
    - [point_fuel] bounds the steps left from a control point: a run takes
      at most [length opts + 7] steps, one per option and one for each of
      the loop exit, [recover], the read and the call of each observer
      and the assignment.

    Properties of traces (what happens at most once, and in which order)
    are proved by induction on runs. *)

From S2P Require Import Prelude Effects GoValue Runtime Hooks Guard.

Local Open Scope go_scope.

Section machine.
Context `{Hooks}.

(** Where the control is. *)
Inductive point : Type :=
  | AtLoop (_opts : options) (rest : list Option)  (* lines 31-34, options left *)
  | AtRecover (c : context)                        (* line 41 *)
  | AtOnGuard (c : context) (r : value)            (* line 42, fn := OnGuard *)
  | AtCallOnGuard (c : context) (r : value) (fn : hook)          (* line 43, fn(r) *)
  | AtOnGuardWithContext (c : context) (r : value) (* line 45, fn := OnGuardWithContext *)
  | AtCallOnGuardWithContext (c : context) (r : value) (fn : ctx_hook) (* line 46, fn(ctx, r) *)
  | AtStore (r : value)                            (* line 48 *)
  | Returned                                       (* line 54 *)
  | PanickedOut (q : value)                        (* a panic is leaving Guard *)
  | ExitedOut (x : option value).                  (* the goroutine is ending *)

(** What a transition shows. *)
Inductive event : Type :=
  | EvOption                                       (* opt(&_opts) *)
  | EvRecover (r : value)                          (* recover() returned r *)
  | EvOnGuard (fn : hook) (r : value)              (* fn(r) *)
  | EvOnGuardWithContext (fn : ctx_hook) (c : context) (r : value) (* fn(ctx, r) *)
  | EvStore (l : nat) (e : goerror)                (* *err = e *)
  | EvPanic (q : value)                            (* panic(q) leaves Guard *)
  | EvExit (x : option value).                     (* the goroutine ends *)

Definition config : Type := point * rg_world.

(** The entry of [Guard(err, opts...)]: [_opts := options{}]. *)
Definition entry (opts : list Option) : point := AtLoop {| ctx := None |} opts.

(** How [Guard] ended, at a final control point. *)
Definition final (p : point) : option (outcome value unit) :=
  match p with
  | Returned => Some (Normal tt)
  | PanickedOut q => Some (Panicked q)
  | ExitedOut x => Some (Exited x)
  | _ => None
  end.

(** The steps left from a control point, at most. *)
Definition point_fuel (p : point) : nat :=
  match p with
  | AtLoop _ rest => length rest + 7
  | AtRecover _ => 6
  | AtOnGuard _ _ => 5
  | AtCallOnGuard _ _ _ => 4
  | AtOnGuardWithContext _ _ => 3
  | AtCallOnGuardWithContext _ _ _ => 2
  | AtStore _ => 1
  | Returned | PanickedOut _ | ExitedOut _ => 0
  end.

Section step.
Variable err : ptr.

(** The transitions. *)
Inductive step : config → list event → config → Prop :=
  | step_loop_exit o w :
      step (AtLoop o [], w) [] (AtRecover (resolve_context o), w)
  | step_loop_apply o f rest w :
      step (AtLoop o (Some f :: rest), w) [EvOption] (AtLoop (f o) rest, w)
  | step_loop_nil o rest w :
      step (AtLoop o (None :: rest), w) [EvPanic (VError nil_dereference)]
        (PanickedOut (VError nil_dereference), w)
  | step_recover_nil c w w' :
      recover w = (Normal VNil, w') →
      step (AtRecover c, w) [EvRecover VNil] (Returned, w')
  | step_recover c r w w' :
      recover w = (Normal r, w') → r ≠ VNil →
      step (AtRecover c, w) [EvRecover r] (AtOnGuard c r, w')
  | step_OnGuard_unset c r w :
      OnGuard (w_globals w) = None →
      step (AtOnGuard c r, w) [] (AtOnGuardWithContext c r, w)
  | step_OnGuard_read c r fn w :
      OnGuard (w_globals w) = Some fn →
      step (AtOnGuard c r, w) [] (AtCallOnGuard c r fn, w)
  | step_OnGuard_returns c r fn w w' :
      call (hook_body fn r) w = (Normal tt, w') →
      step (AtCallOnGuard c r fn, w) [EvOnGuard fn r]
        (AtOnGuardWithContext c r, w')
  | step_OnGuard_panics c r fn q w w' :
      call (hook_body fn r) w = (Panicked q, w') →
      step (AtCallOnGuard c r fn, w) [EvOnGuard fn r; EvPanic q]
        (PanickedOut q, w')
  | step_OnGuard_exits c r fn x w w' :
      call (hook_body fn r) w = (Exited x, w') →
      step (AtCallOnGuard c r fn, w) [EvOnGuard fn r; EvExit x]
        (ExitedOut x, w')
  | step_OnGuardWithContext_unset c r w :
      OnGuardWithContext (w_globals w) = None →
      step (AtOnGuardWithContext c r, w) [] (AtStore r, w)
  | step_OnGuardWithContext_read c r fn w :
      OnGuardWithContext (w_globals w) = Some fn →
      step (AtOnGuardWithContext c r, w) [] (AtCallOnGuardWithContext c r fn, w)
  | step_OnGuardWithContext_returns c r fn w w' :
      call (ctx_hook_body fn c r) w = (Normal tt, w') →
      step (AtCallOnGuardWithContext c r fn, w) [EvOnGuardWithContext fn c r]
        (AtStore r, w')
  | step_OnGuardWithContext_panics c r fn q w w' :
      call (ctx_hook_body fn c r) w = (Panicked q, w') →
      step (AtCallOnGuardWithContext c r fn, w)
        [EvOnGuardWithContext fn c r; EvPanic q] (PanickedOut q, w')
  | step_OnGuardWithContext_exits c r fn x w w' :
      call (ctx_hook_body fn c r) w = (Exited x, w') →
      step (AtCallOnGuardWithContext c r fn, w)
        [EvOnGuardWithContext fn c r; EvExit x] (ExitedOut x, w')
  | step_store l r w :
      err = Some l →
      step (AtStore r, w) [EvStore l (error_of_panic r)]
        (Returned, set_heap (insert l (VError (error_of_panic r))) w)
  | step_store_nil r w :
      err = None →
      step (AtStore r, w) [EvPanic (VError nil_dereference)]
        (PanickedOut (VError nil_dereference), w).

(** Runs: zero or more transitions, with the events in order. *)
Inductive steps : config → list event → config → Prop :=
  | steps_refl c : steps c [] c
  | steps_step c1 evs c2 tr c3 :
      step c1 evs c2 → steps c2 tr c3 → steps c1 (evs ++ tr) c3.

(** What a call of an observer leads to. *)
Definition after_call (ev : event) (next : point)
    (r : outcome value unit * rg_world) : list event * config :=
  match r with
  | (Normal _, w') => ([ev], (next, w'))
  | (Panicked q, w') => ([ev; EvPanic q], (PanickedOut q, w'))
  | (Exited x, w') => ([ev; EvExit x], (ExitedOut x, w'))
  end.

(** One transition, as a function; [None] at a final control point. *)
Definition guard_step (cf : config) : option (list event * config) :=
  let w := cf.2 in
  match cf.1 with
  | AtLoop o [] => Some ([], (AtRecover (resolve_context o), w))
  | AtLoop o (Some f :: rest) => Some ([EvOption], (AtLoop (f o) rest, w))
  | AtLoop o (None :: rest) =>
      Some ([EvPanic (VError nil_dereference)],
            (PanickedOut (VError nil_dereference), w))
  | AtRecover c =>
      match recover w with
      | (Normal r, w') =>
          Some ([EvRecover r],
                (if decide (r = VNil) then Returned else AtOnGuard c r, w'))
      | (Panicked q, w') => Some ([EvPanic q], (PanickedOut q, w'))
      | (Exited x, w') => Some ([EvExit x], (ExitedOut x, w'))
      end
  | AtOnGuard c r =>
      match OnGuard (w_globals w) with
      | Some fn => Some ([], (AtCallOnGuard c r fn, w))
      | None => Some ([], (AtOnGuardWithContext c r, w))
      end
  | AtCallOnGuard c r fn =>
      Some (after_call (EvOnGuard fn r) (AtOnGuardWithContext c r)
              (call (hook_body fn r) w))
  | AtOnGuardWithContext c r =>
      match OnGuardWithContext (w_globals w) with
      | Some fn => Some ([], (AtCallOnGuardWithContext c r fn, w))
      | None => Some ([], (AtStore r, w))
      end
  | AtCallOnGuardWithContext c r fn =>
      Some (after_call (EvOnGuardWithContext fn c r) (AtStore r)
              (call (ctx_hook_body fn c r) w))
  | AtStore r =>
      match err with
      | Some l =>
          Some ([EvStore l (error_of_panic r)],
                (Returned, set_heap (insert l (VError (error_of_panic r))) w))
      | None =>
          Some ([EvPanic (VError nil_dereference)],
                (PanickedOut (VError nil_dereference), w))
      end
  | Returned | PanickedOut _ | ExitedOut _ => None
  end.

(** Transitions until a final control point or the end of the fuel. *)
Fixpoint run (fuel : nat) (cf : config) : list event * config :=
  match fuel with
  | 0 => ([], cf)
  | S fuel' =>
      match guard_step cf with
      | None => ([], cf)
      | Some (evs, cf') =>
          let r := run fuel' cf' in (evs ++ r.1, r.2)
      end
  end.

(** What remains to be run from a control point. *)
Definition resume (p : point) : rg unit :=
  match p with
  | AtLoop o rest =>
      _opts <- foldM apply_option o rest ;;
      r <- recover ;;
      if decide (r = VNil) then ret tt
      else
        notify_OnGuard r ;;
        notify_OnGuardWithContext (resolve_context _opts) r ;;
        store_recovered err r
  | AtRecover c =>
      r <- recover ;;
      if decide (r = VNil) then ret tt
      else
        notify_OnGuard r ;;
        notify_OnGuardWithContext c r ;;
        store_recovered err r
  | AtOnGuard c r =>
      notify_OnGuard r ;;
      notify_OnGuardWithContext c r ;;
      store_recovered err r
  | AtCallOnGuard c r fn =>
      call (hook_body fn r) ;;
      notify_OnGuardWithContext c r ;;
      store_recovered err r
  | AtOnGuardWithContext c r =>
      notify_OnGuardWithContext c r ;;
      store_recovered err r
  | AtCallOnGuardWithContext c r fn =>
      call (ctx_hook_body fn c r) ;;
      store_recovered err r
  | AtStore r => store_recovered err r
  | Returned => ret tt
  | PanickedOut q => throw q
  | ExitedOut x => λ w, (Exited x, w)
  end.

End step.

(** ** Reading traces *)

(** The place of an event in the order of [Guard]'s statements.  The
    assignment, a panic and the end of the goroutine share the last
    place: at most one of them happens, and nothing after it. *)
Definition event_rank (e : event) : nat :=
  match e with
  | EvOption => 0
  | EvRecover _ => 1
  | EvOnGuard _ _ => 2
  | EvOnGuardWithContext _ _ _ => 3
  | EvStore _ _ | EvPanic _ | EvExit _ => 5
  end.

Definition point_rank (p : point) : nat :=
  match p with
  | AtLoop _ _ => 0
  | AtRecover _ => 1
  | AtOnGuard _ _ | AtCallOnGuard _ _ _ => 2
  | AtOnGuardWithContext _ _ | AtCallOnGuardWithContext _ _ _ => 3
  | AtStore _ => 4
  | Returned | PanickedOut _ | ExitedOut _ => 6
  end.

(** [e1] may come before [e2] in a trace: its statement comes first, or
    both are options of the loop. *)
Definition before (e1 e2 : event) : Prop :=
  event_rank e1 < event_rank e2 ∨ (event_rank e1 = 0 ∧ event_rank e2 = 0).

Definition is_store (e : event) : Prop :=
  match e with EvStore _ _ => True | _ => False end.

Definition is_observer_call (e : event) : Prop :=
  match e with EvOnGuard _ _ | EvOnGuardWithContext _ _ _ => True | _ => False end.

Definition is_option (e : event) : Prop :=
  match e with EvOption => True | _ => False end.

(** One transition, whatever it shows. *)
Definition succ (err : ptr) (cf cf' : config) : Prop :=
  ∃ evs, step err cf evs cf'.

(** The events, the options and the calls of observers left from a
    control point, at most. *)
Definition events_left (p : point) : nat :=
  match p with
  | AtLoop _ rest => length rest + 4
  | AtRecover _ => 4
  | AtOnGuard _ _ | AtCallOnGuard _ _ _ => 3
  | AtOnGuardWithContext _ _ | AtCallOnGuardWithContext _ _ _ => 2
  | AtStore _ => 1
  | Returned | PanickedOut _ | ExitedOut _ => 0
  end.

Definition options_left (p : point) : nat :=
  match p with AtLoop _ rest => length rest | _ => 0 end.

Definition observers_left (p : point) : nat :=
  match p with
  | AtLoop _ _ | AtRecover _ | AtOnGuard _ _ | AtCallOnGuard _ _ _ => 2
  | AtOnGuardWithContext _ _ | AtCallOnGuardWithContext _ _ _ => 1
  | AtStore _ | Returned | PanickedOut _ | ExitedOut _ => 0
  end.

(** The control is between [recover] and the end of [Guard]. *)
Definition handling (p : point) : Prop :=
  match p with
  | AtOnGuard _ _ | AtCallOnGuard _ _ _ | AtOnGuardWithContext _ _
  | AtCallOnGuardWithContext _ _ _ | AtStore _ => True
  | _ => False
  end.

#[export] Instance before_dec e1 e2 : Decision (before e1 e2).
Proof. unfold before. apply _. Defined.
#[export] Instance is_store_dec e : Decision (is_store e).
Proof. destruct e; apply _. Defined.
#[export] Instance is_observer_call_dec e : Decision (is_observer_call e).
Proof. destruct e; apply _. Defined.
#[export] Instance is_option_dec e : Decision (is_option e).
Proof. destruct e; apply _. Defined.
#[export] Instance handling_dec p : Decision (handling p).
Proof. destruct p; apply _. Defined.

(** The panic [r] that was unwinding the function in [w0] has been
    recovered in [w]. *)
Definition recovered (w0 w : rg_world) (r : value) : Prop :=
  w_panic w0 = Some r ∧ w_depth w0 = 0 ∧ r ≠ VNil ∧
  w_panic w = None ∧ w_depth w = 0.

(** What holds at every control point of a run of [Guard(err, opts...)]
    entered in [w0]: up to [recover] the state is untouched and the
    options applied so far lead to the final ones; after it the context is
    the resolved one and the payload the recovered one. *)
Definition run_inv (opts : list Option) (w0 : rg_world) (cf : config) : Prop :=
  match cf.1 with
  | AtLoop o rest =>
      cf.2 = w0 ∧
      foldl (λ o opt, from_option (λ f, f o) o opt) o rest = final_options opts
  | AtRecover c => cf.2 = w0 ∧ c = context_of opts
  | AtOnGuard c r | AtCallOnGuard c r _ | AtOnGuardWithContext c r
  | AtCallOnGuardWithContext c r _ =>
      c = context_of opts ∧ recovered w0 cf.2 r
  | AtStore r => recovered w0 cf.2 r
  | Returned | PanickedOut _ | ExitedOut _ => True
  end.

(** What an event of such a run carries. *)
Definition event_inv (err : ptr) (opts : list Option) (w0 : rg_world)
    (e : event) : Prop :=
  match e with
  | EvOption | EvPanic _ | EvExit _ => True
  | EvRecover r => (recover w0).1 = Normal r
  | EvOnGuard _ r => w_panic w0 = Some r
  | EvOnGuardWithContext _ c r => c = context_of opts ∧ w_panic w0 = Some r
  | EvStore l e =>
      err = Some l ∧ ∃ r, w_panic w0 = Some r ∧ e = error_of_panic r
  end.

End machine.

#[export] Hint Constructors step steps : go_spec.

(** ** Laws *)

Section laws.
Context `{Hooks}.
Implicit Types (w : rg_world) (p : point) (cf : config) (tr evs : list event).
Implicit Types (err : ptr) (opts : list Option).

(** *** The function and the relation *)

Lemma guard_step_step err cf evs cf' :
  guard_step err cf = Some (evs, cf') → step err cf evs cf'.
Proof.
  destruct cf as [p w]. unfold guard_step. simpl.
  destruct p as [o [|[f|] rest]|c|c r|c r fn|c r|c r fn|r| |q|x];
    try (intros [= <- <-]; eauto with go_spec).
  - pose proof (recover_always_normal w) as Hn.
    destruct (recover w) as [[r|q|q] w'] eqn:E; [|done..].
    intros [= <- <-]. destruct (decide (r = VNil)) as [->|Hr]; eauto with go_spec.
  - destruct (OnGuard _) as [fn|] eqn:E; intros [= <- <-]; eauto with go_spec.
  - unfold after_call.
    destruct (call _ w) as [[[]|q|q] w'] eqn:Ec; intros [= <- <-];
      eauto with go_spec.
  - destruct (OnGuardWithContext _) as [fn|] eqn:E; intros [= <- <-];
      eauto with go_spec.
  - unfold after_call.
    destruct (call _ w) as [[[]|q|q] w'] eqn:Ec; intros [= <- <-];
      eauto with go_spec.
  - destruct err as [l|]; intros [= <- <-]; eauto with go_spec.
Qed.

Lemma step_guard_step err cf evs cf' :
  step err cf evs cf' → guard_step err cf = Some (evs, cf').
Proof.
  destruct 1; unfold guard_step, after_call; simpl; subst;
    repeat match goal with H : _ = _ |- _ => rewrite H end; try done.
  - by rewrite decide_False.
Qed.

(** The machine is deterministic. *)
Lemma step_deterministic err cf evs1 cf1 evs2 cf2 :
  step err cf evs1 cf1 → step err cf evs2 cf2 → evs1 = evs2 ∧ cf1 = cf2.
Proof.
  intros H1%step_guard_step H2%step_guard_step. by simplify_eq.
Qed.

Lemma guard_step_final err cf : guard_step err cf = None ↔ is_Some (final cf.1).
Proof.
  destruct cf as [p w]. unfold guard_step. simpl.
  destruct p as [o [|[f|] rest]|c|c r|c r fn|c r|c r fn|r| |q|x]; simpl;
    try (split; [done|by intros [? [=]]]); try (split; [by eexists|done]).
  - destruct (recover w) as [[r|q|q] w']; split; try done; by intros [? [=]].
  - destruct (OnGuard _); split; try done; by intros [? [=]].
  - destruct (OnGuardWithContext _); split; try done; by intros [? [=]].
  - destruct err; split; try done; by intros [? [=]].
Qed.

(** *** Termination *)

Lemma step_fuel err cf evs cf' :
  step err cf evs cf' → point_fuel cf'.1 < point_fuel cf.1.
Proof. destruct 1; simpl; lia. Qed.

Lemma run_steps err fuel cf :
  steps err cf (run err fuel cf).1 (run err fuel cf).2.
Proof.
  revert cf. induction fuel as [|fuel IH]; intros cf; simpl; [constructor|].
  destruct (guard_step err cf) as [[evs cf']|] eqn:E; [|constructor].
  simpl. eapply steps_step; [by apply guard_step_step|apply IH].
Qed.

Lemma run_final err fuel cf :
  point_fuel cf.1 ≤ fuel → is_Some (final (run err fuel cf).2.1).
Proof.
  revert cf. induction fuel as [|fuel IH]; intros cf Hf; simpl.
  - destruct cf as [[] w]; simpl in *; try lia; by eexists.
  - destruct (guard_step err cf) as [[evs cf']|] eqn:E; simpl.
    + apply IH. apply guard_step_step, step_fuel in E. lia.
    + by apply guard_step_final in E.
Qed.

Lemma succ_fuel err cf cf' :
  succ err cf cf' → point_fuel cf'.1 < point_fuel cf.1.
Proof. intros [evs Hs]. by eapply step_fuel. Qed.

Lemma nsteps_fuel err n cf cf' :
  nsteps (succ err) n cf cf' → n + point_fuel cf'.1 ≤ point_fuel cf.1.
Proof.
  induction 1 as [|n c1 c2 c3 H1%succ_fuel _ IH]; [done|lia].
Qed.

(** *** Counting events *)

(** A quantity of traces that adds up is bounded by what a potential of
    the control points allows, if every step pays for what it shows. *)
Lemma steps_bounded err (μ : list event → nat) (pot : point → nat) :
  (∀ l1 l2, μ (l1 ++ l2) = μ l1 + μ l2) →
  (∀ cf evs cf', step err cf evs cf' → μ evs + pot cf'.1 ≤ pot cf.1) →
  ∀ cf tr cf', steps err cf tr cf' → μ tr + pot cf'.1 ≤ pot cf.1.
Proof.
  intros Happ Hstep cf tr cf'.
  induction 1 as [c|c1 evs c2 tr c3 H1%Hstep _ IH].
  - pose proof (Happ [] []) as H0. simpl in H0. lia.
  - rewrite Happ. lia.
Qed.

Lemma filter_length_app {A} (P : A → Prop) `{∀ x, Decision (P x)} (l1 l2 : list A) :
  length (filter P (l1 ++ l2)) = length (filter P l1) + length (filter P l2).
Proof. by rewrite filter_app, length_app. Qed.

Lemma step_events_left err cf evs cf' :
  step err cf evs cf' → length evs + events_left cf'.1 ≤ events_left cf.1.
Proof. destruct 1; simpl; lia. Qed.

Lemma step_options_left err cf evs cf' :
  step err cf evs cf' →
  length (filter is_option evs) + options_left cf'.1 ≤ options_left cf.1.
Proof. destruct 1; simpl; lia. Qed.

Lemma step_observers_left err cf evs cf' :
  step err cf evs cf' →
  length (filter is_observer_call evs) + observers_left cf'.1
  ≤ observers_left cf.1.
Proof. destruct 1; simpl; lia. Qed.

(** *** Agreement with the function *)

Lemma step_resume err cf evs cf' :
  step err cf evs cf' → resume err cf.1 cf.2 = resume err cf'.1 cf'.2.
Proof.
  destruct 1; simpl; subst; try done.
  - rewrite (run_bind_normal _ _ _ _ _ H0). by rewrite decide_True.
  - rewrite (run_bind_normal _ _ _ _ _ H0). by rewrite decide_False.
  - by rewrite (run_bind_normal _ _ w tt w) by by apply notify_OnGuard_unset.
  - unfold bind. by rewrite (notify_OnGuard_set _ _ fn).
  - by rewrite (run_bind_normal _ _ w tt w').
  - by rewrite (run_bind_panicked _ _ w q w').
  - by rewrite (run_bind_exited _ _ w x w').
  - by rewrite (run_bind_normal _ _ w tt w)
      by by apply notify_OnGuardWithContext_unset.
  - unfold bind. by rewrite (notify_OnGuardWithContext_set _ _ _ fn).
  - by rewrite (run_bind_normal _ _ w tt w').
  - by rewrite (run_bind_panicked _ _ w q w').
  - by rewrite (run_bind_exited _ _ w x w').
  - apply run_store_recovered.
  - by rewrite store_recovered_eq.
Qed.

Lemma steps_resume err cf tr cf' :
  steps err cf tr cf' → resume err cf.1 cf.2 = resume err cf'.1 cf'.2.
Proof.
  induction 1 as [|c1 evs c2 tr c3 H1 _ IH]; [done|].
  by rewrite (step_resume _ _ _ _ H1).
Qed.

Lemma resume_final err p o w : final p = Some o → resume err p w = (o, w).
Proof. destruct p; simpl; try done; by intros [= <-]. Qed.

Lemma resume_entry err opts : resume err (entry opts) = Guard err opts.
Proof. done. Qed.

(** A run that reached a final control point computed [Guard]. *)
Lemma steps_final_Guard err opts w tr p' w' o :
  steps err (entry opts, w) tr (p', w') → final p' = Some o →
  Guard err opts w = (o, w').
Proof.
  intros Hs Hf. rewrite <-resume_entry.
  pose proof (steps_resume _ _ _ _ Hs) as E.
  change (resume err (entry opts) w = resume err p' w') in E. rewrite E.
  by apply resume_final.
Qed.

(** *** The order of events *)

Lemma step_point_rank err cf evs cf' :
  step err cf evs cf' → point_rank cf.1 ≤ point_rank cf'.1.
Proof. destruct 1; simpl; lia. Qed.

Lemma step_ranks err cf evs cf' :
  step err cf evs cf' →
  Forall (λ e, point_rank cf.1 ≤ event_rank e) evs ∧
  StronglySorted before evs ∧
  Forall (λ e, event_rank e < point_rank cf'.1 ∨
               (event_rank e = 0 ∧ point_rank cf'.1 = 0)) evs.
Proof.
  destruct 1; simpl; split_and!; split_list; unfold before; simpl; lia.
Qed.

(** The events of a step followed by those of the rest of a run. *)
Lemma before_app evs tr k :
  StronglySorted before evs → StronglySorted before tr →
  Forall (λ e, event_rank e < k ∨ (event_rank e = 0 ∧ k = 0)) evs →
  Forall (λ e, k ≤ event_rank e) tr →
  StronglySorted before (evs ++ tr).
Proof.
  rewrite !Forall_forall. intros Hs1 Hs2 Hhi Hlo.
  apply StronglySorted_app_2; [|done..]. intros e1 e2 He1 He2.
  specialize (Hhi e1 He1). specialize (Hlo e2 He2). unfold before. lia.
Qed.

Lemma steps_ranks err cf tr cf' :
  steps err cf tr cf' →
  Forall (λ e, point_rank cf.1 ≤ event_rank e) tr ∧ StronglySorted before tr.
Proof.
  induction 1 as [|c1 evs c2 tr c3 H1 _ [IH1 IH2]]; [by repeat constructor|].
  destruct (step_ranks _ _ _ _ H1) as (Hlo & Hs & Hhi).
  pose proof (step_point_rank _ _ _ _ H1) as Hr.
  split; [|by eapply before_app].
  apply Forall_app. split; [done|].
  eapply Forall_impl; [exact IH1|]. intros e He. simpl in *. lia.
Qed.

Lemma before_store e1 e2 : is_store e1 → ¬ before e1 e2.
Proof. destruct e1, e2; unfold before; simpl; try done; lia. Qed.

(** *** The invariant of runs *)

Lemma run_inv_entry opts w : run_inv opts w (entry opts, w).
Proof. done. Qed.

Lemma recover_recovered w r w' :
  recover w = (Normal r, w') → r ≠ VNil → recovered w w' r.
Proof.
  unfold recover, recovered.
  destruct (w_panic w) as [p|] eqn:Hp, (w_depth w) eqn:Hd;
    intros [= <- <-] Hr; try done.
Qed.

Lemma recovered_call {A} (f : rg A) w0 w r o w' :
  call f w = (o, w') → recovered w0 w r → recovered w0 w' r.
Proof.
  unfold recovered. intros Hc (?&?&?&?&?).
  destruct (call_frame f w) as [Hp Hd]. rewrite Hc in Hp, Hd. simpl in *.
  by rewrite Hp, Hd.
Qed.

#[local] Hint Resolve recovered_call recover_recovered : go_spec.

Lemma step_run_inv err opts w0 cf evs cf' :
  step err cf evs cf' → run_inv opts w0 cf → run_inv opts w0 cf'.
Proof.
  destruct 1; unfold run_inv, context_of; simpl; try done; intros Hi;
    destruct_and?; simplify_eq/=; eauto with go_spec.
Qed.

Lemma step_event_inv err opts w0 cf evs cf' :
  step err cf evs cf' → run_inv opts w0 cf → Forall (event_inv err opts w0) evs.
Proof.
  destruct 1; unfold run_inv, recovered; simpl; intros Hi;
    destruct_and?; subst; split_list; simpl; try done; try naive_solver.
  all: by match goal with H : recover _ = _ |- _ => rewrite H end.
Qed.

Lemma steps_run_inv err opts w0 cf tr cf' :
  steps err cf tr cf' → run_inv opts w0 cf →
  run_inv opts w0 cf' ∧ Forall (event_inv err opts w0) tr.
Proof.
  induction 1 as [|c1 evs c2 tr c3 H1 _ IH]; intros Hi; [by split|].
  destruct (IH (step_run_inv _ _ _ _ _ _ H1 Hi)) as [Hi' Hev].
  split; [done|]. apply Forall_app. split; [|done].
  by eapply step_event_inv.
Qed.

End laws.

(** ** Theorems *)

Section theorems.
Context `{Hooks}.
Implicit Types (w : rg_world) (p : point) (cf : config) (tr : list event).
Implicit Types (err : ptr) (opts : list Option).

(** C28: the machine computes [Guard], and within its fuel.  From the
    entry of [Guard(err, opts...)], [length opts + 7] transitions reach a
    final control point, whatever the arguments, the state and the
    observers are; the way [Guard] ended and the state it left are those of
    the function [Guard]. *)
Theorem machine_computes_Guard err opts w :
  final (run err (length opts + 7) (entry opts, w)).2.1 =
    Some (Guard err opts w).1 ∧
  (run err (length opts + 7) (entry opts, w)).2.2 = (Guard err opts w).2.
Proof.
  destruct (run_final err (length opts + 7) (entry opts, w)) as [o Ho]; [done|].
  pose proof (run_steps err (length opts + 7) (entry opts, w)) as Hs.
  destruct (run err (length opts + 7) (entry opts, w)) as [tr [p' w']].
  simpl in *. by rewrite (steps_final_Guard _ _ _ _ _ _ o Hs Ho).
Qed.

(** C29: [Guard] terminates, and runs in one way.  From every control
    point and state, no sequence of transitions is infinite (the
    transition relation is strongly normalising), a sequence of [n]
    transitions uses up [n] of the fuel of its first control point, and
    [run] with that fuel ends at a final control point: the options loop
    runs once per option and nothing else in [Guard] repeats.  The
    machine is total and deterministic: at a control point that is not
    final exactly one transition is possible, whatever the state, the
    observers and [err] are; at a final one there is none. *)
Theorem Guard_machine_terminates err cf :
  sn (succ err) cf ∧
  (∀ n cf', nsteps (succ err) n cf cf' →
            n + point_fuel cf'.1 ≤ point_fuel cf.1) ∧
  is_Some (final (run err (point_fuel cf.1) cf).2.1) ∧
  (final cf.1 = None →
   ∃ evs cf', step err cf evs cf' ∧
     ∀ evs2 cf2, step err cf evs2 cf2 → evs2 = evs ∧ cf2 = cf') ∧
  (is_Some (final cf.1) → ∀ evs cf', ¬ step err cf evs cf').
Proof.
  split_and!; [|intros n cf'; by apply nsteps_fuel|by apply run_final|..].
  - revert cf. apply (wf_projected (R1:=flip (succ err)) lt (λ c, point_fuel c.1));
      [|apply lt_wf].
    intros c c'. apply succ_fuel.
  - intros Hf. destruct (guard_step err cf) as [[evs cf']|] eqn:E.
    + exists evs, cf'. split; [by apply guard_step_step|].
      intros evs2 cf2 H2%step_guard_step. by simplify_eq.
    + apply guard_step_final in E. rewrite Hf in E. by destruct E.
  - intros Hf evs cf' Hs%step_guard_step.
    apply (guard_step_final err) in Hf. congruence.
Qed.

(** The events of a run of [Guard] come in the order of its statements;
    in particular [*err] is written at most once, and the assignment is
    the last thing [Guard] does. *)
Lemma steps_ordered err cf tr cf' :
  steps err cf tr cf' →
  StronglySorted before tr ∧
  length (filter is_store tr) ≤ 1 ∧
  (∀ e, e ∈ tr → is_store e → last tr = Some e).
Proof.
  intros Hs. destruct (steps_ranks _ _ _ _ Hs) as [_ Hss]. split_and!; [done|..].
  - apply (StronglySorted_filter_length before); [|done].
    intros x y Hx _. by apply before_store.
  - intros e He Hse. apply (StronglySorted_maximal_last before); [done..|].
    intros y. by apply before_store.
Qed.

(** C30: what a run of [Guard] can show is bounded by its arguments, and
    comes in the order of its statements.  A run of [Guard(err, opts...)]
    shows at most [length opts + 4] events: at most one per option, the
    call of [recover], at most two calls of observers (each observer at
    most once), and the assignment, a panic or the end of the goroutine.
    The events come in that order: options first, then [recover], then
    [OnGuard], then [OnGuardWithContext], then the assignment, a panic or
    the end of the goroutine; [*err] is written at most once, and the
    assignment is the last thing [Guard] does. *)
Theorem Guard_trace_bounds err opts w tr cf :
  steps err (entry opts, w) tr cf →
  length tr ≤ length opts + 4 ∧
  length (filter is_option tr) ≤ length opts ∧
  length (filter is_observer_call tr) ≤ 2 ∧
  length (filter is_store tr) ≤ 1 ∧
  StronglySorted before tr ∧
  (∀ e, e ∈ tr → is_store e → last tr = Some e).
Proof.
  intros Hs. destruct (steps_ordered _ _ _ _ Hs) as (Hss & Hst & Hl).
  split_and!; [| | |done..].
  - pose proof (steps_bounded err length events_left (@length_app _)
      (step_events_left err) _ _ _ Hs). simpl in *. lia.
  - pose proof (steps_bounded err (λ l, length (filter is_option l)) options_left
      (filter_length_app _) (step_options_left err) _ _ _ Hs). simpl in *. lia.
  - pose proof (steps_bounded err (λ l, length (filter is_observer_call l))
      observers_left (filter_length_app _) (step_observers_left err) _ _ _ Hs).
    simpl in *. lia.
Qed.

(** C31: the observers and the assignment see a recovered panic.  In every
    run of [Guard] entered in state [w], each event carries what the
    entry state determines: [recover] returns what it returns in [w], the
    observers are given the payload that was in flight in [w] (and the
    context resolved from [opts]), and the error assigned through [err] is
    the conversion of that payload.  While the control is between
    [recover] and the end, a panic was in flight in [w] at depth 0 and is
    no longer: an observer cannot recover it again. *)
Theorem Guard_run_invariant err opts w tr p' w' :
  steps err (entry opts, w) tr (p', w') →
  Forall (event_inv err opts w) tr ∧
  (handling p' →
   is_Some (w_panic w) ∧ w_depth w = 0 ∧ w_panic w' = None ∧ w_depth w' = 0).
Proof.
  intros Hs.
  destruct (steps_run_inv _ opts w _ _ _ Hs (run_inv_entry opts w)) as [Hi Hev].
  split; [done|]. unfold run_inv, recovered in Hi.
  destruct p'; simpl in *; try done; intros _; destruct_and?; split_and!; eauto.
Qed.

End theorems.

(** ** On concrete runs *)

Module MachineRuns.
Import Sample.

(** [Guard(&err, WithContext(ctx7))] run as the deferred call of a function
    that panicked with ["hello"], both observers recording. *)
Definition hello_world : world (globals sample_hook sample_ctx_hook) :=
  World {[ 1 := VNil ]} (Globals (Some (Record_ 2)) (Some (CtxRecord 3 4)))
    (Some (VString "hello")) 0.

Definition hello_run : list event * config :=
  run (H:=sample_hooks) (Some 1) 8
    (entry [WithContext (Some (ctx_User 7))], hello_world).

Lemma hello_run_trace :
  hello_run.1 =
  [EvOption; EvRecover (VString "hello");
   EvOnGuard (Record_ 2) (VString "hello");
   EvOnGuardWithContext (CtxRecord 3 4) (ctx_User 7) (VString "hello");
   EvStore 1 (errors_New "panic: hello")] ∧
  hello_run.2.1 = Returned.
Proof. by vm_compute. Qed.

Lemma Guard_trace_bounds_witness :
  length hello_run.1 = 5 ∧ length hello_run.1 ≤ 1 + 4 ∧
  StronglySorted before hello_run.1.
Proof.
  split; [by vm_compute|].
  destruct (Guard_trace_bounds (H:=sample_hooks) (Some 1)
    [WithContext (Some (ctx_User 7))] hello_world hello_run.1 hello_run.2)
    as (H1 & _ & _ & _ & H2 & _); [apply (run_steps (H:=sample_hooks))|by split].
Defined.

Lemma Guard_run_invariant_witness :
  Forall
    (event_inv (H:=sample_hooks) (Some 1) [WithContext (Some (ctx_User 7))]
       hello_world)
    hello_run.1.
Proof.
  apply (Guard_run_invariant (H:=sample_hooks) (Some 1)
    [WithContext (Some (ctx_User 7))] hello_world hello_run.1
    hello_run.2.1 hello_run.2.2).
  rewrite <-surjective_pairing. apply (run_steps (H:=sample_hooks)).
Defined.

End MachineRuns.
