(* ===== verification/Interference.v ===== *)
(** * Interference: [Guard] while other goroutines run

    guard.go reads [OnGuard] and [OnGuardWithContext] without
    synchronisation, and [*err] may be shared as well.  This file runs the
    machine of [Machine.v] interleaved with the writes of other
    goroutines: between any two statements of [Guard] the variables and
    the two observer variables may change in any way.  What other
    goroutines cannot touch is the panic state, which is the goroutine's
    own.  The interleaving is sequentially consistent and at the
    granularity of the statements of [Guard]; the body of an observer
    runs without interruption.

    What keeps [Guard] safe is that each variable is read once, into a
    local ([fn := OnGuard]), and the nil test and the call use the local:
    an assignment between the test and the call, of nil for instance, does
    not change what is called.

    - [isteps] is a run of the whole: each transition is a statement of
      [Guard] ([Machine.step]) or writes by another goroutine
      ([interfere]); it counts the statements [Guard] executed.
    - [irun] runs a schedule, a list that says for each turn whether
      [Guard] moves or what another goroutine writes. *)

From S2P Require Import Prelude Effects GoValue Runtime Hooks Guard Machine.

Local Open Scope go_scope.

Section interference.
Context `{Hooks}.

(** Another goroutine writes: the variables change by [fh], the observer
    variables by [fg]; where [Guard] is and its panic state do not. *)
Definition interfere (fh : gmap nat value → gmap nat value)
    (fg : rg_globals → rg_globals) (cf : config) : config :=
  (cf.1, set_globals fg (set_heap fh cf.2)).

(** [OnGuard, OnGuardWithContext = g] by another goroutine. *)
Definition assign (g : rg_globals) : config → config := interfere id (λ _, g).

(** A turn of a schedule: [Guard] executes a statement, or another
    goroutine writes. *)
Inductive turn : Type :=
  | Own
  | Other (fh : gmap nat value → gmap nat value) (fg : rg_globals → rg_globals).

(** The turn of a goroutine that assigns the observer variables. *)
Definition Assign (g : rg_globals) : turn := Other id (λ _, g).

Section step.
Variable err : ptr.

(** Runs: statements of [Guard] and writes by other goroutines in any
    order, with the number of statements [Guard] executed. *)
Inductive isteps : nat → config → list event → config → Prop :=
  | isteps_refl c : isteps 0 c [] c
  | isteps_own n c1 evs c2 tr c3 :
      step err c1 evs c2 → isteps n c2 tr c3 →
      isteps (S n) c1 (evs ++ tr) c3
  | isteps_other n fh fg c1 tr c3 :
      isteps n (interfere fh fg c1) tr c3 → isteps n c1 tr c3.

(** The run of a schedule; it ends with the schedule or when [Guard] has
    ended. *)
Fixpoint irun (sched : list turn) (cf : config) : nat * list event * config :=
  match sched with
  | [] => (0, [], cf)
  | Other fh fg :: sched' => irun sched' (interfere fh fg cf)
  | Own :: sched' =>
      match guard_step err cf with
      | Some (evs, cf') =>
          let r := irun sched' cf' in (S r.1.1, evs ++ r.1.2, r.2)
      | None => (0, [], cf)
      end
  end.

End step.

(** No nil option is left to apply, no panic has left [Guard] and the
    goroutine has not been ended. *)
Definition safe_point (p : point) : Prop :=
  match p with
  | AtLoop _ rest => Forall is_Some rest
  | PanickedOut _ | ExitedOut _ => False
  | _ => True
  end.

(** A panic leaves [Guard], or the goroutine ends. *)
Definition is_abrupt (e : event) : Prop :=
  match e with EvPanic _ | EvExit _ => True | _ => False end.

(** The turns a schedule gives to [Guard]. *)
Definition is_own (t : turn) : Prop :=
  match t with Own => True | Other _ _ => False end.

#[export] Instance is_own_dec t : Decision (is_own t).
Proof. destruct t; apply _. Defined.

Definition own_turns (sched : list turn) : nat := length (filter is_own sched).

End interference.

#[export] Hint Constructors isteps : go_spec.

(** ** Laws *)

Section laws.
Context `{Hooks}.
Implicit Types (w : rg_world) (p : point) (cf : config) (tr evs : list event).
Implicit Types (err : ptr) (opts : list Option).

#[export] Instance safe_point_dec p : Decision (safe_point p).
Proof. destruct p; apply _. Defined.
#[export] Instance is_abrupt_dec e : Decision (is_abrupt e).
Proof. destruct e; apply _. Defined.

(** A run of [Guard] alone is a run. *)
Lemma steps_isteps err cf tr cf' :
  steps err cf tr cf' → ∃ n, isteps err n cf tr cf'.
Proof. induction 1 as [|????? H1 _ [n IH]]; eauto with go_spec. Qed.

Lemma irun_isteps err sched cf :
  isteps err (irun err sched cf).1.1 cf (irun err sched cf).1.2
    (irun err sched cf).2.
Proof.
  revert cf. induction sched as [|[|fh fg] sched IH]; intros cf; simpl;
    [constructor| |eauto with go_spec].
  destruct (guard_step err cf) as [[evs cf']|] eqn:E; [|constructor].
  simpl. eapply isteps_own; [by apply guard_step_step|apply IH].
Qed.

(** *** [Guard] ends *)

Lemma isteps_fuel err n cf tr cf' :
  isteps err n cf tr cf' → n + point_fuel cf'.1 ≤ point_fuel cf.1.
Proof.
  induction 1 as [|n c1 evs c2 tr c3 H1 _ IH|]; [done| |done].
  apply step_fuel in H1. lia.
Qed.

(** Every turn of [Guard] uses up fuel and no assignment gives any back:
    a schedule with enough turns for [Guard] runs it to its end. *)
Lemma irun_final err sched cf :
  point_fuel cf.1 ≤ own_turns sched → is_Some (final (irun err sched cf).2.1).
Proof.
  revert cf. induction sched as [|[|fh fg] sched IH]; intros cf; unfold own_turns;
    simpl; intros Hf; [|..|by apply IH].
  - destruct cf as [[] w]; simpl in *; try lia; by eexists.
  - destruct (guard_step err cf) as [[evs cf']|] eqn:E; simpl.
    + apply IH. apply guard_step_step, step_fuel in E. unfold own_turns. lia.
    + by apply guard_step_final in E.
Qed.

Lemma own_turns_replicate n : own_turns (replicate n Own) = n.
Proof. unfold own_turns. induction n as [|n IH]; simpl; [done|by rewrite IH]. Qed.

(** *** The order of events *)

Lemma isteps_ranks err n cf tr cf' :
  isteps err n cf tr cf' →
  Forall (λ e, point_rank cf.1 ≤ event_rank e) tr ∧ StronglySorted before tr.
Proof.
  induction 1 as [|n c1 evs c2 tr c3 H1 _ [IH1 IH2]|]; [by repeat constructor| |done].
  destruct (step_ranks _ _ _ _ H1) as (Hlo & Hs & Hhi).
  pose proof (step_point_rank _ _ _ _ H1) as Hr.
  split; [|by eapply before_app].
  apply Forall_app. split; [done|].
  eapply Forall_impl; [exact IH1|]. intros e He. simpl in *. lia.
Qed.

(** *** No panic *)

(** A call that always returns did. *)
Ltac call_returned :=
  match goal with
  | E : call ?f ?w = (_, _) |- _ =>
      let Hn := fresh in
      pose proof (returns (m:=call f) w) as Hn; by rewrite E in Hn
  end.

Lemma step_safe `{!HooksReturn} l cf evs cf' :
  step (Some l) cf evs cf' → safe_point cf.1 →
  safe_point cf'.1 ∧ Forall (λ e, ¬ is_abrupt e) evs.
Proof.
  destruct 1; simpl; intros Hs; try (split; [done|split_list; by intros []]);
    try call_returned.
  - split; [by eapply Forall_inv_tail|split_list; by intros []].
  - by apply Forall_inv in Hs as [? [=]].
Qed.

Lemma isteps_safe `{!HooksReturn} l n cf tr cf' :
  isteps (Some l) n cf tr cf' → safe_point cf.1 →
  safe_point cf'.1 ∧ Forall (λ e, ¬ is_abrupt e) tr.
Proof.
  induction 1 as [|n c1 evs c2 tr c3 H1 _ IH|]; intros Hs;
    [by split| |by apply IHisteps].
  destruct (step_safe _ _ _ _ H1 Hs) as [Hs2 Hev].
  destruct (IH Hs2) as [Hs3 Htr]. split; [done|]. by apply Forall_app.
Qed.

End laws.

(** ** Theorems *)

Section theorems.
Context `{Hooks}.
Implicit Types (w : rg_world) (p : point) (cf : config) (tr : list event).
Implicit Types (opts : list Option) (l : nat).

(** One [Guard] is safe while other goroutines write the variables and
    the observer variables.  In every run of [Guard(err, opts...)]
    interleaved with arbitrary writes to the variables, to [OnGuard] and
    to [OnGuardWithContext], with observers that return, a non-nil [err]
    and no nil option: no panic leaves [Guard] and the goroutine goes on
    (in particular no nil function value is called, because each
    variable is read once); [Guard] executes at most [length opts + 7]
    statements; its events come in the order of its statements and
    [*err] is written at most once.  [Concurrent.v] has the same for any
    number of goroutines inside [Guard]. *)
Lemma Guard_safe_under_interference `{!HooksReturn} l opts w n tr cf :
  Forall is_Some opts →
  isteps (Some l) n (entry opts, w) tr cf →
  safe_point cf.1 ∧ Forall (λ e, ¬ is_abrupt e) tr ∧
  n ≤ length opts + 7 ∧
  StronglySorted before tr ∧ length (filter is_store tr) ≤ 1.
Proof.
  intros Hopts Hs.
  destruct (isteps_safe _ _ _ _ _ Hs Hopts) as [Hsafe Hev].
  pose proof (isteps_fuel _ _ _ _ _ Hs) as Hn.
  destruct (isteps_ranks _ _ _ _ _ Hs) as [_ Hss].
  split_and!; [done|done|simpl in Hn; lia|done|].
  apply (StronglySorted_filter_length before); [|done].
  intros x y Hx _. by apply before_store.
Qed.

(** C39: [Guard] always completes, whatever other goroutines write.  It
    never waits for them: every schedule that gives [Guard] at least
    [length opts + 7] turns (a fair schedule does) runs it to a final
    control point, however many writes of other goroutines are
    interleaved and wherever; and every run, from any control point and
    state, can be completed. *)
Theorem Guard_completes_under_interference err opts w sched :
  length opts + 7 ≤ own_turns sched →
  is_Some (final (irun err sched (entry opts, w)).2.1) ∧
  (irun err sched (entry opts, w)).1.1 ≤ length opts + 7 ∧
  (∀ n cf tr cf', isteps err n cf tr cf' →
     ∃ m tr' cf'', isteps err m cf' tr' cf'' ∧ is_Some (final cf''.1)).
Proof.
  intros Hs. split_and!.
  - by apply irun_final.
  - pose proof (isteps_fuel _ _ _ _ _
      (irun_isteps err sched (entry opts, w))) as Hn. simpl in Hn. lia.
  - intros n cf tr cf' _.
    pose proof (irun_isteps err (replicate (point_fuel cf'.1) Own) cf') as Hr.
    eexists _, _, _. split; [exact Hr|].
    apply irun_final. by rewrite own_turns_replicate.
Qed.

End theorems.

(** ** On concrete runs *)

Module InterferenceRuns.
Import Recording.

(** [Guard(&err)] as the deferred call of a function that panicked with
    42, both observers recording. *)
Definition racy_world : world (globals nat (nat * nat)) :=
  World {[ 1 := VNil ]} (Globals (Some 2) (Some (3, 4))) (Some (VInt 42)) 0.

(** Another goroutine sets both variables to nil after [Guard] has read
    [OnGuard] and before it calls what it read. *)
Definition racy_schedule : list turn :=
  [Own; Own; Own; Assign (Globals None None); Own; Own; Own].

Definition racy_run : nat * list event * config :=
  irun (Some 1) racy_schedule (entry [], racy_world).

(** The function read is called; the second observer, read after the
    assignment, is not. *)
Lemma racy_run_trace :
  racy_run.1.2 =
  [EvRecover (VInt 42); EvOnGuard 2 (VInt 42);
   EvStore 1 (errors_New "panic: 42")] ∧
  racy_run.2 =
  (Returned,
   World {[ 1 := VError (errors_New "panic: 42"); 2 := VInt 42 ]}
     (Globals None None) None 0).
Proof. by vm_compute. Qed.

Lemma Guard_safe_under_interference_run :
  safe_point racy_run.2.1 ∧ Forall (λ e, ¬ is_abrupt e) racy_run.1.2.
Proof.
  destruct (Guard_safe_under_interference (H:=recording_hooks) 1 [] racy_world
    racy_run.1.1 racy_run.1.2 racy_run.2) as (H1 & H2 & _);
    [done|apply (irun_isteps (H:=recording_hooks))|by split].
Qed.

(** Seven turns for [Guard], with an assignment among them. *)
Definition fair_schedule : list turn :=
  [Own; Own; Own; Assign (Globals None None); Own; Own; Own; Own].

Lemma Guard_completes_under_interference_witness :
  is_Some (final (irun (Some 1) fair_schedule (entry [], racy_world)).2.1).
Proof.
  apply (Guard_completes_under_interference (H:=recording_hooks) (Some 1) []
    racy_world fair_schedule).
  vm_compute. lia.
Defined.

End InterferenceRuns.
