(* ===== verification/Concurrent.v ===== *)
(** * Concurrent: several goroutines inside [Guard] at once

    [Interference.v] runs one [Guard] against arbitrary writes.  Here the
    writes are those of other goroutines that are inside [Guard]
    themselves, each for a panic of its own, and of whatever else the
    application runs: a [pool] is the variables and the observer
    variables the goroutines share, and for each goroutine where its
    [Guard] is and its panic state ([thread]).

    - [cstep] is a statement of the [Guard] of one goroutine; [csteps] is
      a run of the pool, with the events labelled by the goroutine they
      belong to and the number of statements executed; [crun] runs a
      schedule.
    - What one goroutine sees of a run of the pool is a run of its
      [Guard] under interference ([csteps_isteps]): the statements of the
      others are writes to the variables.  This is how the theorems of
      [Interference.v] about one [Guard] carry over to all of them at
      once.

    The interleaving is sequentially consistent and at the granularity of
    the statements of [Guard]; the body of an observer runs without
    interruption. *)

From S2P Require Import Prelude Effects GoValue Runtime Hooks Guard.
From S2P Require Import Machine Interference.

Local Open Scope go_scope.

Section concurrent.
Context `{Hooks}.

(** A goroutine inside [Guard(err, opts...)]. *)
Record thread : Type := Thread {
  t_err : ptr;               (* the [err] its [Guard] was given *)
  t_point : point;           (* where its [Guard] is *)
  t_panic : option value;    (* the panic in flight in the goroutine *)
  t_depth : nat
}.

Record pool : Type := Pool {
  c_heap : gmap nat value;   (* the variables *)
  c_globals : rg_globals;    (* OnGuard, OnGuardWithContext *)
  c_threads : list thread
}.

(** A goroutine whose deferred [Guard(err, opts...)] is about to run,
    with [p] unwinding its function. *)
Definition enter (err : ptr) (opts : list Option) (p : option value) : thread :=
  Thread err (entry opts) p 0.

(** The machine of a goroutine: its control point and the state as the
    goroutine sees it. *)
Definition view (c : pool) (t : thread) : config :=
  (t_point t, World (c_heap c) (c_globals c) (t_panic t) (t_depth t)).

(** The pool after goroutine [i] moved to [cf]. *)
Definition commit (i : nat) (t : thread) (cf : config) (c : pool) : pool :=
  Pool (w_heap cf.2) (w_globals cf.2)
    (<[i := Thread (t_err t) cf.1 (w_panic cf.2) (w_depth cf.2)]> (c_threads c)).

(** Other code of the application writes the variables. *)
Definition env_write (fh : gmap nat value → gmap nat value)
    (fg : rg_globals → rg_globals) (c : pool) : pool :=
  Pool (fh (c_heap c)) (fg (c_globals c)) (c_threads c).

(** Goroutine [i] executes a statement of its [Guard]. *)
Inductive cstep : pool → nat → list event → pool → Prop :=
  | cstep_thread c i t evs cf :
      c_threads c !! i = Some t → step (t_err t) (view c t) evs cf →
      cstep c i evs (commit i t cf c).

(** Runs of the pool: the number of statements executed and the events,
    each with the goroutine it belongs to. *)
Inductive csteps : nat → pool → list (nat * event) → pool → Prop :=
  | csteps_refl c : csteps 0 c [] c
  | csteps_thread n c1 i evs c2 tr c3 :
      cstep c1 i evs c2 → csteps n c2 tr c3 →
      csteps (S n) c1 ((pair i <$> evs) ++ tr) c3
  | csteps_env n fh fg c1 tr c3 :
      csteps n (env_write fh fg c1) tr c3 → csteps n c1 tr c3.

(** The statement of goroutine [i], as a function. *)
Definition cstep_of (i : nat) (c : pool) : option (list event * pool) :=
  t ← c_threads c !! i;
  r ← guard_step (t_err t) (view c t);
  Some (r.1, commit i t r.2 c).

(** The run of a schedule; a turn given to a goroutine whose [Guard] has
    ended is lost. *)
Fixpoint crun (sched : list nat) (c : pool) : nat * list (nat * event) * pool :=
  match sched with
  | [] => (0, [], c)
  | i :: sched' =>
      match cstep_of i c with
      | Some (evs, c') =>
          let r := crun sched' c' in
          (S r.1.1, (pair i <$> evs) ++ r.1.2, r.2)
      | None => crun sched' c
      end
  end.

(** The events of goroutine [i]. *)
Definition events_of (i : nat) (tr : list (nat * event)) : list event :=
  snd <$> filter (λ x, x.1 = i) tr.

(** The statements all the goroutines have left, at most. *)
Definition pool_fuel (c : pool) : nat :=
  sum_list (point_fuel ∘ t_point <$> c_threads c).

(** Every goroutine was given a non-nil [err] and is where no panic has
    left its [Guard]. *)
Definition pool_safe (c : pool) : Prop :=
  Forall (λ t, is_Some (t_err t) ∧ safe_point (t_point t)) (c_threads c).

(** The [Guard] of every goroutine has ended. *)
Definition pool_final (c : pool) : Prop :=
  Forall (λ t, is_Some (final (t_point t))) (c_threads c).

(** The turns a schedule gives to goroutine [i]. *)
Definition turns_of (i : nat) (sched : list nat) : nat :=
  length (filter (λ j, j = i) sched).

(** The schedule gives every goroutine the turns its [Guard] may need. *)
Definition enough_turns (sched : list nat) (c : pool) : Prop :=
  ∀ i t, c_threads c !! i = Some t → point_fuel (t_point t) ≤ turns_of i sched.

End concurrent.

#[export] Hint Constructors cstep csteps : go_spec.

(** ** Laws *)

Section laws.
Context `{Hooks}.
Implicit Types (c : pool) (t : thread) (cf : config) (i j n : nat).
Implicit Types (tr : list (nat * event)) (evs : list event).

#[export] Instance pool_safe_dec c : Decision (pool_safe c).
Proof. unfold pool_safe. apply _. Defined.
#[export] Instance pool_final_dec c : Decision (pool_final c).
Proof. unfold pool_final. apply _. Defined.

(** *** Steps *)

(** After its step a goroutine sees the configuration it moved to. *)
Lemma view_commit i t cf c :
  view (commit i t cf c) (Thread (t_err t) cf.1 (w_panic cf.2) (w_depth cf.2)) = cf.
Proof. by destruct cf as [p []]. Qed.

(** The step of another goroutine is a write to the variables. *)
Lemma view_commit_other i t cf c t' :
  view (commit i t cf c) t' =
  interfere (λ _, w_heap cf.2) (λ _, w_globals cf.2) (view c t').
Proof. done. Qed.

Lemma view_env_write fh fg c t : view (env_write fh fg c) t = interfere fh fg (view c t).
Proof. done. Qed.

Lemma cstep_of_cstep i c evs c' : cstep_of i c = Some (evs, c') ↔ cstep c i evs c'.
Proof.
  unfold cstep_of. split.
  - intros (t & Ht & ([evs' cf] & Hs & [= <- <-])%bind_Some)%bind_Some.
    constructor; [done|by apply guard_step_step].
  - intros [c0 i0 t evs0 cf Ht Hs%step_guard_step]. by rewrite Ht; simpl; rewrite Hs.
Qed.

Lemma crun_csteps sched c : csteps (crun sched c).1.1 c (crun sched c).1.2 (crun sched c).2.
Proof.
  revert c. induction sched as [|i sched IH]; intros c; simpl; [constructor|].
  destruct (cstep_of i c) as [[evs c']|] eqn:E; [|apply IH].
  simpl. eapply csteps_thread; [by apply cstep_of_cstep|apply IH].
Qed.

(** Goroutines neither start nor go away while they are inside [Guard]. *)
Lemma csteps_length n c tr c' :
  csteps n c tr c' → length (c_threads c') = length (c_threads c).
Proof.
  induction 1 as [|n c1 i evs c2 tr c3 H1 _ IH|]; [done| |done].
  destruct H1. rewrite IH. simpl. by rewrite length_insert.
Qed.

(** *** The events of one goroutine *)

Lemma events_of_app i tr1 tr2 :
  events_of i (tr1 ++ tr2) = events_of i tr1 ++ events_of i tr2.
Proof. unfold events_of. by rewrite filter_app, fmap_app. Qed.

Lemma events_of_own i evs : events_of i (pair i <$> evs) = evs.
Proof.
  unfold events_of. induction evs as [|e evs IH]; [done|].
  rewrite fmap_cons, filter_cons_True by done. by rewrite fmap_cons, IH.
Qed.

Lemma events_of_other i j evs : i ≠ j → events_of i (pair j <$> evs) = [].
Proof.
  intros Hij. unfold events_of. induction evs as [|e evs IH]; [done|].
  by rewrite fmap_cons, filter_cons_False by (simpl; congruence).
Qed.

Lemma elem_of_events_of i e tr : (i, e) ∈ tr → e ∈ events_of i tr.
Proof.
  intros He. unfold events_of. apply (list_elem_of_fmap_2 snd _ (i, e)).
  by apply list_elem_of_filter.
Qed.

(** *** What one goroutine sees *)

(** A run of the pool, seen from goroutine [i], is a run of its [Guard]
    interleaved with writes to the variables: its own events, and at
    most as many statements. *)
Lemma csteps_isteps n c tr c' i t :
  csteps n c tr c' → c_threads c !! i = Some t →
  ∃ t' m, c_threads c' !! i = Some t' ∧ t_err t' = t_err t ∧ m ≤ n ∧
          isteps (t_err t) m (view c t) (events_of i tr) (view c' t').
Proof.
  intros Hs. revert t.
  induction Hs as [c|n c1 j evs c2 tr c3 H1 _ IH|n fh fg c1 tr c3 _ IH]; intros t Ht.
  - exists t, 0. by repeat constructor.
  - destruct H1 as [c1 j tj evs cf Hj Hstep]. rewrite events_of_app.
    destruct (decide (i = j)) as [->|Hij].
    + assert (tj = t) as -> by congruence. rewrite events_of_own.
      destruct (IH (Thread (t_err t) cf.1 (w_panic cf.2) (w_depth cf.2)))
        as (t' & m & Ht' & He & Hm & Hi).
      { simpl. apply list_lookup_insert_eq. by eapply lookup_lt_Some. }
      rewrite view_commit in Hi. exists t', (S m).
      split_and!; [done|done|lia|]. by eapply isteps_own.
    + rewrite events_of_other by done.
      destruct (IH t) as (t' & m & Ht' & He & Hm & Hi).
      { simpl. by rewrite list_lookup_insert_ne by done. }
      rewrite view_commit_other in Hi. exists t', m.
      split_and!; [done|done|lia|]. by eapply isteps_other.
  - destruct (IH t Ht) as (t' & m & Ht' & He & Hm & Hi).
    rewrite view_env_write in Hi. exists t', m.
    split_and!; [done..|]. by eapply isteps_other.
Qed.

(** Every goroutine of the pool after a run was one before it. *)
Lemma csteps_lookup_inv n c tr c' i t' :
  csteps n c tr c' → c_threads c' !! i = Some t' →
  ∃ t, c_threads c !! i = Some t.
Proof.
  intros Hs Ht'. apply lookup_lt_is_Some.
  rewrite <-(csteps_length _ _ _ _ Hs). by eapply lookup_lt_Some.
Qed.

(** *** The statements left *)

Lemma pool_fuel_insert (ts : list thread) i t t' :
  ts !! i = Some t →
  sum_list (point_fuel ∘ t_point <$> <[i := t']> ts) + point_fuel (t_point t) =
  sum_list (point_fuel ∘ t_point <$> ts) + point_fuel (t_point t').
Proof.
  revert i. induction ts as [|t0 ts IH]; intros [|i] Hi; simplify_eq/=; [lia|].
  specialize (IH i Hi). lia.
Qed.

Lemma cstep_fuel c i evs c' : cstep c i evs c' → pool_fuel c' < pool_fuel c.
Proof.
  intros [c0 i0 t evs0 cf Ht Hs%step_fuel]. unfold pool_fuel. simpl in *.
  pose proof (pool_fuel_insert _ _ _
    (Thread (t_err t) cf.1 (w_panic cf.2) (w_depth cf.2)) Ht) as Hf.
  simpl in Hf. lia.
Qed.

Lemma csteps_fuel n c tr c' : csteps n c tr c' → n + pool_fuel c' ≤ pool_fuel c.
Proof.
  induction 1 as [|n c1 i evs c2 tr c3 H1 _ IH|]; [done| |done].
  apply cstep_fuel in H1. lia.
Qed.

(** A goroutine whose [Guard] has not ended can execute a statement. *)
Lemma cstep_of_ready i c t :
  c_threads c !! i = Some t → final (t_point t) = None → is_Some (cstep_of i c).
Proof.
  intros Ht Hf. unfold cstep_of. rewrite Ht. simpl.
  destruct (guard_step (t_err t) (view c t)) as [r|] eqn:E; [by eexists|].
  apply guard_step_final in E as [o Ho]. simpl in Ho. congruence.
Qed.

(** An event of a run belongs to a goroutine of the pool. *)
Lemma csteps_events_valid n c tr c' i e :
  csteps n c tr c' → (i, e) ∈ tr → is_Some (c_threads c !! i).
Proof.
  induction 1 as [|n c1 j evs c2 tr c3 H1 H2 IH|]; [by intros ?%elem_of_nil| |done].
  intros [(e' & [= -> ->] & _)%list_elem_of_fmap_1|He]%elem_of_app.
  - destruct H1. by eexists.
  - destruct H1 as [c1 j t evs cf Ht _]. destruct (IH He) as [t' Ht'].
    simpl in Ht'. apply lookup_lt_is_Some. apply lookup_lt_Some in Ht'.
    by rewrite length_insert in Ht'.
Qed.

Lemma csteps_events_none n c tr c' i :
  csteps n c tr c' → c_threads c !! i = None → events_of i tr = [].
Proof.
  intros Hs Hi. unfold events_of. rewrite filter_none; [done|].
  apply Forall_forall. intros [j e] He ?; simplify_eq/=.
  destruct (csteps_events_valid _ _ _ _ _ _ Hs He) as [? ?]. congruence.
Qed.

(** *** Schedules *)

Lemma point_fuel_0 (p : point) : point_fuel p = 0 → is_Some (final p).
Proof. destruct p; simpl; intros; try lia; by eexists. Qed.

Lemma turns_of_cons_eq i sched : turns_of i (i :: sched) = S (turns_of i sched).
Proof. unfold turns_of. by rewrite filter_cons_True. Qed.

Lemma turns_of_cons_ne i j sched : j ≠ i → turns_of i (j :: sched) = turns_of i sched.
Proof. intros Hij. unfold turns_of. by rewrite filter_cons_False. Qed.

(** A step of a goroutine leaves enough turns for what is left. *)
Lemma cstep_enough_turns i c evs c' sched :
  cstep c i evs c' → enough_turns (i :: sched) c → enough_turns sched c'.
Proof.
  intros [c0 i0 t evs0 cf Ht Hs%step_fuel] He j tj. simpl in *.
  destruct (decide (i0 = j)) as [->|Hij].
  - rewrite list_lookup_insert_eq by (by eapply lookup_lt_Some).
    intros [= <-]. specialize (He j t Ht). rewrite turns_of_cons_eq in He.
    simpl. lia.
  - rewrite list_lookup_insert_ne by done. intros Hj.
    specialize (He j tj Hj). by rewrite turns_of_cons_ne in He.
Qed.

(** A turn that is lost was not needed. *)
Lemma lost_turn_enough i c sched :
  cstep_of i c = None → enough_turns (i :: sched) c → enough_turns sched c.
Proof.
  intros Hn He j t Ht. specialize (He j t Ht).
  destruct (decide (i = j)) as [->|Hij]; [|by rewrite turns_of_cons_ne in He].
  destruct (final (t_point t)) as [o|] eqn:Hf.
  - destruct (t_point t); simpl in *; try done; lia.
  - destruct (cstep_of_ready j c t Ht Hf) as [? ?]. congruence.
Qed.

(** A schedule with enough turns for every goroutine runs every [Guard]
    to its end. *)
Lemma crun_final sched c : enough_turns sched c → pool_final (crun sched c).2.
Proof.
  revert c. induction sched as [|i sched IH]; intros c He; simpl.
  - apply Forall_lookup. intros i t Ht. apply point_fuel_0.
    specialize (He i t Ht). unfold turns_of in He. simpl in He. lia.
  - destruct (cstep_of i c) as [[evs c']|] eqn:E; simpl.
    + apply IH. apply cstep_of_cstep in E. by eapply cstep_enough_turns.
    + apply IH. by eapply lost_turn_enough.
Qed.

(** What a run leaves of one goroutine of a safe pool. *)
Lemma csteps_thread_safe `{!HooksReturn} n c tr c' :
  pool_safe c → csteps n c tr c' →
  ∀ i t, c_threads c !! i = Some t → ∃ t',
    c_threads c' !! i = Some t' ∧ is_Some (t_err t') ∧
    safe_point (t_point t') ∧ Forall (λ e, ¬ is_abrupt e) (events_of i tr) ∧
    StronglySorted before (events_of i tr).
Proof.
  intros Hsafe Hs i t Ht.
  destruct (csteps_isteps _ _ _ _ i t Hs Ht) as (t' & m & Ht' & He & _ & Hi).
  destruct (Forall_lookup_1 _ _ _ _ Hsafe Ht) as [[l Hl] Hp].
  rewrite Hl in Hi. destruct (isteps_safe _ _ _ _ _ Hi Hp) as [Hp' Hev].
  destruct (isteps_ranks _ _ _ _ _ Hi) as [_ Hss].
  exists t'. rewrite He, Hl. by eauto.
Qed.

End laws.

(** ** Theorems *)

Section theorems.
Context `{Hooks}.
Implicit Types (c : pool) (t : thread) (i n : nat) (tr : list (nat * event)).

(** C36: any number of goroutines can be inside [Guard] at once.  With
    observers that return and every [err] non-nil, in every run of the
    pool, whatever the interleaving of the statements of the goroutines
    and whatever else writes the variables and the observer variables in
    between: no panic leaves the [Guard] of any goroutine and no
    goroutine is ended; the goroutines execute no more statements than
    they had left; the events of each goroutine come in the order of the
    statements of [Guard], and each goroutine writes through its [err]
    at most once.  And no [Guard] waits for another: a schedule that
    gives every goroutine the turns its [Guard] may need runs every
    [Guard] to its end. *)
Theorem Guards_safe_concurrently `{!HooksReturn} n c tr c' :
  pool_safe c → csteps n c tr c' →
  pool_safe c' ∧
  Forall (λ e, ¬ is_abrupt e.2) tr ∧
  n + pool_fuel c' ≤ pool_fuel c ∧
  (∀ i, StronglySorted before (events_of i tr) ∧
        length (filter is_store (events_of i tr)) ≤ 1) ∧
  (∀ sched, enough_turns sched c' → pool_final (crun sched c').2).
Proof.
  intros Hsafe Hs. pose proof (csteps_thread_safe _ _ _ _ Hsafe Hs) as Hview.
  split_and!.
  - apply Forall_lookup. intros i t' Ht'.
    destruct (csteps_lookup_inv _ _ _ _ _ _ Hs Ht') as [t Ht].
    destruct (Hview i t Ht) as (t2 & Ht2 & ? & ? & _). by simplify_eq.
  - apply Forall_forall. intros [i e] He.
    destruct (csteps_events_valid _ _ _ _ _ _ Hs He) as [t Ht].
    destruct (Hview i t Ht) as (_ & _ & _ & _ & Hev & _).
    by apply (proj1 (Forall_forall _ _) Hev), elem_of_events_of.
  - by apply (csteps_fuel _ _ tr).
  - intros i.
    assert (StronglySorted before (events_of i tr)) as Hss.
    { destruct (c_threads c !! i) as [t|] eqn:Ht.
      - by destruct (Hview i t Ht) as (_ & _ & _ & _ & _ & ?).
      - rewrite (csteps_events_none _ _ _ _ _ Hs Ht). constructor. }
    split; [done|]. apply (StronglySorted_filter_length before); [|done].
    intros x y Hx _. by apply before_store.
  - intros sched. apply crun_final.
Qed.

End theorems.

(** ** On concrete runs *)

Module ConcurrentRuns.
Import Recording.

(** Two goroutines whose functions panicked, with 42 and with ["boom"],
    run their deferred [Guard(&err)] on the same [err], both observers
    recording. *)
Definition two_guards : pool :=
  Pool {[ 1 := VNil ]} (Globals (Some 2) (Some (3, 4)))
    [enter (Some 1) [] (Some (VInt 42)); enter (Some 1) [] (Some (VString "boom"))].

(** Goroutine 0 runs up to its assignment, goroutine 1 runs its [Guard]
    from entry to end, then goroutine 0 assigns. *)
Definition a_schedule : list nat := [0; 0; 0; 0; 0; 0; 1; 1; 1; 1; 1; 1; 1; 0].

(** [*err] holds the error of the goroutine that assigned last, and what
    the observers recorded is the payload of the other. *)
Lemma two_guards_run :
  (crun a_schedule two_guards).1.1 = 14 ∧
  c_heap (crun a_schedule two_guards).2 =
  {[ 1 := VError (errors_New "panic: 42"); 2 := VString "boom";
     3 := VString "context.TODO"; 4 := VString "boom" ]} ∧
  pool_final (crun a_schedule two_guards).2.
Proof. split_and!; [by vm_compute..|]. apply (bool_decide_unpack _). by vm_compute. Qed.

Lemma two_guards_safe : pool_safe two_guards.
Proof. apply (bool_decide_unpack _). by vm_compute. Qed.

Lemma Guards_safe_concurrently_witness :
  pool_safe (crun a_schedule two_guards).2 ∧
  Forall (λ e, ¬ is_abrupt e.2) (crun a_schedule two_guards).1.2.
Proof.
  destruct (Guards_safe_concurrently (H:=recording_hooks) _ two_guards _ _
    two_guards_safe (crun_csteps a_schedule two_guards))
    as (H1 & H2 & _).
  by split.
Defined.

End ConcurrentRuns.
