(* ===== verification/Isolation.v ===== *)
(** * Isolation: goroutines that use [Guard] as the package means it

    [Concurrent.v] lets the goroutines share anything and shows that no
    [Guard] breaks.  This file adds the discipline the package is written
    for, and shows what it buys: every goroutine gets the result it would
    get alone.

    The discipline ([disciplined]):
    - every goroutine hands [Guard] an [err] of its own ([own_cells]);
    - the observers are configured once: those that are set, and those a
      [Guard] has already read into its local, assign neither [OnGuard]
      nor [OnGuardWithContext] and leave the [err] variables of the
      goroutines alone ([Leaves], [configured], [point_configured]);
    - whatever else runs in the program does the same ([rely]).
    The discipline is relative to a list [X] of further variables that
    the observers and the rest of the program leave alone: what the
    theorems say of them is that [Guard] leaves them alone as well.

    - [dsteps] is a run of the pool in which the rest of the program keeps
      to [rely]; every such run is a run of [Concurrent.csteps].
    - [wagree] relates the state a goroutine sees in the pool to the state
      of a run of its [Guard] alone: same observer variables, same panic
      state, same value of its own [err] variable.  A statement of [Guard]
      keeps the relation ([step_alone]), a statement of another goroutine
      does as well ([step_guarantee]), and so does the rest of the program.
      That is a simulation of the pool, seen from one goroutine, by the
      machine of [Machine.v].

    Complete runs of a pool agree on all these variables whatever the
    schedule was ([Guards_confluent]).  What the discipline does not give
    is atomicity of a [Guard] as a whole: the calls of the observers of
    several goroutines interleave, and what the observers write depends
    on the schedule ([IsolationRuns.observer_calls_interleave]). *)

From S2P Require Import Prelude Effects GoValue Runtime Hooks Guard.
From S2P Require Import Machine Interference Concurrent.

Local Open Scope go_scope.

(** ** Computations that leave variables alone *)

(** [m] assigns no package-level variable and none of the variables [L]. *)
Class Leaves {G A} (L : list nat) (m : go G A) : Prop :=
  leaves : ∀ w, w_globals (m w).2 = w_globals w ∧
                ∀ l, l ∈ L → w_heap (m w).2 !! l = w_heap w !! l.

Section leaves.
Context {G : Type} (L : list nat).
Implicit Types (w : world G) (v : value).

#[export] Instance ret_leaves {A} (a : A) : Leaves (G:=G) L (ret a).
Proof. by intros w. Qed.

#[export] Instance throw_leaves {A} v : Leaves (G:=G) (A:=A) L (throw v).
Proof. by intros w. Qed.

#[export] Instance gopanic_leaves {A} v : Leaves (G:=G) (A:=A) L (gopanic v).
Proof. by intros w. Qed.

#[export] Instance Goexit_leaves {A} : Leaves (G:=G) (A:=A) L Goexit.
Proof. by intros w. Qed.

#[export] Instance bind_leaves {A B} (m : go G A) (k : A → go G B) :
  Leaves L m → (∀ a, Leaves L (k a)) → Leaves L (bind m k).
Proof.
  intros Hm Hk w. unfold bind. destruct (Hm w) as [Hg Hh].
  destruct (m w) as [[a|q|q] w']; [|done..]. simpl in *.
  destruct (Hk a w') as [Hg' Hh']. split; [congruence|].
  intros l Hl. by rewrite Hh', Hh.
Qed.

#[export] Instance recover_leaves : Leaves L (recover (G:=G)).
Proof. intros w. unfold recover. by destruct (w_panic w), (w_depth w). Qed.

#[export] Instance load_leaves p : Leaves (G:=G) L (load p).
Proof. destruct p; [by intros w|apply _]. Qed.

#[export] Instance read_global_leaves {A} (f : G → A) : Leaves L (read_global f).
Proof. by intros w. Qed.

#[export] Instance call_leaves {A} (f : go G A) : Leaves L f → Leaves L (call f).
Proof. intros Hf w. rewrite run_call. apply (Hf (set_depth _ w)). Qed.

(** An assignment to a variable that is not among [L]. *)
Lemma store_leaves l v : l ∉ L → Leaves (G:=G) L (store (Some l) v).
Proof.
  intros Hl w. split; [done|]. intros l' Hl'. simpl.
  apply lookup_insert_ne. by intros ->.
Qed.

End leaves.

(** ** The discipline *)

Section discipline.
Context `{Hooks}.

(** The observers that are set keep to [L]. *)
Definition configured (L : list nat) (g : rg_globals) : Prop :=
  (∀ fn r, OnGuard g = Some fn → Leaves L (hook_body fn r)) ∧
  (∀ fn c r, OnGuardWithContext g = Some fn → Leaves L (ctx_hook_body fn c r)).

(** The observer a [Guard] has read into its local [fn] keeps to [L]. *)
Definition point_configured (L : list nat) (p : point) : Prop :=
  match p with
  | AtCallOnGuard _ r fn => Leaves L (hook_body fn r)
  | AtCallOnGuardWithContext c r fn => Leaves L (ctx_hook_body fn c r)
  | _ => True
  end.

(** The [err] variables of the goroutines of the pool. *)
Definition cells (c : pool) : list nat := omap t_err (c_threads c).

(** No two goroutines were given the same variable. *)
Definition own_cells (c : pool) : Prop := NoDup (cells c).

(** The discipline of the package, with [X] the other variables that
    observers and program leave alone. *)
Definition disciplined (X : list nat) (c : pool) : Prop :=
  own_cells c ∧ configured (cells c ++ X) (c_globals c) ∧
  Forall (λ t, point_configured (cells c ++ X) (t_point t)) (c_threads c).

(** What the rest of the program may write: anything but the observer
    variables, the [err] variables of the goroutines and [X]. *)
Definition rely (X : list nat) (c : pool) (fh : gmap nat value → gmap nat value)
    (fg : rg_globals → rg_globals) : Prop :=
  fg (c_globals c) = c_globals c ∧
  ∀ l, l ∈ cells c ++ X → fh (c_heap c) !! l = c_heap c !! l.

(** Runs of a pool in a program that keeps to [rely]. *)
Inductive dsteps (X : list nat) : nat → pool → list (nat * event) → pool → Prop :=
  | dsteps_refl c : dsteps X 0 c [] c
  | dsteps_thread n c1 i evs c2 tr c3 :
      cstep c1 i evs c2 → dsteps X n c2 tr c3 →
      dsteps X (S n) c1 ((pair i <$> evs) ++ tr) c3
  | dsteps_env n fh fg c1 tr c3 :
      rely X c1 fh fg → dsteps X n (env_write fh fg c1) tr c3 →
      dsteps X n c1 tr c3.

(** A goroutine whose deferred [Guard] is about to run. *)
Definition entered (t : thread) : Prop :=
  ∃ opts, t_point t = entry opts ∧ t_depth t = 0.

(** No observer is set. *)
Definition unobserved_pool (c : pool) : Prop :=
  OnGuard (c_globals c) = None ∧ OnGuardWithContext (c_globals c) = None.

(** Two states that one goroutine cannot tell apart while it is inside
    [Guard(&l, ...)]: the observer variables, its panic state and [l]
    are the same. *)
Definition wagree (l : nat) (w1 w2 : rg_world) : Prop :=
  w_globals w1 = w_globals w2 ∧ w_panic w1 = w_panic w2 ∧
  w_depth w1 = w_depth w2 ∧ w_heap w1 !! l = w_heap w2 !! l.

(** *** The accesses of [Guard] to shared variables *)

(** The variables [Guard] itself touches: the two observer variables,
    which it reads, and [*err], which it assigns.  What the bodies of the
    observers touch is their own business. *)
Inductive var : Type :=
  | VarOnGuard                 (* line 42, fn := OnGuard *)
  | VarOnGuardWithContext      (* line 45, fn := OnGuardWithContext *)
  | VarCell (l : nat).         (* lines 49 and 51, *err = ... *)

Inductive access : Type :=
  | Rd (x : var)
  | Wr (x : var).

(** What the next statement of the [Guard] of a goroutine accesses. *)
Definition next_access (t : thread) : option access :=
  match t_point t with
  | AtOnGuard _ _ => Some (Rd VarOnGuard)
  | AtOnGuardWithContext _ _ => Some (Rd VarOnGuardWithContext)
  | AtStore _ => Wr ∘ VarCell <$> t_err t
  | _ => None
  end.

(** Two accesses to one variable, one of them an assignment. *)
Definition conflicting (a b : access) : Prop :=
  match a, b with
  | Rd _, Rd _ => False
  | Rd x, Wr y | Wr x, Rd y | Wr x, Wr y => x = y
  end.

(** Two goroutines are about to make conflicting accesses: a data race
    of the [Guard]s, that nothing orders. *)
Definition racy (c : pool) : Prop :=
  ∃ i j ti tj a b, i ≠ j ∧
    c_threads c !! i = Some ti ∧ c_threads c !! j = Some tj ∧
    next_access ti = Some a ∧ next_access tj = Some b ∧ conflicting a b.

End discipline.

#[export] Hint Constructors dsteps : go_spec.

(** ** Laws *)

Section laws.
Context `{Hooks}.
Implicit Types (c : pool) (t : thread) (cf : config) (w : rg_world).
Implicit Types (i j n l : nat) (L X : list nat) (p : point).

(** *** Lists of optional variables *)

Lemma omap_insert_same {A B} (f : A → option B) (xs : list A) i x y :
  xs !! i = Some x → f y = f x → omap f (<[i:=y]> xs) = omap f xs.
Proof.
  revert i. induction xs as [|z xs IH]; intros [|i] Hi Hf; simplify_eq/=;
    [by rewrite Hf|by rewrite IH].
Qed.

Lemma omap_NoDup_lookup {A B} (f : A → option B) (xs : list A) i j x y b :
  NoDup (omap f xs) → xs !! i = Some x → xs !! j = Some y →
  f x = Some b → f y = Some b → i = j.
Proof.
  revert i j. induction xs as [|z xs IH]; intros [|i] [|j] Hn Hi Hj Hx Hy;
    simplify_eq/=; try done.
  - rewrite Hx in Hn. apply NoDup_cons in Hn as [[] _].
    apply list_elem_of_omap. eauto using list_elem_of_lookup_2.
  - rewrite Hy in Hn. apply NoDup_cons in Hn as [[] _].
    apply list_elem_of_omap. eauto using list_elem_of_lookup_2.
  - f_equal. destruct (f z); [apply NoDup_cons in Hn as [_ Hn]|]; eauto.
Qed.

(** *** The relation between the states *)

#[export] Instance wagree_equiv l : Equivalence (wagree l).
Proof.
  unfold wagree. split; [by intros w|by intros w1 w2 (-> & -> & -> & ->)|].
  intros w1 w2 w3 (? & ? & ? & ?) (? & ? & ? & ?). split_and!; congruence.
Qed.

Lemma recover_wagree l w1 w2 :
  wagree l w1 w2 →
  (recover w1).1 = (recover w2).1 ∧ wagree l (recover w1).2 (recover w2).2.
Proof.
  destruct w1 as [h1 g1 p1 d1], w2 as [h2 g2 p2 d2].
  intros (Hg & Hp & Hd & Hl). unfold recover. simpl in *. subst.
  by destruct p2, d2.
Qed.

Lemma call_wagree {A} L l (m : rg A) w1 w2 :
  l ∈ L → Leaves L m → wagree l w1 w2 → wagree l (call m w1).2 (call m w2).2.
Proof.
  intros Hl Hm (Hg & Hp & Hd & Hh).
  destruct (leaves (m:=call m) w1) as [Hg1 Hh1], (leaves (m:=call m) w2) as [Hg2 Hh2].
  destruct (call_frame m w1) as [Hp1 Hd1], (call_frame m w2) as [Hp2 Hd2].
  unfold wagree. rewrite Hg1, Hg2, Hp1, Hp2, Hd1, Hd2, Hh1, Hh2 by done. done.
Qed.

Lemma call_returns_tt `{!HooksReturn} (m : rg unit) `{!Returns m} w :
  call m w = (Normal tt, (call m w).2).
Proof.
  pose proof (returns (m:=call m) w) as Hn.
  by destruct (call m w) as [[[]|q|q] w'].
Qed.

(** *** One statement *)

(** The guarantee: a statement of a [Guard] whose observers are
    configured assigns neither observer variable, and no variable of [L]
    but its own [err]. *)
Lemma step_guarantee L err cf evs cf' :
  step err cf evs cf' → configured L (w_globals cf.2) → point_configured L cf.1 →
  w_globals cf'.2 = w_globals cf.2 ∧ point_configured L cf'.1 ∧
  ∀ l, l ∈ L → err ≠ Some l → w_heap cf'.2 !! l = w_heap cf.2 !! l.
Proof.
  intros Hs [Hc1 Hc2] Hp.
  destruct Hs; simpl in *; simplify_eq;
    try match goal with
    | E : recover ?w = _ |- _ =>
        destruct (leaves (L:=L) (m:=recover) w) as [Hg Hh]; rewrite E in Hg, Hh
    | E : call ?m ?w = _ |- _ =>
        destruct (leaves (L:=L) (m:=call m) w) as [Hg Hh]; rewrite E in Hg, Hh
    end; simpl in *; split_and!; eauto.
  intros l0 Hl0 Hne. apply lookup_insert_ne. congruence.
Qed.

(** A statement of [Guard] run in a state the goroutine cannot tell
    apart shows the same events, leads to the same control point and to
    states it cannot tell apart. *)
Lemma step_alone `{!HooksReturn} L l cf evs cf' w :
  l ∈ L → step (Some l) cf evs cf' → point_configured L cf.1 →
  wagree l cf.2 w →
  ∃ w', step (Some l) (cf.1, w) evs (cf'.1, w') ∧ wagree l cf'.2 w'.
Proof.
  intros Hl Hs Hp Hw. pose proof Hw as (Hg & Hpa & Hd & Hh).
  destruct Hs; simpl in *; simplify_eq;
    try (eexists; split; [econstructor; by rewrite <-?Hg|done]);
    try match goal with
    | E : recover ?w1 = _ |- _ =>
        destruct (recover_wagree _ _ _ Hw) as [Ho Hw']; rewrite E in Ho, Hw';
        exists (recover w).2; split; [|done];
        constructor; [|done..]; by destruct (recover w); simplify_eq/=
    | E : call ?m ?w1 = (Normal _, _) |- _ =>
        pose proof (call_wagree L l _ _ _ Hl Hp Hw) as Hw'; rewrite E in Hw';
        eexists; split; [|done]; constructor; apply call_returns_tt, _
    | E : call ?m ?w1 = _ |- _ =>
        pose proof (returns (m:=call m) w1) as Hn; by rewrite E in Hn
    end.
  eexists. split; [by constructor|]. unfold wagree. simpl.
  by rewrite !lookup_insert_eq.
Qed.

(** *** The pool *)

Lemma cells_commit c i t cf :
  c_threads c !! i = Some t → cells (commit i t cf c) = cells c.
Proof. intros Ht. unfold cells. simpl. by eapply omap_insert_same. Qed.

Lemma cstep_cells c i evs c' : cstep c i evs c' → cells c' = cells c.
Proof. destruct 1. by apply cells_commit. Qed.

Lemma elem_of_cells c i t l :
  c_threads c !! i = Some t → t_err t = Some l → l ∈ cells c.
Proof.
  intros Ht Hl. apply list_elem_of_omap. eauto using list_elem_of_lookup_2.
Qed.

(** The discipline is an invariant of the pool. *)
Lemma cstep_disciplined X c i evs c' :
  cstep c i evs c' → disciplined X c → disciplined X c'.
Proof.
  intros Hs (Hn & Hc & Hp). pose proof (cstep_cells _ _ _ _ Hs) as Hcells.
  destruct Hs as [c i t evs cf Ht Hstep]. unfold disciplined, own_cells.
  rewrite Hcells.
  destruct (step_guarantee (cells c ++ X) _ _ _ _ Hstep Hc) as (Hg & Hp' & _);
    [by eapply (Forall_lookup_1 _ _ _ _ Hp)|].
  simpl in *. rewrite Hg. split_and!; [done..|]. by apply Forall_insert.
Qed.

Lemma env_write_disciplined X c fh fg :
  rely X c fh fg → disciplined X c → disciplined X (env_write fh fg c).
Proof. intros [Hg _] (Hn & Hc & Hp). split_and!; simpl; by rewrite ?Hg. Qed.

Lemma dsteps_disciplined X n c tr c' :
  dsteps X n c tr c' → disciplined X c → disciplined X c'.
Proof.
  induction 1; eauto using cstep_disciplined, env_write_disciplined.
Qed.

Lemma dsteps_cells X n c tr c' : dsteps X n c tr c' → cells c' = cells c.
Proof.
  induction 1 as [|n c1 i evs c2 tr c3 H1 _ IH|]; [done| |done].
  by rewrite IH, (cstep_cells _ _ _ _ H1).
Qed.

(** With no observer set and every [Guard] at its entry the discipline
    holds for every [X]: there is nobody to keep to it. *)
Lemma unobserved_disciplined X c :
  own_cells c → unobserved_pool c → Forall entered (c_threads c) →
  disciplined X c.
Proof.
  intros Hn [H1 H2] He. split_and!; [done|split; intros *; by rewrite ?H1, ?H2|].
  eapply Forall_impl; [exact He|]. by intros t (opts & -> & _).
Qed.

(** Runs under the discipline are runs of the pool, and the run of a
    schedule is one. *)
Lemma dsteps_csteps X n c tr c' : dsteps X n c tr c' → csteps n c tr c'.
Proof. induction 1; eauto with go_spec. Qed.

Lemma crun_dsteps X sched c :
  dsteps X (crun sched c).1.1 c (crun sched c).1.2 (crun sched c).2.
Proof.
  revert c. induction sched as [|i sched IH]; intros c; simpl; [constructor|].
  destruct (cstep_of i c) as [[evs c']|] eqn:E; [|apply IH].
  simpl. eapply dsteps_thread; [by apply cstep_of_cstep|apply IH].
Qed.

(** *** The frame *)

(** The observer variables are as they were configured, and so is every
    variable of [X] that is not the [err] of a goroutine. *)
Lemma dsteps_frame X n c tr c' :
  dsteps X n c tr c' → disciplined X c →
  c_globals c' = c_globals c ∧
  ∀ l, l ∈ X → l ∉ cells c → c_heap c' !! l = c_heap c !! l.
Proof.
  induction 1 as [c|n c1 j evs c2 tr c3 H1 _ IH|n fh fg c1 tr c3 Hr _ IH];
    intros Hd; [done| |].
  - destruct (IH (cstep_disciplined _ _ _ _ _ H1 Hd)) as [Hg Hh].
    rewrite Hg. rewrite (cstep_cells _ _ _ _ H1) in Hh.
    destruct Hd as (_ & Hc & Hp). destruct H1 as [c1 j tj evs cf Hj Hstep].
    destruct (step_guarantee (cells c1 ++ X) _ _ _ _ Hstep Hc
      (Forall_lookup_1 _ _ _ _ Hp Hj)) as (Hg' & _ & Hh').
    split; [done|]. intros l Hl Hnl. rewrite Hh by done. simpl.
    apply Hh'; [apply elem_of_app; by right|]. intros Hj'. apply Hnl.
    by eapply elem_of_cells.
  - destruct (IH (env_write_disciplined _ _ _ _ Hr Hd)) as [Hg Hh].
    destruct Hr as [Hg' Hh']. rewrite Hg. split; [done|].
    intros l Hl Hnl. rewrite Hh by done. simpl. apply Hh'.
    apply elem_of_app. by right.
Qed.

(** *** The simulation *)

(** The statement of another goroutine changes nothing goroutine [i] can
    tell. *)
Lemma cstep_other X c j evs c' i t l :
  cstep c j evs c' → disciplined X c → i ≠ j →
  c_threads c !! i = Some t → t_err t = Some l →
  c_threads c' !! i = Some t ∧ wagree l (view c' t).2 (view c t).2.
Proof.
  intros Hs (Hn & Hc & Hp) Hij Ht Hl. destruct Hs as [c j tj evs cf Hj Hstep].
  destruct (step_guarantee _ _ _ _ _ Hstep Hc (Forall_lookup_1 _ _ _ _ Hp Hj))
    as (Hg & _ & Hh).
  split; [simpl; by rewrite list_lookup_insert_ne|].
  unfold wagree. simpl. split_and!; [done..|].
  apply Hh; [apply elem_of_app; left; by eapply elem_of_cells|]. intros Hj'.
  by pose proof (omap_NoDup_lookup _ _ _ _ _ _ _ Hn Ht Hj Hl Hj').
Qed.

(** Its own statement is a statement of its [Guard] alone. *)
Lemma cstep_own `{!HooksReturn} X c i evs c' t l w :
  cstep c i evs c' → disciplined X c →
  c_threads c !! i = Some t → t_err t = Some l → wagree l (view c t).2 w →
  ∃ t' w', c_threads c' !! i = Some t' ∧ t_err t' = Some l ∧
    step (Some l) (t_point t, w) evs (t_point t', w') ∧
    wagree l (view c' t').2 w'.
Proof.
  intros Hs (Hn & Hc & Hp) Ht Hl Hw. destruct Hs as [c i ti evs cf Hi Hstep].
  assert (ti = t) as -> by congruence. rewrite Hl in Hstep.
  destruct (step_alone (cells c ++ X) l (view c t) evs cf w)
    as (w' & Hs' & Hw'); [|done|by eapply (Forall_lookup_1 _ _ _ _ Hp)|done|].
  { apply elem_of_app; left. by eapply elem_of_cells. }
  exists (Thread (Some l) cf.1 (w_panic cf.2) (w_depth cf.2)), w'. simpl.
  rewrite Hl, list_lookup_insert_eq by by eapply lookup_lt_Some.
  split_and!; [done..|]. by destruct cf as [p []].
Qed.

(** What goroutine [i] sees of a run of the pool is a run of its [Guard]
    alone: from any state it cannot tell apart from the one it started
    in, [Guard] alone shows the events of [i] and reaches the control
    point of [i] in a state the goroutine cannot tell apart from the
    pool's. *)
Lemma dsteps_alone `{!HooksReturn} X n c tr c' i t l w :
  dsteps X n c tr c' → disciplined X c →
  c_threads c !! i = Some t → t_err t = Some l → wagree l (view c t).2 w →
  ∃ t' w', c_threads c' !! i = Some t' ∧ t_err t' = Some l ∧
    steps (Some l) (t_point t, w) (events_of i tr) (t_point t', w') ∧
    wagree l (view c' t').2 w'.
Proof.
  intros Hs. revert t w.
  induction Hs as [c|n c1 j evs c2 tr c3 H1 _ IH|n fh fg c1 tr c3 Hr _ IH];
    intros t w Hd Ht Hl Hw.
  - exists t, w. split_and!; [done..|constructor|done].
  - pose proof (cstep_disciplined _ _ _ _ _ H1 Hd) as Hd2.
    rewrite events_of_app. destruct (decide (i = j)) as [->|Hij].
    + rewrite events_of_own.
      destruct (cstep_own _ _ _ _ _ _ _ _ H1 Hd Ht Hl Hw)
        as (t2 & w2 & Ht2 & Hl2 & Hs2 & Hw2).
      destruct (IH t2 w2 Hd2 Ht2 Hl2 Hw2) as (t' & w' & Ht' & He & Hst & Hw').
      exists t', w'. split_and!; [done..| |done]. by eapply steps_step.
    + rewrite events_of_other by done.
      destruct (cstep_other _ _ _ _ _ _ _ _ H1 Hd Hij Ht Hl) as [Ht2 Hw2].
      apply (IH t w Hd2 Ht2 Hl). by etrans.
  - apply (IH t w); [by apply env_write_disciplined|done..|].
    etrans; [|done]. destruct Hr as [Hg Hh]. unfold wagree. simpl.
    split_and!; [done..|]. apply Hh. apply elem_of_app. left.
    by eapply elem_of_cells.
Qed.

(** When the [Guard] of a goroutine has ended, it ended as the function
    [Guard] does alone on the state at entry, and [*err] holds what
    [Guard] alone leaves there. *)
Lemma dsteps_final_cell `{!HooksReturn} X n c tr c' i l opts q t' :
  dsteps X n c tr c' → disciplined X c →
  c_threads c !! i = Some (enter (Some l) opts q) →
  c_threads c' !! i = Some t' → is_Some (final (t_point t')) →
  let w := World (c_heap c) (c_globals c) q 0 in
  final (t_point t') = Some (Guard (Some l) opts w).1 ∧
  c_heap c' !! l = w_heap (Guard (Some l) opts w).2 !! l.
Proof.
  intros Hs Hd Ht Ht' [o Ho] w.
  destruct (dsteps_alone _ _ _ _ _ i _ l w Hs Hd Ht eq_refl)
    as (t2 & w' & Ht2 & _ & Hst & (_ & _ & _ & Hl)); [done|].
  assert (t2 = t') as -> by congruence.
  rewrite (steps_final_Guard _ _ _ _ _ _ _ Hst Ho). by rewrite Ho.
Qed.

(** *** Complete runs *)

Lemma dsteps_lookup X n c tr c' i t :
  dsteps X n c tr c' → c_threads c !! i = Some t →
  ∃ t', c_threads c' !! i = Some t'.
Proof.
  intros Hs%dsteps_csteps%csteps_length Ht. apply lookup_lt_is_Some.
  rewrite Hs. by eapply lookup_lt_Some.
Qed.

(** A goroutine at the entry of its [Guard], with its [err]. *)
Lemma entered_enter t l :
  entered t → t_err t = Some l → ∃ opts, t = enter (Some l) opts (t_panic t).
Proof. destruct t. intros (opts & ? & ?) ?. exists opts. by simplify_eq/=. Qed.

(** Two complete runs of a pool leave the same in every variable the
    discipline covers. *)
Lemma crun_confluent `{!HooksReturn} X c s1 s2 l :
  disciplined X c → Forall entered (c_threads c) →
  pool_final (crun s1 c).2 → pool_final (crun s2 c).2 →
  l ∈ cells c ++ X →
  c_heap (crun s1 c).2 !! l = c_heap (crun s2 c).2 !! l.
Proof.
  intros Hd He Hf1 Hf2 Hl.
  pose proof (crun_dsteps X s1 c) as H1. pose proof (crun_dsteps X s2 c) as H2.
  destruct (decide (l ∈ cells c)) as [Hc|Hc].
  - apply list_elem_of_omap in Hc as (t & [i Ht]%list_elem_of_lookup_1 & Hl').
    destruct (entered_enter t l (Forall_lookup_1 _ _ _ _ He Ht) Hl') as [opts Et].
    rewrite Et in Ht.
    destruct (dsteps_lookup _ _ _ _ _ _ _ H1 Ht) as [t1 Ht1].
    destruct (dsteps_lookup _ _ _ _ _ _ _ H2 Ht) as [t2 Ht2].
    destruct (dsteps_final_cell _ _ _ _ _ _ _ _ _ _ H1 Hd Ht Ht1
      (Forall_lookup_1 _ _ _ _ Hf1 Ht1)) as [_ ->].
    by destruct (dsteps_final_cell _ _ _ _ _ _ _ _ _ _ H2 Hd Ht Ht2
      (Forall_lookup_1 _ _ _ _ Hf2 Ht2)) as [_ ->].
  - apply elem_of_app in Hl as [?|Hl]; [done|].
    destruct (dsteps_frame _ _ _ _ _ H1 Hd) as [_ Hx1].
    destruct (dsteps_frame _ _ _ _ _ H2 Hd) as [_ Hx2].
    by rewrite Hx1, Hx2.
Qed.

(** *** Races *)

#[export] Instance var_eq_dec : EqDecision var.
Proof. solve_decision. Defined.

#[export] Instance conflicting_dec a b : Decision (conflicting a b).
Proof. destruct a, b; simpl; apply _. Defined.

(** The only accesses of two [Guard]s that conflict are two assignments
    through the same [err]. *)
Lemma racy_stores c :
  racy c ↔ ∃ i j ti tj l, i ≠ j ∧
    c_threads c !! i = Some ti ∧ c_threads c !! j = Some tj ∧
    next_access ti = Some (Wr (VarCell l)) ∧
    next_access tj = Some (Wr (VarCell l)).
Proof.
  split.
  - intros (i & j & ti & tj & a & b & Hij & Hi & Hj & Ha & Hb & Hc).
    unfold next_access in *.
    destruct (t_err ti) as [li|] eqn:Ei, (t_err tj) as [lj|] eqn:Ej,
      (t_point ti) eqn:Pi, (t_point tj) eqn:Pj; simplify_eq/=; try done.
    exists i, j, ti, tj, lj. by rewrite Pi, Pj, Ei, Ej.
  - intros (i & j & ti & tj & l & Hij & Hi & Hj & Ha & Hb).
    by exists i, j, ti, tj, (Wr (VarCell l)), (Wr (VarCell l)).
Qed.

Lemma next_access_store t l :
  next_access t = Some (Wr (VarCell l)) ↔
  t_err t = Some l ∧ ∃ r, t_point t = AtStore r.
Proof.
  unfold next_access. destruct (t_point t), (t_err t); simpl; split;
    try (intros [[=] [? [=]]]); try (intros [=]); subst; eauto.
Qed.

(** With an [err] of its own for each goroutine there is no race between
    the [Guard]s. *)
Lemma own_cells_race_free c : own_cells c → ¬ racy c.
Proof.
  intros Hn (i & j & ti & tj & l & Hij & Hi & Hj & Ha & Hb)%racy_stores.
  apply next_access_store in Ha as [Ha _], Hb as [Hb _].
  apply Hij. by eapply (omap_NoDup_lookup t_err).
Qed.

(** *** What [Guard] alone leaves in [*err] *)

Lemma Guard_cell `{!HooksReturn} l opts w r :
  Forall is_Some opts → w_panic w = Some r → r ≠ VNil → w_depth w = 0 →
  w_heap (Guard (Some l) opts w).2 !! l = Some (VError (error_of_panic r)).
Proof.
  intros Hopts Hp Hr Hd.
  rewrite (Guard_recovering _ _ _ r) by (try done; unfold wf_world; congruence).
  destruct (returns_result (notify_OnGuard r) (set_panic None w)) as [[] E1].
  rewrite (run_bind_normal _ _ _ _ _ E1).
  destruct (returns_result (notify_OnGuardWithContext (context_of opts) r)
    (notify_OnGuard r (set_panic None w)).2) as [[] E2].
  rewrite (run_bind_normal _ _ _ _ _ E2), run_store_recovered. simpl.
  apply lookup_insert_eq.
Qed.

Lemma Guard_cell_idle l opts w :
  Forall is_Some opts → w_panic w = None →
  w_heap (Guard (Some l) opts w).2 !! l = w_heap w !! l.
Proof. intros Hopts Hp. by rewrite Guard_idle by auto. Qed.

End laws.

(** ** Theorems *)

Section theorems.
Context `{Hooks}.
Implicit Types (c : pool) (t : thread) (w : rg_world) (opts : list Option).

(** C13: under the discipline of the package, every goroutine gets from
    [Guard] what it would get alone.  Let the goroutines of a program each
    have handed [Guard] an [err] of its own, let the observers be
    configured once (those that are set return, do not assign the
    observer variables and leave the [err] variables and the variables
    [X] alone) and let the rest of the program leave these variables
    alone as well.  Then in every interleaving of the statements of the
    [Guard]s and of the rest of the program: the discipline still holds,
    the observer variables are as configured and the variables [X] are
    as they were; what goroutine [i] did so far is a run of
    [Guard(&l, opts...)] alone from the state [i] entered in, with the
    same events, and [*l] holds what it holds in that run; when the
    [Guard] of [i] has ended it ended as the function [Guard] does on the
    state at entry, and (no option being nil) [*l] holds the converted
    payload of the panic of [i], or what it held at entry when [i] was
    not panicking.  Nothing another goroutine recovers ever shows in
    [*l]. *)
Theorem Guards_isolated `{!HooksReturn} X n c tr c' i l opts p :
  disciplined X c → dsteps X n c tr c' →
  c_threads c !! i = Some (enter (Some l) opts p) →
  let w := World (c_heap c) (c_globals c) p 0 in
  disciplined X c' ∧ c_globals c' = c_globals c ∧
  (∀ x, x ∈ X → x ∉ cells c → c_heap c' !! x = c_heap c !! x) ∧
  ∃ t' w', c_threads c' !! i = Some t' ∧
    steps (Some l) (entry opts, w) (events_of i tr) (t_point t', w') ∧
    c_heap c' !! l = w_heap w' !! l ∧
    (∀ o, final (t_point t') = Some o →
       Guard (Some l) opts w = (o, w') ∧
       (Forall is_Some opts →
        (∀ r, p = Some r → r ≠ VNil →
              c_heap c' !! l = Some (VError (error_of_panic r))) ∧
        (p = None → c_heap c' !! l = c_heap c !! l))).
Proof.
  intros Hd Hs Ht w. destruct (dsteps_frame _ _ _ _ _ Hs Hd) as [Hg Hx].
  split_and!; [by eapply dsteps_disciplined|done..|].
  destruct (dsteps_alone _ _ _ _ _ i _ l w Hs Hd Ht eq_refl)
    as (t' & w' & Ht' & _ & Hst & Hw); [done|].
  exists t', w'. destruct Hw as (_ & _ & _ & Hl).
  split_and!; [done..|]. intros o Ho.
  pose proof (steps_final_Guard _ _ _ _ _ _ _ Hst Ho) as HG.
  split; [done|]. intros Hopts. simpl in Hl. rewrite Hl.
  replace w' with (Guard (Some l) opts w).2 by by rewrite HG.
  split; [intros r -> Hr; by apply Guard_cell|intros ->; by apply Guard_cell_idle].
Qed.


(** C0: complete runs of a pool agree on everything but what the
    observers write.  Whatever the schedules, two runs that took every
    [Guard] of a pool from its entry to its end leave the same value in
    the [err] variable of every goroutine and in every variable that the
    observers leave alone; with no observer set they leave the same
    variables altogether: the [Guard]s of different goroutines commute,
    and running them at once is running them one after the other, in any
    order.  Observers that return are assumed. *)
Theorem Guards_confluent `{!HooksReturn} c s1 s2 :
  Forall entered (c_threads c) →
  pool_final (crun s1 c).2 → pool_final (crun s2 c).2 →
  (∀ X l, disciplined X c → l ∈ cells c ++ X →
     c_heap (crun s1 c).2 !! l = c_heap (crun s2 c).2 !! l) ∧
  (own_cells c → unobserved_pool c →
     c_heap (crun s1 c).2 = c_heap (crun s2 c).2).
Proof.
  intros He Hf1 Hf2. split; [intros X l Hd; by apply crun_confluent|].
  intros Hn Hu. apply map_eq. intros l.
  apply (crun_confluent [l]); [by apply unobserved_disciplined|done..|].
  apply elem_of_app. right. apply list_elem_of_here.
Qed.

End theorems.

(** ** On concrete runs *)

Module IsolationRuns.
Import Recording.

(** Two goroutines whose functions panicked, with ["a"] and with ["b"],
    run their deferred [Guard(&err)], each on an [err] of its own
    (variables 0 and 1); both observers are set and record what they are
    given, [OnGuard] in variable 2 and [OnGuardWithContext] in 3 and 4.
    Variable 5 is a variable of the application that no observer
    assigns. *)
Definition two_workers : pool :=
  Pool {[ 0 := VNil; 1 := VNil; 5 := VInt 7 ]} (Globals (Some 2) (Some (3, 4)))
    [enter (Some 0) [] (Some (VString "a")); enter (Some 1) [] (Some (VString "b"))].

(** Goroutine 0 runs until [OnGuard] has returned, goroutine 1 runs its
    [Guard] from entry to end, then goroutine 0 goes on. *)
Definition interleaved : list nat := [0; 0; 0; 0; 1; 1; 1; 1; 1; 1; 1; 0; 0; 0].

(** The [Guard]s run one after the other, in the order given. *)
Definition serially (order : list nat) : list nat := order ≫= replicate 7.

(** The same goroutines with no observer set. *)
Definition two_quiet_workers : pool :=
  Pool (c_heap two_workers) (Globals None None) (c_threads two_workers).

Lemma two_workers_disciplined : disciplined [5] two_workers.
Proof.
  assert (∀ l v, 2 ≤ l ≤ 4 →
    Leaves (G:=globals nat (nat * nat)) [0; 1; 5] (store (Some l) v)) as Hstore.
  { intros l v Hl. apply store_leaves. rewrite !not_elem_of_cons, elem_of_nil. lia. }
  split_and!; [apply (bool_decide_unpack _); by vm_compute|split|].
  - intros fn r [= <-]. apply Hstore. lia.
  - intros fn c r [= <-]. apply bind_leaves; [|intros _]; apply Hstore; simpl; lia.
  - by repeat constructor.
Qed.

Lemma two_workers_entered : Forall entered (c_threads two_workers).
Proof. repeat constructor; by exists []. Qed.

Lemma interleaved_run :
  c_heap (crun interleaved two_workers).2 =
  {[ 0 := VError (errors_New "panic: a"); 1 := VError (errors_New "panic: b");
     2 := VString "b"; 3 := VString "context.TODO"; 4 := VString "a";
     5 := VInt 7 ]} ∧
  pool_final (crun interleaved two_workers).2.
Proof. split; [by vm_compute|]. apply (bool_decide_unpack _). by vm_compute. Qed.

Lemma Guards_isolated_witness :
  c_heap (crun interleaved two_workers).2 !! 0 =
    Some (VError (error_of_panic (VString "a"))) ∧
  c_heap (crun interleaved two_workers).2 !! 5 = Some (VInt 7) ∧
  c_globals (crun interleaved two_workers).2 = c_globals two_workers.
Proof.
  destruct (Guards_isolated (H:=recording_hooks) [5] _ two_workers _ _ 0 0 []
    (Some (VString "a")) two_workers_disciplined
    (crun_dsteps [5] interleaved two_workers) eq_refl)
    as (_ & Hg & Hx & t' & w' & Ht' & _ & _ & Hf).
  split_and!;
    [|apply Hx; [apply list_elem_of_here|apply (bool_decide_unpack _); by vm_compute]
    |done].
  assert (t_point t' = Returned) as Hp
    by (clear -Ht'; vm_compute in Ht'; by injection Ht' as <-).
  rewrite Hp in Hf. destruct (Hf _ eq_refl) as [_ Hc].
  by apply (Hc (Forall_nil_2 _)).
Defined.

(** With no observer set, the interleaved run leaves what the
    sequential one does. *)
Lemma Guards_confluent_witness :
  c_heap (crun interleaved two_quiet_workers).2 =
  c_heap (crun (serially [0; 1]) two_quiet_workers).2.
Proof.
  apply (Guards_confluent (H:=recording_hooks) two_quiet_workers);
    [apply two_workers_entered|apply (bool_decide_unpack _); by vm_compute..
    |split; by vm_compute].
Defined.


(** Without an [err] of its own for each goroutine the [Guard]s race: in
    the pool of [ConcurrentRuns.two_guards] both goroutines get to the
    assignment of the same variable. *)
Lemma shared_err_races :
  ¬ own_cells ConcurrentRuns.two_guards ∧
  racy (crun [0; 0; 0; 0; 0; 0; 1; 1; 1; 1; 1; 1] ConcurrentRuns.two_guards).2.
Proof.
  split; [apply (bool_decide_unpack _); by vm_compute|].
  exists 0, 1. do 4 eexists. split; [done|]. by vm_compute.
Qed.


End IsolationRuns.
