(* ===== verification/Process.v ===== *)
(** * Process: the goroutines of an application

    guard.go has no goroutines of its own: the concurrency belongs to the
    application, which calls guarded functions and the helpers from as
    many goroutines as it likes.  What the package is for shows at that
    level: a panic that leaves the function a goroutine runs ends the
    whole program, so a goroutine whose calls are behind [Guard] cannot
    take the program down, and one that calls a helper outside any
    barrier does so on the first error.

    - A goroutine is the list of statements it has left to run
      ([goroutine], [stmt]): calls ([Call]) and [go] statements ([Go]).
    - A [process] is the variables the goroutines share, the pool of
      goroutines and whether the program is still running ([status]).
    - [pstep] is the transition relation: some goroutine executes its next
      statement.  A call runs with a panic state of its own, as in
      [Runtime.in_goroutine]; a call that returns lets the goroutine go
      on, [runtime.Goexit] ends the goroutine, a panic ends the program.
      [proc_step] and [proc_run] are the executable versions, by the index
      of the goroutine and by a schedule; [run_all] is a scheduler that
      always runs the first goroutine that has something left.

    What holds of every call holds of the program: calls behind [Guard]
    never end it ([rtc_protected]), and a property of the variables that
    every call keeps, their types for instance ([Typing.v]), holds in
    every state the program reaches ([rtc_keeps]).

    The interleaving is sequentially consistent and at the granularity of
    the calls of the goroutines; [Interference.v] and [Concurrent.v]
    interleave the statements of [Guard] itself. *)

From S2P Require Import Prelude Effects GoValue Runtime Hooks Guard Must Guarded.
From S2P Require Import Typing.

Local Open Scope go_scope.

Section process.
Context `{Hooks}.

#[local] Set Warnings "-register-all".

(** A statement of the function a goroutine runs: a call, or a [go]
    statement with the statements of the new goroutine. *)
Inductive stmt : Type :=
  | Call (f : rg unit)
  | Go (g : list stmt).

(** What a goroutine has left to run. *)
Definition goroutine : Type := list stmt.

(** Whether the program is running or a panic has ended it. *)
Inductive status : Type :=
  | Running
  | Crashed (q : value).   (* "panic: q", exit status 2 *)

Record process : Type := Process {
  p_heap : gmap nat value;      (* the variables *)
  p_globals : rg_globals;       (* OnGuard, OnGuardWithContext *)
  p_pool : list goroutine;
  p_status : status
}.

(** [f()] as a statement: the results are dropped. *)
Definition expr_stmt {A} (f : rg A) : rg unit := f ;; ret tt.

(** The state a call of a goroutine starts in: the shared variables, and
    no panic in flight. *)
Definition p_world (p : process) : rg_world :=
  init_world (p_heap p) (p_globals p).

(** What is left of a goroutine, and of the program, after a call that
    ended with [o]. *)
Definition ended (o : outcome value unit) (rest : goroutine)
  : goroutine * status :=
  match o with
  | Normal _ => (rest, Running)
  | Exited None => ([], Running)
  | Panicked q | Exited (Some q) => ([], Crashed q)
  end.

(** Goroutine [i] executes [s], with [rest] to follow. *)
Definition run_stmt (i : nat) (s : stmt) (rest : goroutine) (p : process)
  : process :=
  match s with
  | Call f =>
      let r := f (p_world p) in
      Process (w_heap r.2) (w_globals r.2)
        (<[i := (ended r.1 rest).1]> (p_pool p)) (ended r.1 rest).2
  | Go g =>
      Process (p_heap p) (p_globals p) (<[i := rest]> (p_pool p) ++ [g]) Running
  end.

(** A step of the program: a goroutine that has something left executes
    its next statement. *)
Inductive pstep : process → process → Prop :=
  | pstep_stmt i p s rest :
      p_status p = Running → p_pool p !! i = Some (s :: rest) →
      pstep p (run_stmt i s rest p).

(** The step of goroutine [i], if it has one. *)
Definition proc_step (i : nat) (p : process) : option process :=
  match p_status p, p_pool p !! i with
  | Running, Some (s :: rest) => Some (run_stmt i s rest p)
  | _, _ => None
  end.

(** The run of a schedule; a turn given to a goroutine that has nothing
    left is lost. *)
Fixpoint proc_run (sched : list nat) (p : process) : process :=
  match sched with
  | [] => p
  | i :: sched' => proc_run sched' (default p (proc_step i p))
  end.

(** The first goroutine that has something left. *)
Definition first_ready (p : process) : option nat :=
  fst <$> list_find (λ g : goroutine, g ≠ []) (p_pool p).

(** Run the first goroutine that has something left, [fuel] times. *)
Fixpoint run_all (fuel : nat) (p : process) : process :=
  match fuel with
  | 0 => p
  | S n =>
      match first_ready p ≫= λ i, proc_step i p with
      | Some p' => run_all n p'
      | None => p
      end
  end.

(** The statements a goroutine has left, those of the goroutines it is
    still to start included. *)
Fixpoint stmt_work (s : stmt) : nat :=
  match s with
  | Call _ => 1
  | Go g => S (foldr (λ s n, stmt_work s + n) 0 g)
  end.

Definition goroutine_work (g : goroutine) : nat :=
  foldr (λ s n, stmt_work s + n) 0 g.

Definition pool_work (pool : list goroutine) : nat :=
  foldr (λ g n, goroutine_work g + n) 0 pool.

Definition work (p : process) : nat := pool_work (p_pool p).

(** Every call of a statement, those of the goroutines it starts
    included, satisfies [P]. *)
Fixpoint stmt_calls (P : rg unit → Prop) (s : stmt) : Prop :=
  match s with
  | Call f => P f
  | Go g => foldr (λ s Q, stmt_calls P s ∧ Q) True g
  end.

Definition pool_calls (P : rg unit → Prop) (p : process) : Prop :=
  Forall (Forall (stmt_calls P)) (p_pool p).

(** The calls that cannot end the program: a function that defers
    [Guard] with a non-nil [err] and no nil option, whatever its body, and
    any function known not to panic (an assignment to an observer
    variable, for instance). *)
Inductive protected : rg unit → Prop :=
  | protected_guarded {A} l opts (body : rg A) :
      Forall is_Some opts →
      protected (expr_stmt (guarded (Some l) opts body))
  | protected_no_panic f : NoPanic f → protected f.

(** The program is running and every goroutine has returned. *)
Definition finished (p : process) : Prop :=
  p_status p = Running ∧ Forall (λ g, g = []) (p_pool p).

End process.

#[export] Hint Constructors pstep protected : go_spec.

(** ** Laws *)

Section laws.
Context `{Hooks}.
Implicit Types (p : process) (g rest : goroutine) (s : stmt) (i n : nat).
Implicit Types (pool : list goroutine) (q : value).

#[export] Instance status_eq_dec : EqDecision status.
Proof. solve_decision. Defined.

#[export] Instance finished_dec p : Decision (finished p).
Proof. unfold finished. apply _. Defined.

(** *** Steps *)

Lemma proc_step_Some i p s rest :
  p_status p = Running → p_pool p !! i = Some (s :: rest) →
  proc_step i p = Some (run_stmt i s rest p).
Proof. unfold proc_step. by intros -> ->. Qed.

Lemma proc_step_inv i p p' :
  proc_step i p = Some p' →
  ∃ s rest, p_status p = Running ∧ p_pool p !! i = Some (s :: rest) ∧
            p' = run_stmt i s rest p.
Proof.
  unfold proc_step. destruct (p_status p); [|done].
  destruct (p_pool p !! i) as [[|s rest]|]; [done| |done].
  intros [= <-]. eauto.
Qed.

(** The relation and the function are the same steps. *)
Lemma pstep_proc_step p p' : pstep p p' ↔ ∃ i, proc_step i p = Some p'.
Proof.
  split.
  - intros [i p0 s rest Hs Hi]. exists i. by apply proc_step_Some.
  - intros [i (s & rest & Hs & Hi & ->)%proc_step_inv]. by constructor.
Qed.

(** A program that crashed does nothing more. *)
Lemma proc_step_crashed i p q : p_status p = Crashed q → proc_step i p = None.
Proof. unfold proc_step. by intros ->. Qed.

Lemma proc_run_crashed sched p q : p_status p = Crashed q → proc_run sched p = p.
Proof.
  intros Hq. induction sched as [|i sched IH]; simpl; [done|].
  by rewrite (proc_step_crashed i p q).
Qed.

Lemma proc_run_app sched1 sched2 p :
  proc_run (sched1 ++ sched2) p = proc_run sched2 (proc_run sched1 p).
Proof. revert p. induction sched1 as [|i sched1 IH]; intros p; simpl; [done|apply IH]. Qed.

(** A run of a schedule is a run of the relation. *)
Lemma proc_run_rtc sched p : rtc pstep p (proc_run sched p).
Proof.
  revert p. induction sched as [|i sched IH]; intros p; simpl; [done|].
  destruct (proc_step i p) as [p'|] eqn:E; simpl; [|apply IH].
  eapply rtc_l; [|apply IH]. apply pstep_proc_step. eauto.
Qed.

(** How a call of goroutine [i] that panics, returns or ends the
    goroutine changes the program. *)
Lemma proc_step_call i p f rest :
  p_status p = Running → p_pool p !! i = Some (Call f :: rest) →
  proc_step i p =
  Some (Process (w_heap (f (p_world p)).2) (w_globals (f (p_world p)).2)
          (<[i := (ended (f (p_world p)).1 rest).1]> (p_pool p))
          (ended (f (p_world p)).1 rest).2).
Proof. intros Hs Hi. by rewrite (proc_step_Some i p (Call f) rest). Qed.

Lemma proc_step_call_panics i p f rest q w1 :
  p_status p = Running → p_pool p !! i = Some (Call f :: rest) →
  f (p_world p) = (Panicked q, w1) →
  proc_step i p =
  Some (Process (w_heap w1) (w_globals w1) (<[i := []]> (p_pool p)) (Crashed q)).
Proof. intros Hs Hi Hf. by rewrite (proc_step_call i p f rest), Hf. Qed.

(** *** The statements left *)

Lemma goroutine_work_cons s g :
  goroutine_work (s :: g) = stmt_work s + goroutine_work g.
Proof. done. Qed.

Lemma stmt_work_pos s : 0 < stmt_work s.
Proof. destruct s; simpl; lia. Qed.

Lemma ended_work o rest : goroutine_work (ended o rest).1 ≤ goroutine_work rest.
Proof. destruct o as [|?|[?|]]; simpl; lia. Qed.

Lemma pool_work_app pool1 pool2 :
  pool_work (pool1 ++ pool2) = pool_work pool1 + pool_work pool2.
Proof. induction pool1 as [|g pool1 IH]; simpl; [done|]. rewrite IH. lia. Qed.

(** Replacing a goroutine replaces its share of the work. *)
Lemma pool_work_insert pool i g g' :
  pool !! i = Some g →
  pool_work (<[i := g']> pool) + goroutine_work g = pool_work pool + goroutine_work g'.
Proof.
  revert i. induction pool as [|g0 pool IH]; intros [|i] Hi; simplify_eq/=;
    [lia|]. specialize (IH i Hi). lia.
Qed.

(** Every step executes a statement. *)
Lemma run_stmt_work i p s rest :
  p_pool p !! i = Some (s :: rest) → work (run_stmt i s rest p) < work p.
Proof.
  intros Hi. unfold work. destruct s as [f|g]; simpl.
  - pose proof (pool_work_insert _ _ _ (ended (f (p_world p)).1 rest).1 Hi) as Hw.
    pose proof (ended_work (f (p_world p)).1 rest).
    rewrite goroutine_work_cons in Hw. simpl in Hw. lia.
  - pose proof (pool_work_insert _ _ _ rest Hi) as Hw.
    rewrite goroutine_work_cons in Hw. simpl in Hw.
    rewrite pool_work_app. simpl. unfold goroutine_work in *. lia.
Qed.

Lemma pstep_work p p' : pstep p p' → work p' < work p.
Proof. inversion_clear 1. by apply run_stmt_work. Qed.

Lemma nsteps_work n p p' : nsteps pstep n p p' → n + work p' ≤ work p.
Proof.
  induction 1 as [|n p1 p2 p3 H1 _ IH]; [done|]. apply pstep_work in H1. lia.
Qed.

(** *** Goroutines that are ready *)

Lemma first_ready_Some p i :
  first_ready p = Some i → ∃ s rest, p_pool p !! i = Some (s :: rest).
Proof.
  unfold first_ready. destruct (list_find _ _) as [[j g]|] eqn:E; [|done].
  intros [= <-]. apply list_find_Some in E as (Hj & Hg & _).
  destruct g as [|s rest]; [done|eauto].
Qed.

Lemma first_ready_None p : first_ready p = None → Forall (λ g, g = []) (p_pool p).
Proof.
  unfold first_ready. destruct (list_find _ _) as [[j g]|] eqn:E; [done|].
  intros _. apply list_find_None in E.
  eapply Forall_impl; [exact E|]. intros g Hg. simpl in Hg.
  by destruct g; [|destruct Hg].
Qed.

(** A running program that cannot step has finished. *)
Lemma stuck_finished p :
  p_status p = Running → (∀ p', ¬ pstep p p') → finished p.
Proof.
  intros Hs Hstuck. split; [done|].
  destruct (first_ready p) as [i|] eqn:E; [|by apply first_ready_None].
  apply first_ready_Some in E as (s & rest & Hi).
  destruct (Hstuck (run_stmt i s rest p)). by constructor.
Qed.

(** *** Calls that cannot end the program *)

Lemma stmt_calls_Go P g : stmt_calls P (Go g) ↔ Forall (stmt_calls P) g.
Proof.
  simpl. induction g as [|s g IH]; simpl; [by split; [constructor|]|].
  rewrite Forall_cons. by rewrite IH.
Qed.

#[export] Instance expr_stmt_no_panic {A} (f : rg A) :
  NoPanic f → NoPanic (expr_stmt f).
Proof. unfold expr_stmt. apply _. Qed.

(** A protected call returns or ends its goroutine. *)
Lemma protected_no_panic_call `{!HooksReturn} f : protected f → NoPanic f.
Proof.
  intros [A l opts body Hopts|f' Hf]; [|done].
  by apply expr_stmt_no_panic, guarded_no_panic.
Qed.

Lemma ended_rest o rest : (ended o rest).1 = rest ∨ (ended o rest).1 = [].
Proof. destruct o as [|?|[?|]]; simpl; by eauto. Qed.

Lemma ended_no_panic o rest : payload o = None → (ended o rest).2 = Running.
Proof. by destruct o as [|?|[?|]]. Qed.

(** What holds of every call of a program holds of every call after a
    step: a step starts no call that was not there. *)
Lemma run_stmt_calls (P : rg unit → Prop) i p s rest :
  pool_calls P p → p_pool p !! i = Some (s :: rest) →
  pool_calls P (run_stmt i s rest p).
Proof.
  unfold pool_calls. intros Hp Hi.
  pose proof (Forall_lookup_1 _ _ _ _ Hp Hi) as [Hs Hrest]%Forall_cons.
  destruct s as [f|g]; simpl.
  - apply Forall_insert; [done|].
    by destruct (ended_rest (f (p_world p)).1 rest) as [-> | ->].
  - apply Forall_app. split; [by apply Forall_insert|].
    apply Forall_singleton. by apply stmt_calls_Go.
Qed.

Lemma rtc_calls (P : rg unit → Prop) p p' :
  pool_calls P p → rtc pstep p p' → pool_calls P p'.
Proof.
  intros Hp Hsteps. induction Hsteps as [|p1 p2 p3 H1 _ IH]; [done|].
  apply IH. inversion_clear H1. by apply run_stmt_calls.
Qed.

(** A step of a program of protected calls leaves it running. *)
Lemma pstep_protected `{!HooksReturn} p p' :
  pool_calls protected p → pstep p p' → p_status p' = Running.
Proof.
  intros Hp Hstep. inversion_clear Hstep as [i p0 s rest Hs Hi].
  pose proof (Forall_lookup_1 _ _ _ _ Hp Hi) as [Hf _]%Forall_cons.
  destruct s as [f|g]; [|done]. simpl.
  by apply ended_no_panic, protected_no_panic_call.
Qed.

Lemma rtc_protected `{!HooksReturn} p p' :
  pool_calls protected p → p_status p = Running → rtc pstep p p' →
  p_status p' = Running ∧ pool_calls protected p'.
Proof.
  intros Hp Hs Hsteps. split; [|by eapply rtc_calls].
  induction Hsteps as [|p1 p2 p3 H1 _ IH]; [done|].
  apply IH; [by eapply rtc_calls, rtc_once|by eapply pstep_protected].
Qed.

(** A property of the variables that every call keeps holds in every
    state the program reaches: the types of the variables, for
    instance. *)
Lemma rtc_keeps (P : gmap nat value → Prop) p p' :
  pool_calls (Keeps P) p → P (p_heap p) → rtc pstep p p' → P (p_heap p').
Proof.
  intros Hp HP Hsteps. induction Hsteps as [|p1 p2 p3 H1 _ IH]; [done|].
  apply IH; [by eapply rtc_calls, rtc_once|].
  inversion_clear H1 as [i p0 s rest Hs Hi].
  pose proof (Forall_lookup_1 _ _ _ _ Hp Hi) as [Hf _]%Forall_cons.
  destruct s as [f|g]; [|done]. by apply (Hf (p_world p1)).
Qed.

(** [run_all] is a run, and with fuel for the statements left it stops
    only when no goroutine can go on. *)
Lemma run_all_rtc fuel p : rtc pstep p (run_all fuel p).
Proof.
  revert p. induction fuel as [|n IH]; intros p; simpl; [done|].
  destruct (first_ready p ≫= _) as [p'|] eqn:E; [|done].
  apply bind_Some in E as (i & _ & E).
  eapply rtc_l; [|apply IH]. apply pstep_proc_step. eauto.
Qed.

Lemma run_all_stuck fuel p :
  work p ≤ fuel → p_status (run_all fuel p) = Running → finished (run_all fuel p).
Proof.
  revert p. induction fuel as [|n IH]; intros p Hw; simpl.
  - intros Hs. apply stuck_finished; [done|].
    intros p' Hp'%pstep_work. lia.
  - destruct (first_ready p ≫= _) as [p'|] eqn:E.
    + apply bind_Some in E as (i & _ & E). apply IH.
      assert (pstep p p') as Hp'%pstep_work by (apply pstep_proc_step; eauto).
      lia.
    + intros Hs. split; [done|].
      destruct (first_ready p) as [i|] eqn:Ei; [|by apply first_ready_None].
      apply first_ready_Some in Ei as (s & rest & Hi).
      simpl in E. by rewrite (proc_step_Some i p s rest) in E.
Qed.

End laws.

(** ** Theorems *)

Section theorems.
Context `{Hooks}.
Implicit Types (p : process) (rest : goroutine) (i : nat) (q r : value).

(** C12: goroutines whose calls are behind [Guard] cannot end the program.
    When every call of every goroutine, those of the goroutines still to
    be started included, is a function that defers [Guard] with a non-nil
    [err] and no nil option, or a function that does not panic, and the
    observers return, then in every state the program reaches, in
    whatever order the goroutines run, the program is running and its
    calls are still of that kind; in particular it is running after
    every schedule. *)
Theorem guarded_goroutines_never_crash `{!HooksReturn} p :
  pool_calls protected p → p_status p = Running →
  (∀ p', rtc pstep p p' → p_status p' = Running ∧ pool_calls protected p') ∧
  (∀ sched, p_status (proc_run sched p) = Running).
Proof.
  intros Hp Hs. split; [intros p'; by apply rtc_protected|].
  intros sched. by apply (rtc_protected p), proc_run_rtc.
Qed.


Section crash.
Context {T1 T2 T3 T4 T5 T6 T7 B : Type}.
Context (v1 : T1) (v2 : T2) (v3 : T3) (v4 : T4) (v5 : T5) (v6 : T6) (v7 : T7).
Context (k0 : unit → rg B) (k1 : T1 → rg B) (k2 : T1 * T2 → rg B)
  (k3 : T1 * T2 * T3 → rg B) (k4 : T1 * T2 * T3 * T4 → rg B)
  (k5 : T1 * T2 * T3 * T4 * T5 → rg B)
  (k6 : T1 * T2 * T3 * T4 * T5 * T6 → rg B)
  (k7 : T1 * T2 * T3 * T4 * T5 * T6 * T7 → rg B).

(** C18: a panic that nothing absorbs ends the program.  A goroutine that
    calls one of [Must0], [Must], [Must2] ... [Must7] with an error [e]
    outside any barrier ends the program with [e] as the payload printed:
    the variables are as they were, the rest of the statement and of the
    goroutine does not run, and no goroutine runs any more, whatever the
    schedule.  So does a goroutine behind [Guard] when the [OnGuard]
    observer panics: the program ends with the payload of the observer. *)
Theorem unabsorbed_panic_ends_program i p rest e :
  p_status p = Running →
  let crashed q :=
    Process (p_heap p) (p_globals p) (<[i := []]> (p_pool p)) (Crashed q) in
  (∀ f, f ∈ [expr_stmt (x <- call (Must0 (Some e)) ;; k0 x);
             expr_stmt (x <- call (Must v1 (Some e)) ;; k1 x);
             expr_stmt (x <- call (Must2 v1 v2 (Some e)) ;; k2 x);
             expr_stmt (x <- call (Must3 v1 v2 v3 (Some e)) ;; k3 x);
             expr_stmt (x <- call (Must4 v1 v2 v3 v4 (Some e)) ;; k4 x);
             expr_stmt (x <- call (Must5 v1 v2 v3 v4 v5 (Some e)) ;; k5 x);
             expr_stmt (x <- call (Must6 v1 v2 v3 v4 v5 v6 (Some e)) ;; k6 x);
             expr_stmt (x <- call (Must7 v1 v2 v3 v4 v5 v6 v7 (Some e)) ;; k7 x)] →
     p_pool p !! i = Some (Call f :: rest) →
     proc_step i p = Some (crashed (VError e))) ∧
  (∀ q j sched,
     proc_step j (crashed q) = None ∧ proc_run sched (crashed q) = crashed q) ∧
  (∀ A (body : rg A) l opts r w1 q w2,
     Forall is_Some opts → r ≠ VNil →
     body (set_depth 1 (p_world p)) = (Panicked r, w1) →
     notify_OnGuard r (restore_frame None 0 w1) = (Panicked q, w2) →
     p_pool p !! i = Some (Call (expr_stmt (guarded (Some l) opts body)) :: rest) →
     proc_step i p =
     Some (Process (w_heap w2) (w_globals w2) (<[i := []]> (p_pool p)) (Crashed q))).
Proof.
  intros Hs. simpl. split_and!.
  - intros f Hf Hi. apply (proc_step_call_panics i p f rest _ (p_world p)); [done..|].
    repeat (apply elem_of_cons in Hf as [->|Hf]); [..|by apply elem_of_nil in Hf];
      unfold expr_stmt, bind; rewrite (call_frame_indep _ _); by must_unfold.
  - intros q j sched.
    split; [by apply (proc_step_crashed _ _ q)|by apply (proc_run_crashed _ _ q)].
  - intros A body l opts r w1 q w2 Hopts Hr Hb Hn Hi.
    apply (proc_step_call_panics i p (expr_stmt (guarded (Some l) opts body))
      rest q (restore_frame None 0 w2)); [done..|].
    unfold expr_stmt.
    apply run_bind_panicked.
    by apply (run_guarded_observer_panics body (p_world p) (Some l) opts r w1 q w2).
Qed.

End crash.

End theorems.

(** ** On concrete runs *)

Module ProcessRuns.

(** A function that defers [Guard(&err)] and hands [e] to [Must0]. *)
Definition worker `{Hooks} (err : nat) (e : error) : rg unit :=
  expr_stmt (guarded (Some err) [] (call (Must0 e))).

Section recording.
Import Recording.

(** Two goroutines and one they start, each with an [err] of its own
    (variables 1, 2 and 3); [OnGuard] records in variable 4. *)
Definition server : process :=
  Process {[ 1 := VNil; 2 := VNil; 3 := VNil ]} (Globals (Some 4) None)
    [ [Call (worker 1 (Some (errors_New "a")));
       Go [Call (worker 3 (Some (errors_New "c")))];
       Call (worker 1 None)];
      [Call (worker 2 (Some (errors_New "b")))] ]
    Running.

Lemma server_protected : pool_calls protected server.
Proof.
  unfold pool_calls, worker. simpl.
  repeat first [apply Forall_cons; split | apply Forall_nil_2].
  all: simpl; repeat split; by apply protected_guarded.
Qed.

Lemma guarded_goroutines_never_crash_witness :
  p_status (proc_run [0; 1; 0; 2; 0] server) = Running.
Proof.
  apply (proj2 (guarded_goroutines_never_crash server server_protected eq_refl)).
Defined.


(** What the goroutines of [server] leave: each error behind the [err] of
    its goroutine, and the last payload the observer was given. *)
Lemma server_result :
  p_heap (run_all 5 server) =
  {[ 1 := VError (errors_New "a"); 2 := VError (errors_New "b");
     3 := VError (errors_New "c"); 4 := VError (errors_New "c") ]}.
Proof. vm_compute. reflexivity. Qed.

End recording.

Section sample.
Import Sample.

(** A goroutine that calls [Must] outside any barrier, beside one behind
    [Guard]. *)
Definition failfast : process :=
  Process {[ 1 := VNil; 2 := VInt 0 ]} (Globals None None)
    [ [Call (worker 1 (Some (errors_New "a")))];
      [Call (expr_stmt (x <- call (Must 3%Z (Some (errors_New "boom"))) ;;
                        store (Some 2) (VInt x)));
       Call (worker 1 None)] ]
    Running.

Lemma unabsorbed_panic_ends_program_witness :
  proc_run [1; 0; 1] failfast =
  Process {[ 1 := VNil; 2 := VInt 0 ]} (Globals None None)
    [ [Call (worker 1 (Some (errors_New "a")))]; [] ]
    (Crashed (VError (errors_New "boom"))).
Proof.
  pose proof (unabsorbed_panic_ends_program (H:=sample_hooks) (B:=unit)
    3%Z true true true true true true
    (λ _, ret tt) (λ x, store (Some 2) (VInt x)) (λ _, ret tt) (λ _, ret tt)
    (λ _, ret tt) (λ _, ret tt) (λ _, ret tt) (λ _, ret tt)
    1 failfast [Call (worker 1 None)] (errors_New "boom") eq_refl) as (H1 & H2 & _).
  change (proc_run [1; 0; 1] failfast)
    with (proc_run [0; 1] (default failfast (proc_step 1 failfast))).
  rewrite (H1 _ (list_elem_of_further _ _ _ (list_elem_of_here _ _)) eq_refl).
  apply (H2 _ 0 [0; 1]).
Defined.

(** The observer variables are shared and not synchronised: whether the
    observer a goroutine assigns is called by the [Guard] of another
    depends on the schedule. *)
Definition racy : process :=
  Process {[ 1 := VNil; 2 := VNil ]} (Globals None None)
    [ [Call (set_OnGuard (Some (Record_ 2)))];
      [Call (worker 1 (Some (errors_New "a")))] ]
    Running.

Lemma observer_assignment_races :
  p_heap (proc_run [0; 1] racy) !! 2 = Some (VError (errors_New "a")) ∧
  p_heap (proc_run [1; 0] racy) !! 2 = Some VNil.
Proof. split; vm_compute; reflexivity. Qed.

End sample.

Section typed.
Import TypingRuns.

(** Two goroutines over the declared variables of [TypingRuns], with the
    logging observers: one hands an error to [Must0] behind [Guard], the
    other assigns [v] after a call that panics. *)
Definition typed_server : process (H:=logging_hooks) :=
  Process (w_heap typed_world) (w_globals typed_world)
    [ [Call (worker 1 (Some (errors_New "a")))];
      [Call (expr_stmt (guarded (Some 1) [] typed_body))] ]
    Running.

(** In whatever order they run, the variables keep their types. *)
Lemma typed_server_stays_typed p' :
  rtc pstep typed_server p' → heap_typed declared (p_heap p').
Proof.
  apply rtc_keeps; [|refine (bool_decide_unpack _ _); by vm_compute].
  assert (ErrPtr declared (Some 1)) by (by intros l [= <-]).
  unfold pool_calls. split_list; simpl; unfold worker, expr_stmt;
    (apply bind_keeps; [apply (guarded_keeps (H:=logging_hooks) declared); [done|]|apply _]).
  - apply _.
  - apply bind_keeps; [apply _|]. intros _. apply store_keeps. by vm_compute.
Qed.

End typed.

End ProcessRuns.
