(* ===== verification/Scenarios.v ===== *)
(** * Scenarios: the tests of guard_test.go

    Each test of guard_test.go declares its variables, calls a function
    literal that defers [Guard(&err)] and panics or calls a [Must] helper,
    and then checks [err] and the variables with [require].  A test is
    modelled as the function of [t *testing.T] it is: its function
    literals are definitions of their own ([TestGuard_func] and the
    like), the checks are the functions of [Testing.v], and [err.Error()]
    is a method call that panics on a nil [err].  [Testing.run_test] runs
    a test the way [go test] does.

    The theorems say that each test passes from every state in which no
    observer is set, which is the state the test binary runs in: no check
    fails, no panic leaves the test, and the goroutine of the test is not
    ended before the test returns. *)

From S2P Require Import Prelude Effects GoValue Runtime Testing Hooks Guard Must Guarded.

Local Open Scope go_scope.
Local Open Scope Z_scope.

Section tests.
Context `{Hooks}.

(** The function literal of [TestGuard]. *)
Definition TestGuard_func (err : nat) : rg (option unit) :=
  guarded (Some err) [] (gopanic (VError (errors_New "hello"))).

(** [TestGuard]. *)
Definition TestGuard (t : T) : rg unit :=
  err <- go_new VNil ;;
  TestGuard_func err ;;
  e <- load (Some err) ;; call (require_Error t e) ;;
  e <- load (Some err) ;; msg <- error_Error e ;;
  call (require_Equal t (VString "hello") (VString msg)).

(** The function literal of [TestGuardNotError]. *)
Definition TestGuardNotError_func (err : nat) : rg (option unit) :=
  guarded (Some err) [] (gopanic (VString "hello")).

(** [TestGuardNotError]. *)
Definition TestGuardNotError (t : T) : rg unit :=
  err <- go_new VNil ;;
  TestGuardNotError_func err ;;
  e <- load (Some err) ;; call (require_Error t e) ;;
  e <- load (Some err) ;; msg <- error_Error e ;;
  call (require_Equal t (VString "panic: hello") (VString msg)).

(** The function literal of [TestMust0]. *)
Definition TestMust0_func (err : nat) : rg (option unit) :=
  guarded (Some err) [] (call (Must0 (Some (errors_New "hello")))).

(** [TestMust0]. *)
Definition TestMust0 (t : T) : rg unit :=
  err <- go_new VNil ;;
  TestMust0_func err ;;
  e <- load (Some err) ;; call (require_Error t e) ;;
  e <- load (Some err) ;; msg <- error_Error e ;;
  call (require_Equal t (VString "hello") (VString msg)).

(** [TestGuard] with the [defer] statement deleted: what the test is
    there to tell apart. *)
Definition TestGuard_unguarded (t : T) : rg unit :=
  err <- go_new VNil ;;
  go_func [] (gopanic (A:=unit) (VError (errors_New "hello"))) ;;
  e <- load (Some err) ;; call (require_Error t e) ;;
  e <- load (Some err) ;; msg <- error_Error e ;;
  call (require_Equal t (VString "hello") (VString msg)).

(** The function literal of the first block of [TestMust]. *)
Definition TestMust_err_func (err v1 : nat) : rg (option unit) :=
  guarded (Some err) []
    (x <- call (Must 3 (Some (errors_New "hello"))) ;;
     store (Some v1) (VInt x)).

(** [TestMust], first block: the error case. *)
Definition TestMust_err (t : T) : rg unit :=
  err <- go_new VNil ;;
  v1 <- go_new (VInt 0) ;;
  TestMust_err_func err v1 ;;
  e <- load (Some err) ;; call (require_Error t e) ;;
  e <- load (Some err) ;; msg <- error_Error e ;;
  call (require_Equal t (VString "hello") (VString msg)) ;;
  x1 <- load (Some v1) ;; call (require_Equal t (VInt 0) x1).

(** The function literal of the second block of [TestMust]. *)
Definition TestMust_nil_func (err v1 : nat) : rg (option unit) :=
  guarded (Some err) []
    (x <- call (Must 3 None) ;;
     store (Some v1) (VInt x)).

(** [TestMust], second block: the nil case. *)
Definition TestMust_nil (t : T) : rg unit :=
  err <- go_new VNil ;;
  v1 <- go_new (VInt 0) ;;
  TestMust_nil_func err v1 ;;
  e <- load (Some err) ;; call (require_NoError t e) ;;
  x1 <- load (Some v1) ;; call (require_Equal t (VInt 3) x1).

(** [TestMust]. *)
Definition TestMust (t : T) : rg unit :=
  TestMust_err t ;; TestMust_nil t.

(** The function literal of the first block of [TestMust2]. *)
Definition TestMust2_err_func (err v1 v2 : nat) : rg (option unit) :=
  guarded (Some err) []
    (x <- call (Must2 1 2 (Some (errors_New "hello"))) ;;
     store (Some v1) (VInt x.1) ;;
     store (Some v2) (VInt x.2)).

(** [TestMust2], first block: the error case. *)
Definition TestMust2_err (t : T) : rg unit :=
  err <- go_new VNil ;;
  v1 <- go_new (VInt 0) ;;
  v2 <- go_new (VInt 0) ;;
  TestMust2_err_func err v1 v2 ;;
  e <- load (Some err) ;; call (require_Error t e) ;;
  e <- load (Some err) ;; msg <- error_Error e ;;
  call (require_Equal t (VString "hello") (VString msg)) ;;
  x1 <- load (Some v1) ;; call (require_Equal t (VInt 0) x1) ;;
  x2 <- load (Some v2) ;; call (require_Equal t (VInt 0) x2).

(** The function literal of the second block of [TestMust2]. *)
Definition TestMust2_nil_func (err v1 v2 : nat) : rg (option unit) :=
  guarded (Some err) []
    (x <- call (Must2 1 2 None) ;;
     store (Some v1) (VInt x.1) ;;
     store (Some v2) (VInt x.2)).

(** [TestMust2], second block: the nil case. *)
Definition TestMust2_nil (t : T) : rg unit :=
  err <- go_new VNil ;;
  v1 <- go_new (VInt 0) ;;
  v2 <- go_new (VInt 0) ;;
  TestMust2_nil_func err v1 v2 ;;
  e <- load (Some err) ;; call (require_NoError t e) ;;
  x1 <- load (Some v1) ;; call (require_Equal t (VInt 1) x1) ;;
  x2 <- load (Some v2) ;; call (require_Equal t (VInt 2) x2).

(** [TestMust2]. *)
Definition TestMust2 (t : T) : rg unit :=
  TestMust2_err t ;; TestMust2_nil t.

(** The function literal of the first block of [TestMust3]. *)
Definition TestMust3_err_func (err v1 v2 v3 : nat) : rg (option unit) :=
  guarded (Some err) []
    (x <- call (Must3 1 2 3 (Some (errors_New "hello"))) ;;
     store (Some v1) (VInt x.1.1) ;;
     store (Some v2) (VInt x.1.2) ;;
     store (Some v3) (VInt x.2)).

(** [TestMust3], first block: the error case. *)
Definition TestMust3_err (t : T) : rg unit :=
  err <- go_new VNil ;;
  v1 <- go_new (VInt 0) ;;
  v2 <- go_new (VInt 0) ;;
  v3 <- go_new (VInt 0) ;;
  TestMust3_err_func err v1 v2 v3 ;;
  e <- load (Some err) ;; call (require_Error t e) ;;
  e <- load (Some err) ;; msg <- error_Error e ;;
  call (require_Equal t (VString "hello") (VString msg)) ;;
  x1 <- load (Some v1) ;; call (require_Equal t (VInt 0) x1) ;;
  x2 <- load (Some v2) ;; call (require_Equal t (VInt 0) x2) ;;
  x3 <- load (Some v3) ;; call (require_Equal t (VInt 0) x3).

(** The function literal of the second block of [TestMust3]. *)
Definition TestMust3_nil_func (err v1 v2 v3 : nat) : rg (option unit) :=
  guarded (Some err) []
    (x <- call (Must3 1 2 3 None) ;;
     store (Some v1) (VInt x.1.1) ;;
     store (Some v2) (VInt x.1.2) ;;
     store (Some v3) (VInt x.2)).

(** [TestMust3], second block: the nil case. *)
Definition TestMust3_nil (t : T) : rg unit :=
  err <- go_new VNil ;;
  v1 <- go_new (VInt 0) ;;
  v2 <- go_new (VInt 0) ;;
  v3 <- go_new (VInt 0) ;;
  TestMust3_nil_func err v1 v2 v3 ;;
  e <- load (Some err) ;; call (require_NoError t e) ;;
  x1 <- load (Some v1) ;; call (require_Equal t (VInt 1) x1) ;;
  x2 <- load (Some v2) ;; call (require_Equal t (VInt 2) x2) ;;
  x3 <- load (Some v3) ;; call (require_Equal t (VInt 3) x3).

(** [TestMust3]. *)
Definition TestMust3 (t : T) : rg unit :=
  TestMust3_err t ;; TestMust3_nil t.

(** The function literal of the first block of [TestMust4]. *)
Definition TestMust4_err_func (err v1 v2 v3 v4 : nat) : rg (option unit) :=
  guarded (Some err) []
    (x <- call (Must4 1 2 3 4 (Some (errors_New "hello"))) ;;
     store (Some v1) (VInt x.1.1.1) ;;
     store (Some v2) (VInt x.1.1.2) ;;
     store (Some v3) (VInt x.1.2) ;;
     store (Some v4) (VInt x.2)).

(** [TestMust4], first block: the error case. *)
Definition TestMust4_err (t : T) : rg unit :=
  err <- go_new VNil ;;
  v1 <- go_new (VInt 0) ;;
  v2 <- go_new (VInt 0) ;;
  v3 <- go_new (VInt 0) ;;
  v4 <- go_new (VInt 0) ;;
  TestMust4_err_func err v1 v2 v3 v4 ;;
  e <- load (Some err) ;; call (require_Error t e) ;;
  e <- load (Some err) ;; msg <- error_Error e ;;
  call (require_Equal t (VString "hello") (VString msg)) ;;
  x1 <- load (Some v1) ;; call (require_Equal t (VInt 0) x1) ;;
  x2 <- load (Some v2) ;; call (require_Equal t (VInt 0) x2) ;;
  x3 <- load (Some v3) ;; call (require_Equal t (VInt 0) x3) ;;
  x4 <- load (Some v4) ;; call (require_Equal t (VInt 0) x4).

(** The function literal of the second block of [TestMust4]. *)
Definition TestMust4_nil_func (err v1 v2 v3 v4 : nat) : rg (option unit) :=
  guarded (Some err) []
    (x <- call (Must4 1 2 3 4 None) ;;
     store (Some v1) (VInt x.1.1.1) ;;
     store (Some v2) (VInt x.1.1.2) ;;
     store (Some v3) (VInt x.1.2) ;;
     store (Some v4) (VInt x.2)).

(** [TestMust4], second block: the nil case. *)
Definition TestMust4_nil (t : T) : rg unit :=
  err <- go_new VNil ;;
  v1 <- go_new (VInt 0) ;;
  v2 <- go_new (VInt 0) ;;
  v3 <- go_new (VInt 0) ;;
  v4 <- go_new (VInt 0) ;;
  TestMust4_nil_func err v1 v2 v3 v4 ;;
  e <- load (Some err) ;; call (require_NoError t e) ;;
  x1 <- load (Some v1) ;; call (require_Equal t (VInt 1) x1) ;;
  x2 <- load (Some v2) ;; call (require_Equal t (VInt 2) x2) ;;
  x3 <- load (Some v3) ;; call (require_Equal t (VInt 3) x3) ;;
  x4 <- load (Some v4) ;; call (require_Equal t (VInt 4) x4).

(** [TestMust4]. *)
Definition TestMust4 (t : T) : rg unit :=
  TestMust4_err t ;; TestMust4_nil t.

(** The function literal of the first block of [TestMust5]. *)
Definition TestMust5_err_func (err v1 v2 v3 v4 v5 : nat) : rg (option unit) :=
  guarded (Some err) []
    (x <- call (Must5 1 2 3 4 5 (Some (errors_New "hello"))) ;;
     store (Some v1) (VInt x.1.1.1.1) ;;
     store (Some v2) (VInt x.1.1.1.2) ;;
     store (Some v3) (VInt x.1.1.2) ;;
     store (Some v4) (VInt x.1.2) ;;
     store (Some v5) (VInt x.2)).

(** [TestMust5], first block: the error case. *)
Definition TestMust5_err (t : T) : rg unit :=
  err <- go_new VNil ;;
  v1 <- go_new (VInt 0) ;;
  v2 <- go_new (VInt 0) ;;
  v3 <- go_new (VInt 0) ;;
  v4 <- go_new (VInt 0) ;;
  v5 <- go_new (VInt 0) ;;
  TestMust5_err_func err v1 v2 v3 v4 v5 ;;
  e <- load (Some err) ;; call (require_Error t e) ;;
  e <- load (Some err) ;; msg <- error_Error e ;;
  call (require_Equal t (VString "hello") (VString msg)) ;;
  x1 <- load (Some v1) ;; call (require_Equal t (VInt 0) x1) ;;
  x2 <- load (Some v2) ;; call (require_Equal t (VInt 0) x2) ;;
  x3 <- load (Some v3) ;; call (require_Equal t (VInt 0) x3) ;;
  x4 <- load (Some v4) ;; call (require_Equal t (VInt 0) x4) ;;
  x5 <- load (Some v5) ;; call (require_Equal t (VInt 0) x5).

(** The function literal of the second block of [TestMust5]. *)
Definition TestMust5_nil_func (err v1 v2 v3 v4 v5 : nat) : rg (option unit) :=
  guarded (Some err) []
    (x <- call (Must5 1 2 3 4 5 None) ;;
     store (Some v1) (VInt x.1.1.1.1) ;;
     store (Some v2) (VInt x.1.1.1.2) ;;
     store (Some v3) (VInt x.1.1.2) ;;
     store (Some v4) (VInt x.1.2) ;;
     store (Some v5) (VInt x.2)).

(** [TestMust5], second block: the nil case. *)
Definition TestMust5_nil (t : T) : rg unit :=
  err <- go_new VNil ;;
  v1 <- go_new (VInt 0) ;;
  v2 <- go_new (VInt 0) ;;
  v3 <- go_new (VInt 0) ;;
  v4 <- go_new (VInt 0) ;;
  v5 <- go_new (VInt 0) ;;
  TestMust5_nil_func err v1 v2 v3 v4 v5 ;;
  e <- load (Some err) ;; call (require_NoError t e) ;;
  x1 <- load (Some v1) ;; call (require_Equal t (VInt 1) x1) ;;
  x2 <- load (Some v2) ;; call (require_Equal t (VInt 2) x2) ;;
  x3 <- load (Some v3) ;; call (require_Equal t (VInt 3) x3) ;;
  x4 <- load (Some v4) ;; call (require_Equal t (VInt 4) x4) ;;
  x5 <- load (Some v5) ;; call (require_Equal t (VInt 5) x5).

(** [TestMust5]. *)
Definition TestMust5 (t : T) : rg unit :=
  TestMust5_err t ;; TestMust5_nil t.

(** The function literal of the first block of [TestMust6]. *)
Definition TestMust6_err_func (err v1 v2 v3 v4 v5 v6 : nat) : rg (option unit) :=
  guarded (Some err) []
    (x <- call (Must6 1 2 3 4 5 6 (Some (errors_New "hello"))) ;;
     store (Some v1) (VInt x.1.1.1.1.1) ;;
     store (Some v2) (VInt x.1.1.1.1.2) ;;
     store (Some v3) (VInt x.1.1.1.2) ;;
     store (Some v4) (VInt x.1.1.2) ;;
     store (Some v5) (VInt x.1.2) ;;
     store (Some v6) (VInt x.2)).

(** [TestMust6], first block: the error case. *)
Definition TestMust6_err (t : T) : rg unit :=
  err <- go_new VNil ;;
  v1 <- go_new (VInt 0) ;;
  v2 <- go_new (VInt 0) ;;
  v3 <- go_new (VInt 0) ;;
  v4 <- go_new (VInt 0) ;;
  v5 <- go_new (VInt 0) ;;
  v6 <- go_new (VInt 0) ;;
  TestMust6_err_func err v1 v2 v3 v4 v5 v6 ;;
  e <- load (Some err) ;; call (require_Error t e) ;;
  e <- load (Some err) ;; msg <- error_Error e ;;
  call (require_Equal t (VString "hello") (VString msg)) ;;
  x1 <- load (Some v1) ;; call (require_Equal t (VInt 0) x1) ;;
  x2 <- load (Some v2) ;; call (require_Equal t (VInt 0) x2) ;;
  x3 <- load (Some v3) ;; call (require_Equal t (VInt 0) x3) ;;
  x4 <- load (Some v4) ;; call (require_Equal t (VInt 0) x4) ;;
  x5 <- load (Some v5) ;; call (require_Equal t (VInt 0) x5) ;;
  x6 <- load (Some v6) ;; call (require_Equal t (VInt 0) x6).

(** The function literal of the second block of [TestMust6]. *)
Definition TestMust6_nil_func (err v1 v2 v3 v4 v5 v6 : nat) : rg (option unit) :=
  guarded (Some err) []
    (x <- call (Must6 1 2 3 4 5 6 None) ;;
     store (Some v1) (VInt x.1.1.1.1.1) ;;
     store (Some v2) (VInt x.1.1.1.1.2) ;;
     store (Some v3) (VInt x.1.1.1.2) ;;
     store (Some v4) (VInt x.1.1.2) ;;
     store (Some v5) (VInt x.1.2) ;;
     store (Some v6) (VInt x.2)).

(** [TestMust6], second block: the nil case. *)
Definition TestMust6_nil (t : T) : rg unit :=
  err <- go_new VNil ;;
  v1 <- go_new (VInt 0) ;;
  v2 <- go_new (VInt 0) ;;
  v3 <- go_new (VInt 0) ;;
  v4 <- go_new (VInt 0) ;;
  v5 <- go_new (VInt 0) ;;
  v6 <- go_new (VInt 0) ;;
  TestMust6_nil_func err v1 v2 v3 v4 v5 v6 ;;
  e <- load (Some err) ;; call (require_NoError t e) ;;
  x1 <- load (Some v1) ;; call (require_Equal t (VInt 1) x1) ;;
  x2 <- load (Some v2) ;; call (require_Equal t (VInt 2) x2) ;;
  x3 <- load (Some v3) ;; call (require_Equal t (VInt 3) x3) ;;
  x4 <- load (Some v4) ;; call (require_Equal t (VInt 4) x4) ;;
  x5 <- load (Some v5) ;; call (require_Equal t (VInt 5) x5) ;;
  x6 <- load (Some v6) ;; call (require_Equal t (VInt 6) x6).

(** [TestMust6]. *)
Definition TestMust6 (t : T) : rg unit :=
  TestMust6_err t ;; TestMust6_nil t.

(** The function literal of the first block of [TestMust7]. *)
Definition TestMust7_err_func (err v1 v2 v3 v4 v5 v6 v7 : nat) : rg (option unit) :=
  guarded (Some err) []
    (x <- call (Must7 1 2 3 4 5 6 7 (Some (errors_New "hello"))) ;;
     store (Some v1) (VInt x.1.1.1.1.1.1) ;;
     store (Some v2) (VInt x.1.1.1.1.1.2) ;;
     store (Some v3) (VInt x.1.1.1.1.2) ;;
     store (Some v4) (VInt x.1.1.1.2) ;;
     store (Some v5) (VInt x.1.1.2) ;;
     store (Some v6) (VInt x.1.2) ;;
     store (Some v7) (VInt x.2)).

(** [TestMust7], first block: the error case. *)
Definition TestMust7_err (t : T) : rg unit :=
  err <- go_new VNil ;;
  v1 <- go_new (VInt 0) ;;
  v2 <- go_new (VInt 0) ;;
  v3 <- go_new (VInt 0) ;;
  v4 <- go_new (VInt 0) ;;
  v5 <- go_new (VInt 0) ;;
  v6 <- go_new (VInt 0) ;;
  v7 <- go_new (VInt 0) ;;
  TestMust7_err_func err v1 v2 v3 v4 v5 v6 v7 ;;
  e <- load (Some err) ;; call (require_Error t e) ;;
  e <- load (Some err) ;; msg <- error_Error e ;;
  call (require_Equal t (VString "hello") (VString msg)) ;;
  x1 <- load (Some v1) ;; call (require_Equal t (VInt 0) x1) ;;
  x2 <- load (Some v2) ;; call (require_Equal t (VInt 0) x2) ;;
  x3 <- load (Some v3) ;; call (require_Equal t (VInt 0) x3) ;;
  x4 <- load (Some v4) ;; call (require_Equal t (VInt 0) x4) ;;
  x5 <- load (Some v5) ;; call (require_Equal t (VInt 0) x5) ;;
  x6 <- load (Some v6) ;; call (require_Equal t (VInt 0) x6) ;;
  x7 <- load (Some v7) ;; call (require_Equal t (VInt 0) x7).

(** The function literal of the second block of [TestMust7]. *)
Definition TestMust7_nil_func (err v1 v2 v3 v4 v5 v6 v7 : nat) : rg (option unit) :=
  guarded (Some err) []
    (x <- call (Must7 1 2 3 4 5 6 7 None) ;;
     store (Some v1) (VInt x.1.1.1.1.1.1) ;;
     store (Some v2) (VInt x.1.1.1.1.1.2) ;;
     store (Some v3) (VInt x.1.1.1.1.2) ;;
     store (Some v4) (VInt x.1.1.1.2) ;;
     store (Some v5) (VInt x.1.1.2) ;;
     store (Some v6) (VInt x.1.2) ;;
     store (Some v7) (VInt x.2)).

(** [TestMust7], second block: the nil case. *)
Definition TestMust7_nil (t : T) : rg unit :=
  err <- go_new VNil ;;
  v1 <- go_new (VInt 0) ;;
  v2 <- go_new (VInt 0) ;;
  v3 <- go_new (VInt 0) ;;
  v4 <- go_new (VInt 0) ;;
  v5 <- go_new (VInt 0) ;;
  v6 <- go_new (VInt 0) ;;
  v7 <- go_new (VInt 0) ;;
  TestMust7_nil_func err v1 v2 v3 v4 v5 v6 v7 ;;
  e <- load (Some err) ;; call (require_NoError t e) ;;
  x1 <- load (Some v1) ;; call (require_Equal t (VInt 1) x1) ;;
  x2 <- load (Some v2) ;; call (require_Equal t (VInt 2) x2) ;;
  x3 <- load (Some v3) ;; call (require_Equal t (VInt 3) x3) ;;
  x4 <- load (Some v4) ;; call (require_Equal t (VInt 4) x4) ;;
  x5 <- load (Some v5) ;; call (require_Equal t (VInt 5) x5) ;;
  x6 <- load (Some v6) ;; call (require_Equal t (VInt 6) x6) ;;
  x7 <- load (Some v7) ;; call (require_Equal t (VInt 7) x7).

(** [TestMust7]. *)
Definition TestMust7 (t : T) : rg unit :=
  TestMust7_err t ;; TestMust7_nil t.

End tests.

(** ** Running a test *)

(** Evaluate the body of a function literal: calls of the helpers, stores. *)
Ltac run_body :=
  unfold bind; rewrite ?run_call; must_unfold; simpl; reflexivity.

(** Step over a guarded function literal whose body panics with [r]. *)
Ltac step_guarded_panic r :=
  erewrite (run_bind_normal (guarded _ _ _));
    [|apply (run_guarded_panic _ _ _ _ r); [done|done|run_body|done]];
  cbv beta.

(** Step over a guarded function literal whose body returns. *)
Ltac step_guarded_normal :=
  erewrite (run_bind_normal (guarded _ _ _));
    [|apply run_guarded_normal; [done|run_body]];
  cbv beta.

(** Step over a check that holds, in the middle of a test or at its end. *)
Ltac step_require :=
  first
    [ erewrite (run_bind_normal (call (require_Error _ _)));
        [|by apply require_Error_holds]
    | erewrite (run_bind_normal (call (require_NoError _ _)));
        [|by apply require_NoError_holds]
    | erewrite (run_bind_normal (call (require_Equal _ _ _)));
        [|by apply require_Equal_holds]
    | rewrite require_Equal_holds ];
  cbv beta.

(** The heap of a test that only declared variables and assigned them
    holds what it held before. *)
Ltac heap_grows :=
  simpl; repeat (apply insert_subseteq_r; [done|]); done.

(** Finish a test: read the variables back and run the checks. *)
Ltac finish_test :=
  fresh_facts;
  repeat first [step_load | step_require | rewrite run_bind_error_Error];
  split_and!; [done|done|heap_grows].

(** A block whose function literal panics with [errors.New("hello")], and
    one whose function literal returns. *)
Ltac test_err :=
  repeat step_new; step_guarded_panic (VError (errors_New "hello")); finish_test.
Ltac test_nil := repeat step_new; step_guarded_normal; finish_test.

Section theorems.
Context `{Hooks}.
Implicit Types (w : rg_world) (t : T).

(** A block of a test is in order when every check of it holds: it
    returns, leaves the observers unset for the next one, and writes no
    variable but those it declared ([t] is not marked failed). *)
Definition block_ok (b : T → rg unit) : Prop :=
  ∀ t w, unobserved w →
    (b t w).1 = Normal tt ∧ unobserved (b t w).2 ∧ w_heap w ⊆ w_heap (b t w).2.

(** A test passes when [go test] reports [PASS] for it; it leaves the
    observers unset for the next test. *)
Definition passes (test : T → rg unit) : Prop :=
  ∀ w, unobserved w →
    (run_test test w).1 = Normal PASS ∧ unobserved (run_test test w).2.

(** The two blocks of a test in sequence. *)
Lemma block_ok_seq (b1 b2 : T → rg unit) :
  block_ok b1 → block_ok b2 → block_ok (λ t, b1 t ;; b2 t).
Proof.
  intros H1 H2 t w Hu. destruct (H1 t w Hu) as (E1 & Hu1 & Hs1).
  destruct (H2 t _ Hu1) as (E2 & Hu2 & Hs2). unfold bind.
  destruct (b1 t w) as [o1 w1]. simpl in *. subst o1.
  split_and!; [done..|]. by etrans.
Qed.

(** A block in order as [tRunner] calls it. *)
Lemma block_ok_call (b : T → rg unit) t w :
  block_ok b → unobserved w → ∃ w1,
    call (b t) w = (Normal tt, w1) ∧ unobserved w1 ∧ w_heap w ⊆ w_heap w1.
Proof.
  intros Hb Hu. destruct (Hb t (set_depth (S (w_depth w)) w)) as (E & ? & ?);
    [done|].
  eexists. rewrite run_call, E. done.
Qed.

(** A test whose blocks are in order passes. *)
Lemma block_ok_passes (b : T → rg unit) : block_ok b → passes b.
Proof.
  intros Hb w Hu.
  destruct (run_test_PASS b w) as (t & w1 & Ht & Hw1 & ->).
  - intros t (Hf & _ & Hne).
    destruct (block_ok_call b t (test_start t w) Hb) as (w1 & -> & _ & Hs);
      [done|].
    eexists. split; [done|].
    eapply lookup_weaken; [|exact Hs]. simpl. by simplify_map_eq.
  - split; [done|].
    destruct (block_ok_call b t (test_start t w) Hb) as (w2 & E & ? & _);
      [done|].
    rewrite E in Hw1. by simplify_eq.
Qed.

Lemma TestGuard_ok : block_ok TestGuard.
Proof.
  intros t w Hu. unfold TestGuard, TestGuard_func. test_err.
Qed.

Lemma TestGuardNotError_ok : block_ok TestGuardNotError.
Proof.
  intros t w Hu. unfold TestGuardNotError, TestGuardNotError_func.
  repeat step_new. step_guarded_panic (VString "hello"). finish_test.
Qed.

Lemma TestMust0_ok : block_ok TestMust0.
Proof.
  intros t w Hu. unfold TestMust0, TestMust0_func. test_err.
Qed.

Lemma TestMust_err_ok : block_ok TestMust_err.
Proof. intros t w Hu. unfold TestMust_err, TestMust_err_func. test_err. Qed.

Lemma TestMust_nil_ok : block_ok TestMust_nil.
Proof. intros t w Hu. unfold TestMust_nil, TestMust_nil_func. test_nil. Qed.

Lemma TestMust2_err_ok : block_ok TestMust2_err.
Proof. intros t w Hu. unfold TestMust2_err, TestMust2_err_func. test_err. Qed.

Lemma TestMust2_nil_ok : block_ok TestMust2_nil.
Proof. intros t w Hu. unfold TestMust2_nil, TestMust2_nil_func. test_nil. Qed.

Lemma TestMust3_err_ok : block_ok TestMust3_err.
Proof. intros t w Hu. unfold TestMust3_err, TestMust3_err_func. test_err. Qed.

Lemma TestMust3_nil_ok : block_ok TestMust3_nil.
Proof. intros t w Hu. unfold TestMust3_nil, TestMust3_nil_func. test_nil. Qed.

Lemma TestMust4_err_ok : block_ok TestMust4_err.
Proof. intros t w Hu. unfold TestMust4_err, TestMust4_err_func. test_err. Qed.

Lemma TestMust4_nil_ok : block_ok TestMust4_nil.
Proof. intros t w Hu. unfold TestMust4_nil, TestMust4_nil_func. test_nil. Qed.

Lemma TestMust5_err_ok : block_ok TestMust5_err.
Proof. intros t w Hu. unfold TestMust5_err, TestMust5_err_func. test_err. Qed.

Lemma TestMust5_nil_ok : block_ok TestMust5_nil.
Proof. intros t w Hu. unfold TestMust5_nil, TestMust5_nil_func. test_nil. Qed.

Lemma TestMust6_err_ok : block_ok TestMust6_err.
Proof. intros t w Hu. unfold TestMust6_err, TestMust6_err_func. test_err. Qed.

Lemma TestMust6_nil_ok : block_ok TestMust6_nil.
Proof. intros t w Hu. unfold TestMust6_nil, TestMust6_nil_func. test_nil. Qed.

Lemma TestMust7_err_ok : block_ok TestMust7_err.
Proof. intros t w Hu. unfold TestMust7_err, TestMust7_err_func. test_err. Qed.

Lemma TestMust7_nil_ok : block_ok TestMust7_nil.
Proof. intros t w Hu. unfold TestMust7_nil, TestMust7_nil_func. test_nil. Qed.

(** Without the barrier the panic leaves [TestGuard] and the test binary
    crashes: the tests tell a function that defers [Guard] from one that
    does not. *)
Lemma TestGuard_unguarded_crashes w :
  (run_test TestGuard_unguarded w).1 = Normal (CRASH (VError (errors_New "hello"))).
Proof.
  apply run_test_CRASH; [done|]. intros t _. rewrite run_call.
  unfold TestGuard_unguarded. step_new.
  erewrite run_bind_panicked; [|by rewrite run_go_func]. by eexists.
Qed.

#[local] Hint Resolve block_ok_passes block_ok_seq TestGuard_ok
  TestGuardNotError_ok TestMust0_ok
  TestMust_err_ok TestMust_nil_ok
  TestMust2_err_ok TestMust2_nil_ok
  TestMust3_err_ok TestMust3_nil_ok
  TestMust4_err_ok TestMust4_nil_ok
  TestMust5_err_ok TestMust5_nil_ok
  TestMust6_err_ok TestMust6_nil_ok
  TestMust7_err_ok TestMust7_nil_ok : go_tests.

(** C17: the ten tests of guard_test.go pass: from every state in which no
    observer is set, [go test] reports [PASS] for each and the observers
    are left unset.  No [require] fails, no panic leaves a test, and no
    test is stopped before its last statement. *)
Theorem tests_pass :
  passes TestGuard ∧ passes TestGuardNotError ∧ passes TestMust0 ∧
  passes TestMust ∧ passes TestMust2 ∧ passes TestMust3 ∧ passes TestMust4 ∧
  passes TestMust5 ∧ passes TestMust6 ∧ passes TestMust7.
Proof. split_and!; eauto with go_tests. Qed.

End theorems.
